(** * Blitz-API: reservation consistency and payment reconciliation

    A shallow embedding of the reservation core of the retreat application
    ([retirement/serializers.py], [retirement/views.py]) and the properties
    its specification states about it.

    Conventions of the embedding.
    - The relational tables are lists of rows in table order; a primary key
      is a [Z].  A queryset is a filtered list of rows; an object loaded
      from a table is a copy of its row, written back by [save_row].
    - A [datetime] is a number of microseconds (the resolution of Python's
      [datetime]); [timedelta_days d] is the length of [d] days.  The
      successive reads of [timezone.now()] inside one request are one
      instant [now] handed to the request.
    - A [Decimal] amount is an exact rational ([Q]); the 28-digit context
      precision of Python's [Decimal] is not modelled, and the float
      [TAX_RATE] is the rational it stands for.
    - The payment gateway, the mail collaborator and the scheduler are
      outside the program: every call to them is appended to a log of
      [Effect]s, and the answers of the gateway are given by a [Gateway]
      record of functions.  Mail is identified by its template and its
      recipient, and is taken to be delivered.
    - A request is a computation in the monad [M]: it reads and writes the
      tables, appends to the log, and either answers or raises an
      [Exception].  [transaction.atomic] restores the tables when its body
      raises; the calls already made to the outside stay in the log.
    - The sources name the event [Retirement] in [serializers.py] and
      [Retreat] in [views.py]; both are the record [Retreat] here.
    - [retirement/models.py], [store/services.py] and the settings are not
      among the sources.  The columns of the tables are those the views
      and serializers use; the model methods they call are modelled from
      the specification, each under a comment that says so; the gateway
      and the settings are parameters of the requests.
    - Permission classes and soft-deleted rows are not modelled. *)

From Stdlib Require Import ZArith QArith Qround List String Bool Lia.
From Stdlib Require Import Sorted Permutation.
Import ListNotations.

Open Scope string_scope.
Open Scope list_scope.
Open Scope Z_scope.

(** ** Time *)

Definition datetime := Z.

Definition timedelta_days (d : Z) : Z := d * 86400000000.

Definition timedelta_hours_minutes (h m : Z) : Z :=
  h * 3600000000 + m * 60000000.

(** ** Decimal arithmetic *)

Definition Decimal := Q.

Definition Qlt_bool (a b : Q) : bool := negb (Qle_bool b a).

(** [round(x)] of a [Decimal] to an integer: ties go to the even neighbour. *)
Definition round_half_even (x : Q) : Z :=
  let f := Qfloor x in
  match Qcompare (x - inject_Z f) (1 # 2) with
  | Lt => f
  | Gt => f + 1
  | Eq => if Z.even f then f else f + 1
  end.

(** [round(x, 2)] *)
Definition round2 (x : Decimal) : Decimal :=
  Qmake (round_half_even (x * inject_Z 100)) 100.

(** [int(x)]: truncation towards zero. *)
Definition int_of_Decimal (x : Decimal) : Z :=
  Z.quot (Qnum x) (Z.pos (Qden x)).

(** ** The data model *)

Record Retreat := {
  retreat_pk : Z;
  seats : Z;
  reserved_seats : Z;
  price : Decimal;
  start_time : datetime;
  end_time : datetime;
  min_day_refund : Z;
  min_day_exchange : Z;
  refund_rate : Z;
  next_user_notified : Z;
  retreat_is_active : bool;
  hidden : bool
}.

Record Reservation := {
  reservation_pk : Z;
  user : Z;
  retreat : Z;
  order_line : option Z;
  is_active : bool;
  is_present : bool;
  cancelation_reason : option string;
  cancelation_action : option string;
  cancelation_date : option datetime
}.

Record Order := {
  order_pk : Z;
  order_user : Z;
  transaction_date : datetime;
  authorization_id : Z;
  settlement_id : Z;
  reference_number : option Z
}.

Record OrderLine := {
  order_line_pk : Z;
  order : Z;
  quantity : Z;
  object_id : Z;
  cost : option Decimal
}.

Inductive RefundDetails :=
| ExchangeRetirement (old_retreat new_retreat : Z)
| RefundReason (reason : string).

Record Refund := {
  refund_pk : Z;
  orderline : option Z;
  refund_date : datetime;
  amount : Decimal;
  details : RefundDetails
}.

Record PaymentProfile := {
  profile_pk : Z;
  owner : Z;
  external_api_id : Z
}.

Record WaitQueue := {
  wait_queue_pk : Z;
  wq_user : Z;
  wq_retreat : Z;
  wq_created_at : datetime
}.

Record WaitQueueNotification := {
  notification_pk : Z;
  wqn_user : Z;
  wqn_retreat : Z;
  wqn_created_at : datetime
}.

Record DB := {
  retreats : list Retreat;
  reservations : list Reservation;
  orders : list Order;
  order_lines : list OrderLine;
  refunds : list Refund;
  payment_profiles : list PaymentProfile;
  wait_queue : list WaitQueue;
  wait_queue_notifications : list WaitQueueNotification
}.

Definition set_retreats (d : DB) (l : list Retreat) : DB :=
  {| retreats := l; reservations := reservations d; orders := orders d;
     order_lines := order_lines d; refunds := refunds d;
     payment_profiles := payment_profiles d; wait_queue := wait_queue d;
     wait_queue_notifications := wait_queue_notifications d |}.

Definition set_reservations (d : DB) (l : list Reservation) : DB :=
  {| retreats := retreats d; reservations := l; orders := orders d;
     order_lines := order_lines d; refunds := refunds d;
     payment_profiles := payment_profiles d; wait_queue := wait_queue d;
     wait_queue_notifications := wait_queue_notifications d |}.

Definition set_orders (d : DB) (l : list Order) : DB :=
  {| retreats := retreats d; reservations := reservations d; orders := l;
     order_lines := order_lines d; refunds := refunds d;
     payment_profiles := payment_profiles d; wait_queue := wait_queue d;
     wait_queue_notifications := wait_queue_notifications d |}.

Definition set_order_lines (d : DB) (l : list OrderLine) : DB :=
  {| retreats := retreats d; reservations := reservations d;
     orders := orders d; order_lines := l; refunds := refunds d;
     payment_profiles := payment_profiles d; wait_queue := wait_queue d;
     wait_queue_notifications := wait_queue_notifications d |}.

Definition set_refunds (d : DB) (l : list Refund) : DB :=
  {| retreats := retreats d; reservations := reservations d;
     orders := orders d; order_lines := order_lines d; refunds := l;
     payment_profiles := payment_profiles d; wait_queue := wait_queue d;
     wait_queue_notifications := wait_queue_notifications d |}.

Definition set_payment_profiles (d : DB) (l : list PaymentProfile) : DB :=
  {| retreats := retreats d; reservations := reservations d;
     orders := orders d; order_lines := order_lines d; refunds := refunds d;
     payment_profiles := l; wait_queue := wait_queue d;
     wait_queue_notifications := wait_queue_notifications d |}.

Definition set_wait_queue (d : DB) (l : list WaitQueue) : DB :=
  {| retreats := retreats d; reservations := reservations d;
     orders := orders d; order_lines := order_lines d; refunds := refunds d;
     payment_profiles := payment_profiles d; wait_queue := l;
     wait_queue_notifications := wait_queue_notifications d |}.

Definition set_wait_queue_notifications (d : DB)
    (l : list WaitQueueNotification) : DB :=
  {| retreats := retreats d; reservations := reservations d;
     orders := orders d; order_lines := order_lines d; refunds := refunds d;
     payment_profiles := payment_profiles d; wait_queue := wait_queue d;
     wait_queue_notifications := l |}.

(** Process-wide configuration ([settings.LOCAL_SETTINGS]). *)
Record Settings := {
  SELLING_TAX : Decimal;
  RETREAT_NOTIFICATION_LIFETIME_DAYS : Z
}.

(** ** Table primitives *)

Section Tables.
Context {A : Type} (pk : A -> Z).

(** [objects.get(pk=id)] *)
Definition get_row (id : Z) (rows : list A) : option A :=
  find (fun r => pk r =? id) rows.

(** The key the database gives to the next inserted row. *)
Definition next_pk (rows : list A) : Z :=
  1 + fold_right Z.max 0 (map pk rows).

(** [obj.save()] of an object that has a primary key: the row with that
    key is overwritten, and the object is inserted when no row has it. *)
Definition save_row (r : A) (rows : list A) : list A :=
  if existsb (fun x => pk x =? pk r) rows
  then map (fun x => if pk x =? pk r then r else x) rows
  else rows ++ [r].

(** [queryset.delete()] of the rows selected by [sel]. *)
Definition delete_rows (sel : A -> bool) (rows : list A) : list A :=
  filter (fun x => negb (sel x)) rows.
End Tables.

(** ** Requests, exceptions and effects *)

Inductive PaymentAPIError :=
| PAYSAFE_3406
| PaysafeError (message : string).

Inductive Exception :=
| ValidationError (key : string) (message : string)
| PaymentValidationError (err : PaymentAPIError)
| Http404
| AttributeError
| KeyError
| FieldError
| UnboundLocalError
| TypeError
| ValueError
| DoesNotExist.

Record ChargeResponse := {
  charge_id : Z;
  charge_settlement_id : Z;
  merchantRefNum : Z
}.

(** The answers of the payment gateway ([store.services]). *)
Record Gateway := {
  gw_create_external_payment_profile : Z -> PaymentAPIError + Z;
  gw_create_external_card : Z -> string -> PaymentAPIError + string;
  gw_charge_payment : Z -> string -> Z -> PaymentAPIError + ChargeResponse;
  gw_refund_amount : Z -> Z -> PaymentAPIError + unit
}.

(** The calls to the outside, named after the functions called.  An
    amount is in integer cents; [send_mail] carries the name of the
    template and the recipient. *)
Inductive Effect :=
| create_external_payment_profile (user : Z)
| create_external_card (external_api_id : Z) (single_use_token : string)
| charge_payment (amount : Z) (payment_token : string) (reference : Z)
| refund_amount (settlement_id : Z) (amount : Z)
| send_mail (template : string) (recipient : Z)
| notify_scheduler_waite_queue (retreat : Z).

Record World := {
  db : DB;
  log : list Effect
}.

Definition M (A : Type) : Type := World -> (Exception + A) * World.

Definition ret {A} (a : A) : M A := fun w => (inr a, w).

Definition bind {A B} (m : M A) (k : A -> M B) : M B :=
  fun w => match m w with
           | (inl e, w') => (inl e, w')
           | (inr a, w') => k a w'
           end.

Definition raise {A} (e : Exception) : M A := fun w => (inl e, w).

Definition get_db : M DB := fun w => (inr (db w), w).

Definition put_db (d : DB) : M unit :=
  fun w => (inr tt, {| db := d; log := log w |}).

Definition emit (e : Effect) : M unit :=
  fun w => (inr tt, {| db := db w; log := log w ++ [e] |}).

(** [with transaction.atomic():] *)
Definition atomic {A} (m : M A) : M A :=
  fun w => match m w with
           | (inl e, w') => (inl e, {| db := db w; log := log w' |})
           | (inr a, w') => (inr a, w')
           end.

(** A foreign key or a lookup that must find its row. *)
Definition must {A} (o : option A) (e : Exception) : M A :=
  match o with
  | Some a => ret a
  | None => raise e
  end.

Definition when (b : bool) (m : M unit) : M unit :=
  if b then m else ret tt.

Definition is_some {A} (o : option A) : bool :=
  match o with
  | Some _ => true
  | None => false
  end.

Declare Scope monad_scope.
Delimit Scope monad_scope with monad.
Notation "x <- m ;; k" := (bind m (fun x => k))
  (at level 61, m at next level, right associativity) : monad_scope.
Notation "m ;; k" := (bind m (fun _ => k))
  (at level 61, right associativity) : monad_scope.
Open Scope monad_scope.

(** ** Properties and methods of the models

    [retirement/models.py] is not among the sources; what the views and
    serializers use of it is given here. *)

(** Modelled from the spec: [Retreat.total_reservations], the number of
    active reservations of the event ([active_reservation_count]). *)
Definition total_reservations (d : DB) (r : Retreat) : Z :=
  Z.of_nat (List.length
    (filter (fun x => is_active x && (retreat x =? retreat_pk r))
            (reservations d))).

(** Modelled from the spec: [Retreat.places_remaining],
    [seats - active_reservation_count - reserved_seats]. *)
Definition places_remaining (d : DB) (r : Retreat) : Z :=
  seats r - total_reservations d r - reserved_seats r.

Module RetirementSerializer.

(** [obj.reservations.filter(is_active=True).count()] *)
Definition count_active_reservations (d : DB) (obj : Retreat) : Z :=
  Z.of_nat (List.length
    (filter (fun x => retreat x =? retreat_pk obj)
       (filter is_active (reservations d)))).

Definition get_places_remaining (d : DB) (obj : Retreat) : Z :=
  let seats := seats obj in
  let reserved_seats := reserved_seats obj in
  let reservations := count_active_reservations d obj in
  seats - reservations - reserved_seats.

(** [get_reservations]: the links to the active reservations of the event.
    [reverse] builds the link of a reservation from its key
    ([rest_framework.reverse.reverse] with the request at hand). *)
Definition get_reservations (reverse : Z -> string) (d : DB) (obj : Retreat)
    : list string :=
  let reservation_ids :=
    map reservation_pk
      (filter (fun x => is_active x && (retreat x =? retreat_pk obj))
         (reservations d)) in
  map reverse reservation_ids.

(** [get_reservations_canceled]: the links to its inactive reservations. *)
Definition get_reservations_canceled (reverse : Z -> string) (d : DB)
    (obj : Retreat) : list string :=
  let reservation_ids :=
    map reservation_pk
      (filter (fun x => negb (is_active x) && (retreat x =? retreat_pk obj))
         (reservations d)) in
  map reverse reservation_ids.

End RetirementSerializer.

(** ** [ReservationSerializer] *)

(** [view.action]: the name of the request handler. *)
Inductive Action := create | partial_update | put_update | destroy_action.

Record Context := {
  request_user : Z;
  request_user_is_staff : bool;
  view_action : Action
}.

(** The dictionary [attrs] / [validated_data]: a key is present or not.
    [a_retirement] holds the model object the hyperlink was resolved to. *)
Record Attrs := {
  a_user : option Z;
  a_retirement : option Retreat;
  a_order_line : option (option Z);
  a_is_active : option bool;
  a_is_present : option bool;
  a_cancelation_reason : option (option string);
  a_cancelation_action : option (option string);
  a_cancelation_date : option (option datetime);
  a_payment_token : option (option string);
  a_single_use_token : option (option string)
}.

Definition option_eqb {A} (eqb : A -> A -> bool) (x y : option A) : bool :=
  match x, y with
  | Some a, Some b => eqb a b
  | None, None => true
  | _, _ => false
  end.

(** One keyword of a Django lookup: an absent key constrains nothing. *)
Definition lookup_matches {A} (eqb : A -> A -> bool) (given : option A)
    (actual : A) : bool :=
  match given with
  | None => true
  | Some v => eqb v actual
  end.

(** Python truth value of an optional string: [None] and [''] are false. *)
Definition truthy (s : option string) : bool :=
  match s with
  | Some s => negb (String.eqb s "")
  | None => false
  end.

(** [dict.pop(key, None)] on a key whose value may itself be [None]. *)
Definition pop_token (v : option (option string)) : option string :=
  match v with
  | Some t => t
  | None => None
  end.

Definition non_field_errors := "non_field_errors".

Definition only_is_present_and_retirement :=
  "Only is_present and retirement can be updated. To change other fields, delete this reservation and create a new one.".

Definition overlaps_with_another :=
  "This reservation overlaps with another active reservations for this user.".

Definition quantity_bigger_than_1 :=
  "The order containing this reservation has a quantity bigger than 1. Please contact the support team.".

Definition more_expensive :=
  "The new retirement is more expensive than the current one. Provide a payment_token or single_use_token to charge the balance.".

Definition already_assigned :=
  "That retirement is already assigned to this object.".

Definition maximum_exchange_date_exceeded :=
  "Maximum exchange date exceeded.".

Definition no_places_left :=
  "There are no places left in the requested retirement.".

Definition not_charged_yet :=
  "The order has not been charged yet. Try again later.".

Definition payment_system_error :=
  "An error occured with the payment system. Please try again later.".

(** [values_list('retirement__start_time', 'retirement__end_time')]: the
    join with the event table. *)
Definition values_list_start_end (d : DB) (rows : list Reservation)
    : list (datetime * datetime) :=
  flat_map (fun x =>
      match get_row retreat_pk (retreat x) (retreats d) with
      | Some r => [(start_time r, end_time r)]
      | None => []
      end) rows.

(** The loop [for retirements in active_reservations: if max(...) <
    min(...): raise]. *)
Definition overlaps (start end_ : datetime)
    (active_reservations : list (datetime * datetime)) : bool :=
  existsb (fun retirements =>
      Z.max (fst retirements) start <? Z.min (snd retirements) end_)
    active_reservations.

Module ReservationSerializer.

(** [Reservation.objects.filter(...).exclude] applied to the keywords of
    [validated_data]: the row is left out when every key of the dictionary
    matches it. *)
Definition matches_validated_data (vd : Attrs) (x : Reservation) : bool :=
  lookup_matches Z.eqb (a_user vd) (user x)
  && lookup_matches Z.eqb (option_map retreat_pk (a_retirement vd)) (retreat x)
  && lookup_matches (option_eqb Z.eqb) (a_order_line vd) (order_line x)
  && lookup_matches Bool.eqb (a_is_active vd) (is_active x)
  && lookup_matches Bool.eqb (a_is_present vd) (is_present x)
  && lookup_matches (option_eqb String.eqb) (a_cancelation_reason vd)
       (cancelation_reason x)
  && lookup_matches (option_eqb String.eqb) (a_cancelation_action vd)
       (cancelation_action x)
  && lookup_matches (option_eqb Z.eqb) (a_cancelation_date vd)
       (cancelation_date x).

(** What is left of the dictionary once [is_present], [retirement],
    [payment_token] and [single_use_token] are popped. *)
Definition is_invalid (vd : Attrs) : bool :=
  match a_user vd, a_order_line vd, a_is_active vd,
        a_cancelation_reason vd, a_cancelation_action vd,
        a_cancelation_date vd with
  | None, None, None, None, None, None => false
  | _, _, _, _, _, _ => true
  end.

(** [token] keys are not columns of the table: [exclude] refuses them. *)
Definition has_unknown_lookup (vd : Attrs) : bool :=
  match a_payment_token vd, a_single_use_token vd with
  | None, None => false
  | _, _ => true
  end.

Definition validate (d : DB) (ctx : Context) (attrs : Attrs)
    : Exception + Attrs :=
  let validated_data := attrs in
  match view_action ctx with
  | partial_update =>
      if is_invalid validated_data
      then inl (ValidationError non_field_errors
                  only_is_present_and_retirement)
      else inr attrs
  | _ =>
      match a_retirement validated_data with
      | None => inl KeyError
      | Some retirement =>
          let start := start_time retirement in
          let end_ := end_time retirement in
          match a_user validated_data with
          | None => inl KeyError
          | Some u =>
              if has_unknown_lookup validated_data then inl FieldError
              else
                let active_reservations :=
                  values_list_start_end d
                    (filter (fun x => negb (matches_validated_data
                                              validated_data x))
                       (filter (fun x => (user x =? u) && is_active x)
                          (reservations d))) in
                if overlaps start end_ active_reservations
                then inl (ValidationError non_field_errors
                            overlaps_with_another)
                else inr attrs
          end
      end
  end.

(** [(instance.retirement.start_time - timezone.now()) >=
    timedelta(days=min_days)] *)
Definition respects_minimum_days (now : datetime) (r : Retreat)
    (min_days : Z) : bool :=
  timedelta_days min_days <=? start_time r - now.

(** The test guarding "There are no places left in the requested
    retirement." *)
Definition no_place_for (d : DB) (u : Z) (retirement : Retreat) : bool :=
  negb ((seats retirement - total_reservations d retirement
           - reserved_seats retirement >? 0)
        || (negb (reserved_seats retirement =? 0)
            && existsb (fun n => (wqn_user n =? u)
                                 && (wqn_retreat n =? retreat_pk retirement))
                 (wait_queue_notifications d))).

(** [user_waiting = retirement.wait_queue.filter(user=user)] followed by
    [if user_waiting: user_waiting.delete()] *)
Definition delete_user_waiting (u : Z) (retirement : Retreat) : M unit :=
  d <- get_db ;;
  put_db (set_wait_queue d
    (delete_rows (fun q => (wq_retreat q =? retreat_pk retirement)
                           && (wq_user q =? u)) (wait_queue d))).

(** [amount *= Decimal(TAX_RATE + 1); amount = round(amount * 100, 2)] *)
Definition amount_with_tax_in_cents (cfg : Settings) (amount : Decimal)
    : Decimal :=
  round2 ((amount * (SELLING_TAX cfg + 1)) * inject_Z 100)%Q.

Definition with_order_line (vd : Attrs) (ol : option Z) : Attrs :=
  {| a_user := a_user vd; a_retirement := a_retirement vd;
     a_order_line := Some ol; a_is_active := a_is_active vd;
     a_is_present := a_is_present vd;
     a_cancelation_reason := a_cancelation_reason vd;
     a_cancelation_action := a_cancelation_action vd;
     a_cancelation_date := a_cancelation_date vd;
     a_payment_token := a_payment_token vd;
     a_single_use_token := a_single_use_token vd |}.

(** The dictionary after [pop('payment_token')], [pop('single_use_token')]
    and, unless the requester is staff, [pop('is_present')]. *)
Definition popped (is_staff : bool) (vd : Attrs) : Attrs :=
  {| a_user := a_user vd; a_retirement := a_retirement vd;
     a_order_line := a_order_line vd; a_is_active := a_is_active vd;
     a_is_present := if is_staff then a_is_present vd else None;
     a_cancelation_reason := a_cancelation_reason vd;
     a_cancelation_action := a_cancelation_action vd;
     a_cancelation_date := a_cancelation_date vd;
     a_payment_token := None;
     a_single_use_token := None |}.

Definition or_else {A} (o : option A) (a : A) : A :=
  match o with
  | Some v => v
  | None => a
  end.

(** [ModelSerializer.update]: every key of the dictionary is set on the
    instance, which is then saved. *)
Definition set_attrs (vd : Attrs) (x : Reservation) : Reservation :=
  {| reservation_pk := reservation_pk x;
     user := or_else (a_user vd) (user x);
     retreat := or_else (option_map retreat_pk (a_retirement vd)) (retreat x);
     order_line := or_else (a_order_line vd) (order_line x);
     is_active := or_else (a_is_active vd) (is_active x);
     is_present := or_else (a_is_present vd) (is_present x);
     cancelation_reason :=
       or_else (a_cancelation_reason vd) (cancelation_reason x);
     cancelation_action :=
       or_else (a_cancelation_action vd) (cancelation_action x);
     cancelation_date :=
       or_else (a_cancelation_date vd) (cancelation_date x) |}.

Definition super_update (instance : Reservation) (vd : Attrs)
    : M Reservation :=
  let instance := set_attrs vd instance in
  d <- get_db ;;
  put_db (set_reservations d
            (save_row reservation_pk instance (reservations d))) ;;
  ret instance.

(** The checks of the exchange that come before its inner transaction
    (from the quantity test to the overlap loop).  The result is
    [(need_transaction, need_refund, amount, profile)]. *)
Definition exchange_checks (gw : Gateway) (now : datetime)
    (instance : Reservation) (current_retirement new_retirement : Retreat)
    (payment_token single_use_token : option string)
    (profile : option PaymentProfile)
    : M (bool * bool * Decimal * option PaymentProfile) :=
  let u := user instance in
  d <- get_db ;;
  ol_pk <- must (order_line instance) AttributeError ;;
  ol <- must (get_row order_line_pk ol_pk (order_lines d)) DoesNotExist ;;
  if quantity ol >? 1
  then raise (ValidationError non_field_errors quantity_bigger_than_1)
  else
  let respects_minimum_days :=
    respects_minimum_days now current_retirement
      (min_day_exchange current_retirement) in
  let need_transaction :=
    Qlt_bool (price current_retirement) (price new_retirement) in
  if need_transaction && negb (truthy payment_token || truthy single_use_token)
  then raise (ValidationError non_field_errors more_expensive)
  else
  let need_refund :=
    Qlt_bool (price new_retirement) (price current_retirement) in
  let amount : Decimal :=
    if need_refund
    then (price current_retirement - price new_retirement)%Q
    else if need_transaction
         then (price new_retirement - price current_retirement)%Q
         else 0%Q in
  if retreat_pk current_retirement =? retreat_pk new_retirement
  then raise (ValidationError "retirement" already_assigned)
  else
  if negb respects_minimum_days
  then raise (ValidationError non_field_errors maximum_exchange_date_exceeded)
  else
  profile <-
    (if need_transaction && truthy single_use_token
        && match profile with None => true | Some _ => false end
     then
       emit (create_external_payment_profile u) ;;
       match gw_create_external_payment_profile gw u with
       | inl err => raise (PaymentValidationError err)
       | inr ext_id =>
           d <- get_db ;;
           let p := {| profile_pk := next_pk profile_pk (payment_profiles d);
                       owner := u; external_api_id := ext_id |} in
           put_db (set_payment_profiles d (payment_profiles d ++ [p])) ;;
           ret (Some p)
       end
     else ret profile) ;;
  let start := start_time new_retirement in
  let end_ := end_time new_retirement in
  d <- get_db ;;
  let active_reservations :=
    values_list_start_end d
      (filter (fun x => negb (reservation_pk x =? reservation_pk instance))
         (filter (fun x => (user x =? u) && is_active x) (reservations d))) in
  if overlaps start end_ active_reservations
  then raise (ValidationError non_field_errors overlaps_with_another)
  else ret (need_transaction, need_refund, amount, profile).

(** The block [if need_transaction:] of the inner transaction.  The
    result is the key of the order line created for the new event. *)
Definition charge_balance (cfg : Settings) (gw : Gateway) (now : datetime)
    (instance : Reservation) (current_retirement new_retirement : Retreat)
    (payment_token single_use_token : option string)
    (profile : option PaymentProfile) (amount : Decimal) : M Z :=
  let u := user instance in
  d <- get_db ;;
  let order_ :=
    {| order_pk := next_pk order_pk (orders d); order_user := u;
       transaction_date := now; authorization_id := 1; settlement_id := 1;
       reference_number := None |} in
  put_db (set_orders d (orders d ++ [order_])) ;;
  d <- get_db ;;
  let orderline_ :=
    {| order_line_pk := next_pk order_line_pk (order_lines d);
       order := order_pk order_; quantity := 1;
       object_id := retreat_pk new_retirement; cost := None |} in
  put_db (set_order_lines d (order_lines d ++ [orderline_])) ;;
  let refund_value := (price current_retirement * (SELLING_TAX cfg + 1))%Q in
  d <- get_db ;;
  put_db (set_refunds d (refunds d ++
    [{| refund_pk := next_pk refund_pk (refunds d);
        orderline := order_line instance; refund_date := now;
        amount := refund_value;
        details := ExchangeRetirement (retreat_pk current_retirement)
                     (retreat_pk new_retirement) |}])) ;;
  let amount := amount_with_tax_in_cents cfg amount in
  let retirement := new_retirement in
  d <- get_db ;;
  if no_place_for d u retirement
  then raise (ValidationError non_field_errors no_places_left)
  else
  delete_user_waiting u retirement ;;
  charge_response <-
    (if truthy payment_token && negb (int_of_Decimal amount =? 0)
     then
       let token := or_else payment_token "" in
       emit (charge_payment (int_of_Decimal amount) token (order_pk order_)) ;;
       match gw_charge_payment gw (int_of_Decimal amount) token
               (order_pk order_) with
       | inl err => raise (PaymentValidationError err)
       | inr response => ret (Some response)
       end
     else if truthy single_use_token && negb (int_of_Decimal amount =? 0)
     then
       p <- must profile AttributeError ;;
       let token := or_else single_use_token "" in
       emit (create_external_card (external_api_id p) token) ;;
       match gw_create_external_card gw (external_api_id p) token with
       | inl err => raise (PaymentValidationError err)
       | inr paymentToken =>
           emit (charge_payment (int_of_Decimal amount) paymentToken
                   (order_pk order_)) ;;
           match gw_charge_payment gw (int_of_Decimal amount) paymentToken
                   (order_pk order_) with
           | inl err => raise (PaymentValidationError err)
           | inr response => ret (Some response)
           end
       end
     else ret None) ;;
  charge_res_content <- must charge_response UnboundLocalError ;;
  let order_ :=
    {| order_pk := order_pk order_; order_user := order_user order_;
       transaction_date := transaction_date order_;
       authorization_id := charge_id charge_res_content;
       settlement_id := charge_settlement_id charge_res_content;
       reference_number := Some (merchantRefNum charge_res_content) |} in
  d <- get_db ;;
  put_db (set_orders d (save_row order_pk order_ (orders d))) ;;
  emit (send_mail "invoice" (order_user order_)) ;;
  ret (order_line_pk orderline_).

(** The block [if need_refund:] of the inner transaction. *)
Definition refund_balance (cfg : Settings) (gw : Gateway) (now : datetime)
    (instance : Reservation) (current_retirement new_retirement : Retreat)
    (amount : Decimal) : M unit :=
  let u := user instance in
  let amount := amount_with_tax_in_cents cfg amount in
  let retirement := new_retirement in
  d <- get_db ;;
  if no_place_for d u retirement
  then raise (ValidationError non_field_errors no_places_left)
  else
  delete_user_waiting u retirement ;;
  d <- get_db ;;
  ol_pk <- must (order_line instance) AttributeError ;;
  ol <- must (get_row order_line_pk ol_pk (order_lines d)) DoesNotExist ;;
  o <- must (get_row order_pk (order ol) (orders d)) DoesNotExist ;;
  emit (refund_amount (settlement_id o) (int_of_Decimal amount)) ;;
  match gw_refund_amount gw (settlement_id o) (int_of_Decimal amount) with
  | inl PAYSAFE_3406 =>
      raise (ValidationError non_field_errors not_charged_yet)
  | inl err => raise (PaymentValidationError err)
  | inr _ =>
      d <- get_db ;;
      put_db (set_refunds d (refunds d ++
        [{| refund_pk := next_pk refund_pk (refunds d);
            orderline := order_line instance; refund_date := now;
            amount := (amount / inject_Z 100)%Q;
            details := ExchangeRetirement (retreat_pk current_retirement)
                         (retreat_pk new_retirement) |}])) ;;
      emit (send_mail "refund" u)
  end.

Definition with_pk (x : Reservation) (pk : Z) : Reservation :=
  {| reservation_pk := pk; user := user x; retreat := retreat x;
     order_line := order_line x; is_active := is_active x;
     is_present := is_present x;
     cancelation_reason := cancelation_reason x;
     cancelation_action := cancelation_action x;
     cancelation_date := cancelation_date x |}.

(** The exchange: the body of [if (action == 'partial_update' and
    validated_data.get('retirement'))].  The result is the copy
    [canceled_reservation], the re-fetched [instance] and the dictionary
    handed on to [super().update]. *)
Definition exchange (cfg : Settings) (gw : Gateway) (now : datetime)
    (instance : Reservation) (current_retirement new_retirement : Retreat)
    (payment_token single_use_token : option string)
    (profile : option PaymentProfile) (validated_data : Attrs)
    : M (Reservation * Reservation * Attrs) :=
  checked <- exchange_checks gw now instance current_retirement
               new_retirement payment_token single_use_token profile ;;
  let '(need_transaction, need_refund, amount, profile) := checked in
  atomic (
    validated_data <-
      (if need_transaction
       then
         orderline_pk <- charge_balance cfg gw now instance
                           current_retirement new_retirement payment_token
                           single_use_token profile amount ;;
         ret (with_order_line validated_data (Some orderline_pk))
       else ret validated_data) ;;
    when need_refund
      (refund_balance cfg gw now instance current_retirement new_retirement
         amount) ;;
    d <- get_db ;;
    let canceled_reservation :=
      with_pk instance (next_pk reservation_pk (reservations d)) in
    put_db (set_reservations d (reservations d ++ [canceled_reservation])) ;;
    d <- get_db ;;
    instance <- must (get_row reservation_pk (reservation_pk instance)
                        (reservations d)) DoesNotExist ;;
    ret (canceled_reservation, instance, validated_data)).

Definition canceled_by_exchange (now : datetime) (x : Reservation)
    : Reservation :=
  {| reservation_pk := reservation_pk x; user := user x;
     retreat := retreat x; order_line := order_line x;
     is_active := false; is_present := is_present x;
     cancelation_reason := Some "U";
     cancelation_action := Some "E";
     cancelation_date := Some now |}.

Definition update (cfg : Settings) (gw : Gateway) (ctx : Context)
    (now : datetime) (instance : Reservation) (validated_data : Attrs)
    : M Reservation :=
  atomic (
    let u := user instance in
    let payment_token := pop_token (a_payment_token validated_data) in
    let single_use_token := pop_token (a_single_use_token validated_data) in
    d <- get_db ;;
    let profile := find (fun p => owner p =? u) (payment_profiles d) in
    let instance_pk := reservation_pk instance in
    current_retirement <-
      must (get_row retreat_pk (retreat instance) (retreats d))
        DoesNotExist ;;
    let validated_data := popped (request_user_is_staff ctx) validated_data in
    exchanged <-
      match view_action ctx, a_retirement validated_data with
      | partial_update, Some new_retirement =>
          r <- exchange cfg gw now instance current_retirement
                 new_retirement payment_token single_use_token profile
                 validated_data ;;
          let '(canceled_reservation, instance, validated_data) := r in
          ret (Some canceled_reservation, instance, validated_data)
      | _, _ => ret (None, instance, validated_data)
      end ;;
    let '(canceled_reservation, instance, validated_data) := exchanged in
    instance <- super_update instance validated_data ;;
    match a_retirement validated_data with
    | Some _ =>
        emit (send_mail "exchange" u) ;;
        canceled_reservation <- must canceled_reservation UnboundLocalError ;;
        d <- get_db ;;
        put_db (set_reservations d
                  (save_row reservation_pk
                     (canceled_by_exchange now canceled_reservation)
                     (reservations d))) ;;
        emit (send_mail "retirement_info" (user instance))
    | None => ret tt
    end ;;
    d <- get_db ;;
    must (get_row reservation_pk instance_pk (reservations d)) DoesNotExist).

End ReservationSerializer.

(** ** Model methods used by the views *)

Definition with_reserved_seats (r : Retreat) (n : Z) : Retreat :=
  {| retreat_pk := retreat_pk r; seats := seats r; reserved_seats := n;
     price := price r; start_time := start_time r; end_time := end_time r;
     min_day_refund := min_day_refund r;
     min_day_exchange := min_day_exchange r; refund_rate := refund_rate r;
     next_user_notified := next_user_notified r;
     retreat_is_active := retreat_is_active r; hidden := hidden r |}.

Definition with_next_user_notified (r : Retreat) (n : Z) : Retreat :=
  {| retreat_pk := retreat_pk r; seats := seats r;
     reserved_seats := reserved_seats r;
     price := price r; start_time := start_time r; end_time := end_time r;
     min_day_refund := min_day_refund r;
     min_day_exchange := min_day_exchange r; refund_rate := refund_rate r;
     next_user_notified := n;
     retreat_is_active := retreat_is_active r; hidden := hidden r |}.

(** [queryset.order_by('created_at')]: rows with the same timestamp keep
    their table order. *)
Fixpoint insert_by_created_at (q : WaitQueue) (l : list WaitQueue)
    : list WaitQueue :=
  match l with
  | [] => [q]
  | x :: l' =>
      if wq_created_at q <=? wq_created_at x then q :: l
      else x :: insert_by_created_at q l'
  end.

Definition order_by_created_at (l : list WaitQueue) : list WaitQueue :=
  fold_right insert_by_created_at [] l.

(** [retreat.wait_queue.all().order_by('created_at')] *)
Definition retreat_wait_queue (d : DB) (r : Retreat) : list WaitQueue :=
  order_by_created_at
    (filter (fun q => wq_retreat q =? retreat_pk r) (wait_queue d)).

(** Modelled from the spec: [Reservation.refundable], "the line is
    refundable (order-line quantity == 1, not already refunded)". *)
Definition refundable (d : DB) (ol : OrderLine) : bool :=
  (quantity ol =? 1)
  && negb (existsb (fun f => option_eqb Z.eqb (orderline f)
                               (Some (order_line_pk ol))) (refunds d)).

(** Modelled from the spec: the amount of [Reservation.make_refund],
    "[refund_rate]% of the paid price plus proportional tax".  The paid
    price is the cost of the order line. *)
Definition refund_total (cfg : Settings) (r : Retreat) (paid : Decimal)
    : Decimal :=
  ((paid * (inject_Z (refund_rate r) / inject_Z 100))
   * (SELLING_TAX cfg + 1))%Q.

(** Modelled from the spec: the amount of [Reservation.make_refund] in
    integer cents, as [refund(settlement_id, amount_cents)] takes it. *)
Definition refund_cents (cfg : Settings) (r : Retreat) (paid : Decimal) : Z :=
  int_of_Decimal (round2 (refund_total cfg r paid * inject_Z 100)%Q).

(** Modelled from the spec: the [Refund] that [Reservation.make_refund]
    records, "one per refunded order-line, amount, linked order-line,
    free-text details". *)
Definition refund_row (cfg : Settings) (now : datetime) (r : Retreat)
    (ol : OrderLine) (paid : Decimal) (reason : string) (d : DB) : Refund :=
  {| refund_pk := next_pk refund_pk (refunds d);
     orderline := Some (order_line_pk ol); refund_date := now;
     amount := refund_total cfg r paid; details := RefundReason reason |}.

(** Modelled from the spec: [Reservation.make_refund], "issues a gateway
    refund for [refund_rate]% of the paid price plus proportional tax" on
    the settlement of the order, and records the [Refund].  A rejection by
    the gateway ([PaymentAPIError]) is the left result, for the caller to
    catch. *)
Definition make_refund (cfg : Settings) (gw : Gateway) (now : datetime)
    (r : Retreat) (ol : OrderLine) (reason : string)
    : M (PaymentAPIError + Refund) :=
  d <- get_db ;;
  o <- must (get_row order_pk (order ol) (orders d)) DoesNotExist ;;
  paid <- must (cost ol) TypeError ;;
  let cents := refund_cents cfg r paid in
  emit (refund_amount (settlement_id o) cents) ;;
  match gw_refund_amount gw (settlement_id o) cents with
  | inl err => ret (inl err)
  | inr _ =>
      let refund := refund_row cfg now r ol paid reason d in
      put_db (set_refunds d (refunds d ++ [refund])) ;;
      ret (inr refund)
  end.

(** Modelled from the spec: [Retreat.notify_users], "for as many
    [reserved_seats] as the event currently holds, notify the next
    not-yet-notified user in queue order (advance the cursor), creating a
    WaitQueueNotification row per user.  If the queue is exhausted before
    seats are exhausted, stop; report whether anyone was notified." *)
Definition notify_users (now : datetime) (r : Retreat) : M bool :=
  d <- get_db ;;
  let waiting :=
    firstn (Z.to_nat (reserved_seats r))
      (skipn (Z.to_nat (next_user_notified r)) (retreat_wait_queue d r)) in
  let first_pk := next_pk notification_pk (wait_queue_notifications d) in
  let created :=
    map (fun iq =>
           {| notification_pk := first_pk + Z.of_nat (fst iq);
              wqn_user := wq_user (snd iq); wqn_retreat := retreat_pk r;
              wqn_created_at := now |})
      (combine (seq 0 (List.length waiting)) waiting) in
  let r' := with_next_user_notified r
              (next_user_notified r + Z.of_nat (List.length waiting)) in
  put_db (set_retreats
            (set_wait_queue_notifications d
               (wait_queue_notifications d ++ created))
            (save_row retreat_pk r' (retreats d))) ;;
  fold_right (fun q k => emit (send_mail "wait_queue" (wq_user q)) ;; k)
    (ret tt) waiting ;;
  ret (negb (Nat.eqb (List.length waiting) 0)).

(** ** Views *)

Inductive Response :=
| HTTP_204_NO_CONTENT
| HTTP_200_OK (detail : string) (stop : bool).

Module RetreatViewSet.

(** [get_queryset]: staff see every event, others the active ones that are
    not hidden. *)
Definition get_queryset (ctx : Context) (d : DB) : list Retreat :=
  if request_user_is_staff ctx then retreats d
  else filter (fun r => retreat_is_active r && negb (hidden r)) (retreats d).

Definition get_object (ctx : Context) (pk : Z) : M Retreat :=
  d <- get_db ;;
  must (get_row retreat_pk pk (get_queryset ctx d)) Http404.

Definition last_notification_less_than_24h :=
  "Last notification was sent less than 24h ago.".

Definition no_reserved_seats := "No reserved seats.".

Definition notify (cfg : Settings) (ctx : Context) (now : datetime)
    (pk : Z) : M Response :=
  let time_limit := now - timedelta_hours_minutes 23 55 in
  retreat <- get_object ctx pk ;;
  let remove_before :=
    now - timedelta_days (RETREAT_NOTIFICATION_LIFETIME_DAYS cfg) in
  d <- get_db ;;
  put_db (set_wait_queue_notifications d
            (delete_rows (fun n => (wqn_created_at n <? remove_before)
                                   && (wqn_retreat n =? retreat_pk retreat))
               (wait_queue_notifications d))) ;;
  d <- get_db ;;
  let recent :=
    filter (fun n => (wqn_retreat n =? retreat_pk retreat)
                     && (time_limit <? wqn_created_at n))
      (wait_queue_notifications d) in
  ready <-
    match recent with
    | [] => notified_someone <- notify_users now retreat ;;
            ret (true, notified_someone)
    | _ :: _ => ret (false, false)
    end ;;
  let '(ready_retreat, notified_someone) := ready in
  if negb ready_retreat
  then ret (HTTP_200_OK last_notification_less_than_24h false)
  else if negb notified_someone
  then ret (HTTP_200_OK no_reserved_seats true)
  else ret HTTP_204_NO_CONTENT.

Definition with_retreat_is_active (r : Retreat) (b : bool) : Retreat :=
  {| retreat_pk := retreat_pk r; seats := seats r;
     reserved_seats := reserved_seats r;
     price := price r; start_time := start_time r; end_time := end_time r;
     min_day_refund := min_day_refund r;
     min_day_exchange := min_day_exchange r; refund_rate := refund_rate r;
     next_user_notified := next_user_notified r;
     retreat_is_active := b; hidden := hidden r |}.

(** [destroy]: the event is deactivated, not deleted. *)
Definition destroy (ctx : Context) (pk : Z) : M Response :=
  instance <- get_object ctx pk ;;
  when (retreat_is_active instance)
    (d <- get_db ;;
     put_db (set_retreats d
               (save_row retreat_pk (with_retreat_is_active instance false)
                  (retreats d)))) ;;
  ret HTTP_204_NO_CONTENT.

(** The data of the answers of [remind_users] and [recap], always sent with
    the status 200: an optional ['detail'] and whether ['stop'] is set. *)
Inductive Reply :=
| HTTP_200 (detail : option string) (stop : bool).

Definition takes_place_in_more_than_8_days :=
  "Retreat takes place in more than 8 days.".

Definition ends_in_more_than_1_day := "Retreat ends in more than 1 day.".

(** [for reservation in retreat.reservations.filter(is_active=True):
    send(reservation.user, retreat)].  The mail functions of
    [retirement/services.py] are calls to the mail collaborator, logged as
    [send_mail] under the name of the function. *)
Definition mail_active_reservations (template : string) (retreat_ : Retreat)
    : M unit :=
  d <- get_db ;;
  fold_right
    (fun reservation k => emit (send_mail template (user reservation)) ;; k)
    (ret tt)
    (filter (fun x => (retreat x =? retreat_pk retreat_) && is_active x)
       (reservations d)).

Definition remind_users (ctx : Context) (now : datetime) (pk : Z) : M Reply :=
  retreat_ <- get_object ctx pk ;;
  let time_limit := start_time retreat_ - timedelta_days 8 in
  if now <? time_limit
  then ret (HTTP_200 (Some takes_place_in_more_than_8_days) false)
  else
    mail_active_reservations "send_retreat_7_days_email" retreat_ ;;
    ret (HTTP_200 None true).

Definition recap (ctx : Context) (now : datetime) (pk : Z) : M Reply :=
  retreat_ <- get_object ctx pk ;;
  let time_limit := end_time retreat_ - timedelta_days 1 in
  if now <? time_limit
  then ret (HTTP_200 (Some ends_in_more_than_1_day) false)
  else
    mail_active_reservations "send_post_retreat_email" retreat_ ;;
    ret (HTTP_200 None true).

End RetreatViewSet.

Module ReservationViewSet.

(** [get_queryset]: staff see every reservation, others their own. *)
Definition get_queryset (ctx : Context) (d : DB) : list Reservation :=
  if request_user_is_staff ctx then reservations d
  else filter (fun x => user x =? request_user ctx) (reservations d).

Definition get_object (ctx : Context) (pk : Z) : M Reservation :=
  d <- get_db ;;
  must (get_row reservation_pk pk (get_queryset ctx d)) Http404.

Definition canceled_by_user (now : datetime) (action : string)
    (x : Reservation) : Reservation :=
  {| reservation_pk := reservation_pk x; user := user x;
     retreat := retreat x; order_line := order_line x;
     is_active := false; is_present := is_present x;
     cancelation_reason := Some "U";
     cancelation_action := Some action;
     cancelation_date := Some now |}.

(** The body of [with transaction.atomic():] in [destroy].  The result is
    the refund made, if any. *)
Definition cancel (cfg : Settings) (gw : Gateway) (now : datetime)
    (instance : Reservation) (retreat_ : Retreat)
    (order_line_ : option OrderLine) (refundable_ : bool)
    (respects_minimum_days : bool) : M (option Refund) :=
  if is_active instance then
    if match order_line_ with
       | Some ol => quantity ol >? 1
       | None => false
       end
    then raise (ValidationError non_field_errors quantity_bigger_than_1)
    else
      refund <-
        match respects_minimum_days && refundable_, order_line_ with
        | true, Some ol =>
            res <- make_refund cfg gw now retreat_ ol
                     "Reservation canceled" ;;
            match res with
            | inl PAYSAFE_3406 =>
                raise (ValidationError non_field_errors not_charged_yet)
            | inl _ =>
                raise (ValidationError non_field_errors payment_system_error)
            | inr refund => ret (Some refund)
            end
        | _, _ => ret None
        end ;;
      let cancelation_action_ :=
        match refund with
        | Some _ => "R"
        | None => "N"
        end in
      d <- get_db ;;
      put_db (set_reservations d
                (save_row reservation_pk
                   (canceled_by_user now cancelation_action_ instance)
                   (reservations d))) ;;
      d <- get_db ;;
      let free_seats := places_remaining d retreat_ in
      let retreat_ :=
        if negb (reserved_seats retreat_ =? 0) || (free_seats =? 1)
        then with_reserved_seats retreat_ (reserved_seats retreat_ + 1)
        else retreat_ in
      emit (notify_scheduler_waite_queue (retreat_pk retreat_)) ;;
      d <- get_db ;;
      put_db (set_retreats d (save_row retreat_pk retreat_ (retreats d))) ;;
      ret refund
  else ret None.

(** [instance.order_line]: the related row, or [Some None] for a null key;
    [None] is a key without a row. *)
Definition related_order_line (d : DB) (x : Reservation)
    : option (option OrderLine) :=
  match order_line x with
  | Some ol_pk => option_map Some (get_row order_line_pk ol_pk (order_lines d))
  | None => Some None
  end.

(** [order_line.order] under [if order_line:], else [None]. *)
Definition related_order (d : DB) (order_line_ : option OrderLine)
    : option (option Order) :=
  match order_line_ with
  | Some ol => option_map Some (get_row order_pk (order ol) (orders d))
  | None => Some None
  end.

(** [instance.refundable] under [if order_line:], else [False]. *)
Definition refundable_line (d : DB) (order_line_ : option OrderLine) : bool :=
  match order_line_ with
  | Some ol => refundable d ol
  | None => false
  end.

(** [(retreat.start_time - timezone.now()) >=
    timedelta(days=retreat.min_day_refund)] *)
Definition respects_minimum_days (now : datetime) (r : Retreat) : bool :=
  timedelta_days (min_day_refund r) <=? start_time r - now.

Definition destroy (cfg : Settings) (gw : Gateway) (ctx : Context)
    (now : datetime) (pk : Z) : M Response :=
  instance <- get_object ctx pk ;;
  d <- get_db ;;
  retreat_ <- must (get_row retreat_pk (retreat instance) (retreats d))
                DoesNotExist ;;
  let u := user instance in
  let reservation_active := is_active instance in
  order_line_ <- must (related_order_line d instance) DoesNotExist ;;
  order_ <- must (related_order d order_line_) DoesNotExist ;;
  let refundable_ := refundable_line d order_line_ in
  let respects_minimum_days := respects_minimum_days now retreat_ in
  refund <- atomic (cancel cfg gw now instance retreat_ order_line_
                      refundable_ respects_minimum_days) ;;
  when (reservation_active && is_some refund)
    (emit (send_mail "refund" u)) ;;
  ret HTTP_204_NO_CONTENT.

End ReservationViewSet.

Module WaitQueueViewSet.

(** [get_queryset]: staff see every subscription, others their own. *)
Definition get_queryset (ctx : Context) (d : DB) : list WaitQueue :=
  if request_user_is_staff ctx then wait_queue d
  else filter (fun q => wq_user q =? request_user ctx) (wait_queue d).

Definition get_object (ctx : Context) (pk : Z) : M WaitQueue :=
  d <- get_db ;;
  must (get_row wait_queue_pk pk (get_queryset ctx d)) Http404.

(** [list(queryset).index(obj)]: the position of the first row with the
    key of [obj]; [None] is Python's [ValueError]. *)
Fixpoint index (obj : WaitQueue) (l : list WaitQueue) : option nat :=
  match l with
  | [] => None
  | x :: l' =>
      if wait_queue_pk x =? wait_queue_pk obj then Some O
      else option_map S (index obj l')
  end.

Definition destroy (ctx : Context) (pk : Z) : M Response :=
  wait_queue_object <- get_object ctx pk ;;
  d <- get_db ;;
  retreat_ <- must (get_row retreat_pk (wq_retreat wait_queue_object)
                      (retreats d)) DoesNotExist ;;
  let retreat_wait_queue_list := retreat_wait_queue d retreat_ in
  wait_queue_pos <- must (index wait_queue_object retreat_wait_queue_list)
                      ValueError ;;
  when (Z.of_nat wait_queue_pos <? next_user_notified retreat_)
    (put_db (set_retreats d
       (save_row retreat_pk
          (with_next_user_notified retreat_ (next_user_notified retreat_ - 1))
          (retreats d)))) ;;
  d <- get_db ;;
  put_db (set_wait_queue_notifications d
            (delete_rows (fun n => (wqn_retreat n =? retreat_pk retreat_)
                                   && (wqn_user n =? wq_user wait_queue_object))
               (wait_queue_notifications d))) ;;
  instance <- get_object ctx pk ;;
  d <- get_db ;;
  put_db (set_wait_queue d
            (delete_rows (fun q => wait_queue_pk q =? wait_queue_pk instance)
               (wait_queue d))) ;;
  ret HTTP_204_NO_CONTENT.

End WaitQueueViewSet.

(** * Derived notions used by the statements *)

(** The cursor of the event after the unsubscription of the entry at
    position [pos]. *)
Definition cursor_after_unsubscribe (pos : nat) (r : Retreat) : Z :=
  if Z.of_nat pos <? next_user_notified r
  then next_user_notified r - 1
  else next_user_notified r.

(** The order of the wait queue. *)
Definition created_before (a b : WaitQueue) : Prop :=
  wq_created_at a <= wq_created_at b.

(** The tables once an active reservation is canceled by its user with
    [cancelation_action = action], starting from the tables [d]: the row
    of the reservation is rewritten, then the reserved seats of its event
    are re-evaluated and the event is saved. *)
Definition after_cancel (now : datetime) (action : string)
    (instance : Reservation) (retreat_ : Retreat) (d : DB) : DB :=
  let d1 := set_reservations d
              (save_row reservation_pk
                 (ReservationViewSet.canceled_by_user now action instance)
                 (reservations d)) in
  let free_seats := places_remaining d1 retreat_ in
  let retreat' :=
    if negb (reserved_seats retreat_ =? 0) || (free_seats =? 1)
    then with_reserved_seats retreat_ (reserved_seats retreat_ + 1)
    else retreat_ in
  set_retreats d1 (save_row retreat_pk retreat' (retreats d1)).

(** The quantity test of a cancellation lets the order line through. *)
Definition quantity_allows (order_line_ : option OrderLine) : Prop :=
  match order_line_ with
  | Some ol => quantity ol <= 1
  | None => True
  end.

(** A computation whose result and final tables depend on the tables it
    starts from only, and which only appends to the log. *)
Definition log_parametric {A} (m : M A) : Prop :=
  forall d : DB, exists (r : Exception + A) (d' : DB) (es : list Effect),
    forall l : list Effect,
      m {| db := d; log := l |} = (r, {| db := d'; log := l ++ es |}).



(** ** Running a request *)

Ltac unfold_M :=
  unfold must, when;
  unfold bind, ret, raise, get_db, put_db, emit, atomic;
  cbv beta.

Ltac unfold_M_in H :=
  unfold must, when in H;
  unfold bind, ret, raise, get_db, put_db, emit, atomic in H;
  cbv beta in H.

Ltac step := cbv beta iota; cbn [db log fst snd].


(** * Sample data

    Six events, three reservations and the wait queue of a full event, as
    the tests of the repository set them up: prices of 199, 299 and 99,
    refunds of 50 % up to 7 days before the event. *)

Definition sample_retreat (pk seats_ reserved cursor : Z) (price_ : Decimal)
    (first_day last_day : Z) : Retreat :=
  {| retreat_pk := pk; seats := seats_; reserved_seats := reserved;
     price := price_; start_time := timedelta_days first_day;
     end_time := timedelta_days last_day; min_day_refund := 7;
     min_day_exchange := 7; refund_rate := 50;
     next_user_notified := cursor; retreat_is_active := true;
     hidden := false |}.

Definition mega_retreat := sample_retreat 1 2 0 0 (199 # 1) 30 32.
Definition pricier_retreat := sample_retreat 2 5 0 0 (299 # 1) 40 42.
Definition cheaper_retreat := sample_retreat 3 5 0 0 (99 # 1) 50 52.
Definition overlapping_retreat := sample_retreat 4 5 0 0 (199 # 1) 31 33.
Definition full_retreat := sample_retreat 5 0 1 2 (299 # 1) 60 62.
Definition sold_out_retreat := sample_retreat 6 0 0 0 (199 # 1) 70 72.

Definition sample_reservation (pk user_ retreat_ ol : Z) (active : bool)
    : Reservation :=
  {| reservation_pk := pk; user := user_; retreat := retreat_;
     order_line := Some ol; is_active := active; is_present := false;
     cancelation_reason := if active then None else Some "U";
     cancelation_action := if active then None else Some "N";
     cancelation_date := if active then None else Some (timedelta_days 5) |}.

Definition sample_order (pk user_ : Z) : Order :=
  {| order_pk := pk; order_user := user_; transaction_date := 0;
     authorization_id := 20 + pk; settlement_id := 10 + pk;
     reference_number := Some 751 |}.

Definition sample_order_line (pk quantity_ retreat_ : Z) (cost_ : Decimal)
    : OrderLine :=
  {| order_line_pk := pk; order := pk; quantity := quantity_;
     object_id := retreat_; cost := Some cost_ |}.

Definition sample_db : DB :=
  {| retreats := [mega_retreat; pricier_retreat; cheaper_retreat;
                  overlapping_retreat; full_retreat; sold_out_retreat];
     reservations := [sample_reservation 1 1 1 1 true;
                      sample_reservation 2 2 1 2 true;
                      sample_reservation 3 3 2 3 false];
     orders := [sample_order 1 1; sample_order 2 2; sample_order 3 3];
     order_lines := [sample_order_line 1 1 1 (199 # 1);
                     sample_order_line 2 2 1 (398 # 1);
                     sample_order_line 3 1 2 (299 # 1)];
     refunds := [];
     payment_profiles := [];
     wait_queue :=
       [{| wait_queue_pk := 1; wq_user := 4; wq_retreat := 5;
           wq_created_at := timedelta_days 1 |};
        {| wait_queue_pk := 2; wq_user := 1; wq_retreat := 5;
           wq_created_at := timedelta_days 2 |};
        {| wait_queue_pk := 3; wq_user := 5; wq_retreat := 5;
           wq_created_at := timedelta_days 3 |}];
     wait_queue_notifications :=
       [{| notification_pk := 1; wqn_user := 4; wqn_retreat := 5;
           wqn_created_at := timedelta_days 9 |};
        {| notification_pk := 2; wqn_user := 1; wqn_retreat := 5;
           wqn_created_at := timedelta_days 9 |}] |}.

Definition sample_world : World := {| db := sample_db; log := [] |}.

Definition sample_now : datetime := timedelta_days 10.

Definition sample_settings : Settings :=
  {| SELLING_TAX := 14975 # 100000;
     RETREAT_NOTIFICATION_LIFETIME_DAYS := 30 |}.

Definition sample_charge : ChargeResponse :=
  {| charge_id := 1000; charge_settlement_id := 2000; merchantRefNum := 751 |}.

Definition accepting_gateway : Gateway :=
  {| gw_create_external_payment_profile := fun _ => inr 900;
     gw_create_external_card := fun _ _ => inr "card";
     gw_charge_payment := fun _ _ _ => inr sample_charge;
     gw_refund_amount := fun _ _ => inr tt |}.

Definition refusing_gateway : Gateway :=
  {| gw_create_external_payment_profile := fun _ => inr 900;
     gw_create_external_card := fun _ _ => inr "card";
     gw_charge_payment := fun _ _ _ => inl (PaysafeError "declined");
     gw_refund_amount := fun _ _ => inl (PaysafeError "declined") |}.

Definition request_of (user_ : Z) (action : Action) : Context :=
  {| request_user := user_; request_user_is_staff := false;
     view_action := action |}.

Definition staff_request (action : Action) : Context :=
  {| request_user := 9; request_user_is_staff := true;
     view_action := action |}.

(** The data of a creation that repeats the reservation user 1 holds. *)
Definition duplicate_attrs : Attrs :=
  {| a_user := Some 1; a_retirement := Some mega_retreat;
     a_order_line := None; a_is_active := Some true; a_is_present := None;
     a_cancelation_reason := None; a_cancelation_action := None;
     a_cancelation_date := None; a_payment_token := None;
     a_single_use_token := None |}.

(** The data of an exchange to [new_] with an optional payment token. *)
Definition exchange_attrs (new_ : Retreat) (token : option string) : Attrs :=
  {| a_user := None; a_retirement := Some new_;
     a_order_line := None; a_is_active := None; a_is_present := None;
     a_cancelation_reason := None; a_cancelation_action := None;
     a_cancelation_date := None;
     a_payment_token := option_map Some token;
     a_single_use_token := None |}.

(** The sample tables with a notification of the full event that is older
    than the retention, and one hour after the last notification. *)
Definition stale_notification : WaitQueueNotification :=
  {| notification_pk := 3; wqn_user := 5; wqn_retreat := 5;
     wqn_created_at := timedelta_days (-100) |}.

Definition stale_world : World :=
  {| db := set_wait_queue_notifications sample_db
             (stale_notification :: wait_queue_notifications sample_db);
     log := [] |}.

Definition an_hour_later : datetime :=
  timedelta_days 9 + timedelta_hours_minutes 1 0.

(** ** What a request asked of the gateway *)

(** The amounts charged by the calls of a log, in order. *)
Definition charged (es : list Effect) : list Z :=
  flat_map (fun e => match e with
                     | charge_payment a _ _ => [a]
                     | _ => []
                     end) es.

(** The settlements and amounts of the refunds asked by the calls of a
    log, in order. *)
Definition refunded (es : list Effect) : list (Z * Z) :=
  flat_map (fun e => match e with
                     | refund_amount s a => [(s, a)]
                     | _ => []
                     end) es.

(** The price difference with tax, in integer cents, as the exchange hands
    it to the gateway. *)
Definition balance_cents (cfg : Settings) (difference : Decimal) : Z :=
  int_of_Decimal
    (round2 ((difference * (SELLING_TAX cfg + 1)) * inject_Z 100)%Q).

Ltac break_match_in H :=
  match type of H with
  | context [match ?x with _ => _ end] =>
      lazymatch x with
      | context [match _ with _ => _ end] => fail
      | _ => destruct x eqn:?
      end
  end.

Ltac run_in H :=
  repeat (cbv beta iota zeta in H; cbn [db log fst snd] in H;
          try discriminate H; break_match_in H).

(** The exceptions the framework answers with a 400 and their message. *)
Definition is_validation_error (e : Exception) : bool :=
  match e with
  | ValidationError _ _ | PaymentValidationError _ => true
  | _ => false
  end.

(** The sample tables with a seventh event, which is hidden. *)
Definition hidden_retreat : Retreat :=
  {| retreat_pk := 7; seats := 5; reserved_seats := 0; price := 199 # 1;
     start_time := timedelta_days 80; end_time := timedelta_days 82;
     min_day_refund := 7; min_day_exchange := 7; refund_rate := 50;
     next_user_notified := 0; retreat_is_active := true; hidden := true |}.

Definition hidden_world : World :=
  {| db := set_retreats sample_db (retreats sample_db ++ [hidden_retreat]);
     log := [] |}.

(** The links of the three sample reservations. *)
Definition sample_reverse (id : Z) : string :=
  if id =? 1 then "/retreat/reservations/1"
  else if id =? 2 then "/retreat/reservations/2"
  else "/retreat/reservations/3".

(** The data of the creation of a reservation of [new_] for [user_]. *)
Definition booking_attrs (user_ : Z) (new_ : Retreat) : Attrs :=
  {| a_user := Some user_; a_retirement := Some new_;
     a_order_line := None; a_is_active := None; a_is_present := None;
     a_cancelation_reason := None; a_cancelation_action := None;
     a_cancelation_date := None; a_payment_token := None;
     a_single_use_token := None |}.

(** The data of a partial update of [is_present] alone. *)
Definition presence_attrs (present : bool) : Attrs :=
  {| a_user := None; a_retirement := None;
     a_order_line := None; a_is_active := None; a_is_present := Some present;
     a_cancelation_reason := None; a_cancelation_action := None;
     a_cancelation_date := None; a_payment_token := None;
     a_single_use_token := None |}.

(** A reservation with another value of [is_present]. *)
Definition with_is_present (x : Reservation) (present : bool) : Reservation :=
  {| reservation_pk := reservation_pk x; user := user x;
     retreat := retreat x; order_line := order_line x;
     is_active := is_active x; is_present := present;
     cancelation_reason := cancelation_reason x;
     cancelation_action := cancelation_action x;
     cancelation_date := cancelation_date x |}.



(** * Properties *)

(** ** The request monad *)

Lemma lp_ret {A} (a : A) : log_parametric (ret a).
Proof.
  intros d. exists (inr a), d, []. intros l. unfold ret.
  now rewrite app_nil_r.
Qed.

Lemma lp_raise {A} (e : Exception) : log_parametric (@raise A e).
Proof.
  intros d. exists (inl e), d, []. intros l. unfold raise.
  now rewrite app_nil_r.
Qed.

Lemma lp_get_db : log_parametric get_db.
Proof.
  intros d. exists (inr d), d, []. intros l. unfold get_db.
  cbn [db log]. now rewrite app_nil_r.
Qed.

Lemma lp_put_db (d' : DB) : log_parametric (put_db d').
Proof.
  intros d. exists (inr tt), d', []. intros l. unfold put_db.
  cbn [db log]. now rewrite app_nil_r.
Qed.

Lemma lp_emit (e : Effect) : log_parametric (emit e).
Proof. intros d. exists (inr tt), d, [e]. intros l. reflexivity. Qed.

Lemma lp_bind {A B} (m : M A) (k : A -> M B) :
  log_parametric m -> (forall a, log_parametric (k a)) ->
  log_parametric (bind m k).
Proof.
  intros Hm Hk d. destruct (Hm d) as (r & d1 & es1 & E1).
  destruct r as [e | a].
  - exists (inl e), d1, es1. intros l. unfold bind. now rewrite E1.
  - destruct (Hk a d1) as (r2 & d2 & es2 & E2).
    exists r2, d2, (es1 ++ es2). intros l. unfold bind.
    rewrite E1, E2. now rewrite app_assoc.
Qed.

Lemma lp_atomic {A} (m : M A) : log_parametric m -> log_parametric (atomic m).
Proof.
  intros Hm d. destruct (Hm d) as (r & d1 & es1 & E1).
  destruct r as [e | a].
  - exists (inl e), d, es1. intros l. unfold atomic. now rewrite E1.
  - exists (inr a), d1, es1. intros l. unfold atomic. now rewrite E1.
Qed.

Lemma lp_must {A} (o : option A) (e : Exception) : log_parametric (must o e).
Proof. destruct o; [apply lp_ret | apply lp_raise]. Qed.

Lemma lp_when (b : bool) (m : M unit) :
  log_parametric m -> log_parametric (when b m).
Proof. intros Hm. destruct b; [exact Hm | apply lp_ret]. Qed.

Ltac lp :=
  repeat first
    [ apply lp_ret | apply lp_raise | apply lp_get_db | apply lp_put_db
    | apply lp_emit | apply lp_must
    | apply lp_atomic | apply lp_when
    | apply lp_bind; [|intros]
    | match goal with
      | |- log_parametric (if ?b then _ else _) => destruct b
      | |- log_parametric (match ?x with _ => _ end) => destruct x
      end ].

(** A transaction that raises leaves the tables as they were. *)
Lemma atomic_exception {A} (m : M A) (w w' : World) (e : Exception) :
  atomic m w = (inl e, w') -> db w' = db w.
Proof.
  unfold atomic. destruct (m w) as [[e' | a] w1]; intros H; inversion H.
  reflexivity.
Qed.

(** Two runs from the same tables end in the same result and tables. *)
Lemma log_parametric_same_tables {A} (m : M A) (w1 w2 : World) :
  log_parametric m -> db w1 = db w2 ->
  fst (m w1) = fst (m w2) /\ db (snd (m w1)) = db (snd (m w2)).
Proof.
  intros Hm Hdb. destruct (Hm (db w1)) as (r & d' & es & E).
  destruct w1 as [d1 l1], w2 as [d2 l2]. cbn [db] in *. subst d2.
  rewrite !E. split; reflexivity.
Qed.

(** ** Tables *)

Section TableFacts.
Context {A : Type} (pk : A -> Z).

Lemma get_row_Some (id : Z) (rows : list A) (r : A) :
  get_row pk id rows = Some r -> In r rows /\ pk r = id.
Proof.
  unfold get_row. intros H. apply find_some in H.
  destruct H as [Hin Heq]. split; [exact Hin | now apply Z.eqb_eq].
Qed.

Lemma get_row_exists (id : Z) (rows : list A) (r : A) :
  get_row pk id rows = Some r -> existsb (fun x => pk x =? id) rows = true.
Proof.
  intros H. apply get_row_Some in H. destruct H as [Hin Heq].
  apply existsb_exists. exists r. split; [exact Hin | now apply Z.eqb_eq].
Qed.

Lemma get_row_map_replace (id : Z) (rows : list A) (r r' : A) :
  get_row pk id rows = Some r -> pk r' = id ->
  get_row pk id (map (fun x => if pk x =? id then r' else x) rows) = Some r'.
Proof.
  unfold get_row. intros H Hpk.
  induction rows as [|x rows IH]; simpl in *; [discriminate|].
  destruct (pk x =? id) eqn:E.
  - rewrite Hpk, Z.eqb_refl. reflexivity.
  - rewrite E. apply IH. exact H.
Qed.

Lemma get_row_save_row (rows : list A) (r r' : A) :
  get_row pk (pk r') rows = Some r ->
  get_row pk (pk r') (save_row pk r' rows) = Some r'.
Proof.
  intros H. unfold save_row. rewrite (get_row_exists _ _ _ H).
  now apply get_row_map_replace with (r := r).
Qed.

Lemma get_row_save_row_other (id : Z) (rows : list A) (r' : A) :
  pk r' <> id ->
  get_row pk id (save_row pk r' rows) = get_row pk id rows.
Proof.
  intros Hne. unfold save_row, get_row.
  destruct (existsb _ rows).
  - induction rows as [|x rows IH]; simpl; [reflexivity|].
    destruct (pk x =? pk r') eqn:E.
    + apply Z.eqb_eq in E.
      assert ((pk r' =? id) = false) as -> by now apply Z.eqb_neq.
      assert ((pk x =? id) = false) as -> by (apply Z.eqb_neq; congruence).
      exact IH.
    + destruct (pk x =? id); [reflexivity | exact IH].
  - induction rows as [|x rows IH]; simpl.
    + now assert ((pk r' =? id) = false) as -> by now apply Z.eqb_neq.
    + destruct (pk x =? id); [reflexivity | exact IH].
Qed.

Lemma filter_filter (f g : A -> bool) (l : list A) :
  filter f (filter g l) = filter (fun x => g x && f x) l.
Proof.
  induction l as [|x l IH]; simpl; [reflexivity|].
  destruct (g x); simpl; [destruct (f x)|]; now rewrite IH.
Qed.

End TableFacts.

(** ** Decimal arithmetic *)

Example round2_half_to_even_up : round2 (2675 # 1000) = 268 # 100.
Proof. reflexivity. Qed.

Example round2_half_to_even_down : round2 (2665 # 1000) = 266 # 100.
Proof. reflexivity. Qed.

Example round2_negative : round2 (- 12345 # 1000) = - 1234 # 100.
Proof. reflexivity. Qed.

Example int_truncates_towards_zero :
  int_of_Decimal (- 3 # 2) = -1 /\ int_of_Decimal (3 # 2) = 1.
Proof. split; reflexivity. Qed.

(** 100.00 of difference at a tax of 14.975 % is 114.975, rounded to
    11497.50 cents and truncated to 11497. *)
Example balance_of_100 : balance_cents sample_settings (100 # 1) = 11497.
Proof. reflexivity. Qed.

(** ** Places remaining *)

(** C8: the reported [places_remaining] of an event is its [seats] minus
    the number of its active reservations minus its [reserved_seats]. *)
Theorem get_places_remaining_is_seats_minus_active_minus_reserved
    (d : DB) (obj : Retreat) :
  RetirementSerializer.get_places_remaining d obj
  = seats obj
    - Z.of_nat (List.length
        (filter (fun x => is_active x && (retreat x =? retreat_pk obj))
           (reservations d)))
    - reserved_seats obj.
Proof.
  unfold RetirementSerializer.get_places_remaining,
    RetirementSerializer.count_active_reservations.
  now rewrite filter_filter.
Qed.

(** The serializer reports the [places_remaining] of the model. *)
Lemma get_places_remaining_places_remaining (d : DB) (obj : Retreat) :
  RetirementSerializer.get_places_remaining d obj = places_remaining d obj.
Proof.
  unfold RetirementSerializer.get_places_remaining,
    RetirementSerializer.count_active_reservations, places_remaining,
    total_reservations.
  now rewrite filter_filter.
Qed.

(** X25: one more active reservation of the event is one place less; a
    reservation that is inactive or of another event changes nothing. *)
Lemma get_places_remaining_new_reservation (d : DB) (obj : Retreat)
    (x : Reservation) :
  RetirementSerializer.get_places_remaining
    (set_reservations d (reservations d ++ [x])) obj
  = RetirementSerializer.get_places_remaining d obj
    - (if is_active x && (retreat x =? retreat_pk obj) then 1 else 0).
Proof.
  rewrite !get_places_remaining_places_remaining.
  unfold places_remaining, total_reservations.
  cbn [reservations set_reservations].
  rewrite filter_app, length_app. cbn [filter].
  destruct (is_active x && (retreat x =? retreat_pk obj));
    rewrite Nat2Z.inj_add; cbn [Datatypes.length]; lia.
Qed.

(** ** Unsubscribing from a wait queue *)

Lemma In_insert_by_created_at (x q : WaitQueue) (l : list WaitQueue) :
  In x (insert_by_created_at q l) <-> x = q \/ In x l.
Proof.
  induction l as [|y l IH]; simpl.
  - intuition congruence.
  - destruct (wq_created_at q <=? wq_created_at y); simpl.
    + intuition congruence.
    + rewrite IH. intuition congruence.
Qed.

Lemma In_order_by_created_at (x : WaitQueue) (l : list WaitQueue) :
  In x (order_by_created_at l) <-> In x l.
Proof.
  induction l as [|y l IH]; simpl; [tauto|].
  rewrite In_insert_by_created_at, IH. intuition congruence.
Qed.

(** [order_by('created_at')] rearranges the rows and puts them in the order
    of their timestamps. *)
Lemma insert_by_created_at_permutation (q : WaitQueue) (l : list WaitQueue) :
  Permutation (q :: l) (insert_by_created_at q l).
Proof.
  induction l as [|y l IH]; simpl; [apply Permutation_refl|].
  destruct (wq_created_at q <=? wq_created_at y).
  - apply Permutation_refl.
  - eapply Permutation_trans; [apply perm_swap|].
    now apply perm_skip.
Qed.

Lemma order_by_created_at_permutation (l : list WaitQueue) :
  Permutation l (order_by_created_at l).
Proof.
  induction l as [|y l IH]; simpl; [apply Permutation_refl|].
  eapply Permutation_trans; [|apply insert_by_created_at_permutation].
  now apply perm_skip.
Qed.

Lemma insert_by_created_at_sorted (q : WaitQueue) (l : list WaitQueue) :
  Sorted created_before l -> Sorted created_before (insert_by_created_at q l).
Proof.
  induction l as [|y l IH]; simpl; intros Hs.
  - repeat constructor.
  - destruct (Z.leb_spec (wq_created_at q) (wq_created_at y)).
    + constructor; [exact Hs|]. constructor. exact H.
    + inversion Hs as [|? ? Hs' Hhd]; subst. constructor; [now apply IH|].
      destruct l as [|z l]; simpl.
      * constructor. unfold created_before. lia.
      * destruct (wq_created_at q <=? wq_created_at z); constructor.
        -- unfold created_before. lia.
        -- now inversion Hhd.
Qed.

Lemma order_by_created_at_sorted (l : list WaitQueue) :
  Sorted created_before (order_by_created_at l).
Proof.
  induction l as [|y l IH]; simpl; [constructor|].
  now apply insert_by_created_at_sorted.
Qed.

Lemma index_of_member (obj : WaitQueue) (l : list WaitQueue) :
  In obj l -> exists pos, WaitQueueViewSet.index obj l = Some pos.
Proof.
  induction l as [|y l IH]; simpl; [tauto|].
  intros [-> | Hin].
  - rewrite Z.eqb_refl. now exists O.
  - destruct (wait_queue_pk y =? wait_queue_pk obj); [now exists O|].
    destruct (IH Hin) as [pos ->]. now exists (S pos).
Qed.

Lemma wait_queue_object_in_queue (ctx : Context) (d : DB) (pk : Z)
    (obj : WaitQueue) (r : Retreat) :
  get_row wait_queue_pk pk (WaitQueueViewSet.get_queryset ctx d) = Some obj ->
  get_row retreat_pk (wq_retreat obj) (retreats d) = Some r ->
  In obj (retreat_wait_queue d r).
Proof.
  intros Hobj Hr. apply get_row_Some in Hobj. destruct Hobj as [Hin _].
  apply get_row_Some in Hr. destruct Hr as [_ Hpk].
  unfold retreat_wait_queue. apply In_order_by_created_at.
  apply filter_In. split.
  - unfold WaitQueueViewSet.get_queryset in Hin.
    destruct (request_user_is_staff ctx); [exact Hin|].
    now apply filter_In in Hin.
  - apply Z.eqb_eq. congruence.
Qed.


(** ** Canceling a reservation *)

Section Cancel.
Variables (cfg : Settings) (gw : Gateway) (now : datetime).
Variables (instance : Reservation) (retreat_ : Retreat).

Lemma cancel_inactive (order_line_ : option OrderLine)
    (refundable_ respects : bool) (w : World) :
  is_active instance = false ->
  ReservationViewSet.cancel cfg gw now instance retreat_ order_line_
    refundable_ respects w = (inr None, w).
Proof.
  intros H. unfold ReservationViewSet.cancel. rewrite H. reflexivity.
Qed.

Lemma cancel_quantity (ol : OrderLine) (refundable_ respects : bool)
    (w : World) :
  is_active instance = true ->
  1 < quantity ol ->
  ReservationViewSet.cancel cfg gw now instance retreat_ (Some ol)
    refundable_ respects w
  = (inl (ValidationError non_field_errors quantity_bigger_than_1), w).
Proof.
  intros H Hq. unfold ReservationViewSet.cancel. rewrite H.
  assert ((quantity ol >? 1) = true) as -> by (apply Z.gtb_lt; lia).
  reflexivity.
Qed.

Lemma quantity_allows_guard (order_line_ : option OrderLine) :
  quantity_allows order_line_ ->
  match order_line_ with
  | Some ol => quantity ol >? 1
  | None => false
  end = false.
Proof.
  destruct order_line_ as [ol|]; simpl; [|reflexivity].
  intros H. destruct (Z.gtb_spec (quantity ol) 1); [lia | reflexivity].
Qed.

Lemma cancel_not_refunded (order_line_ : option OrderLine)
    (refundable_ respects : bool) (w : World) :
  is_active instance = true ->
  quantity_allows order_line_ ->
  respects && refundable_ = false \/ order_line_ = None ->
  ReservationViewSet.cancel cfg gw now instance retreat_ order_line_
    refundable_ respects w
  = (inr None,
     {| db := after_cancel now "N" instance retreat_ (db w);
        log := log w ++ [notify_scheduler_waite_queue (retreat_pk retreat_)]
     |}).
Proof.
  intros H Hq Hdue. unfold ReservationViewSet.cancel. rewrite H.
  rewrite (quantity_allows_guard _ Hq).
  assert (E : match respects && refundable_, order_line_ with
              | true, Some ol =>
                  res <- make_refund cfg gw now retreat_ ol
                           "Reservation canceled" ;;
                  match res with
                  | inl PAYSAFE_3406 =>
                      raise (ValidationError non_field_errors not_charged_yet)
                  | inl _ =>
                      raise (ValidationError non_field_errors
                               payment_system_error)
                  | inr refund => ret (Some refund)
                  end
              | _, _ => ret None
              end = ret None).
  { destruct Hdue as [-> | ->]; [reflexivity|].
    now destruct (respects && refundable_). }
  rewrite E. unfold_M. step. unfold after_cancel.
  destruct (negb (reserved_seats retreat_ =? 0) || _); reflexivity.
Qed.

Lemma make_refund_accepted (ol : OrderLine) (o : Order) (paid : Decimal)
    (reason : string) (w : World) :
  get_row order_pk (order ol) (orders (db w)) = Some o ->
  cost ol = Some paid ->
  (exists u, gw_refund_amount gw (settlement_id o)
               (refund_cents cfg retreat_ paid) = inr u) ->
  make_refund cfg gw now retreat_ ol reason w
  = (inr (inr (refund_row cfg now retreat_ ol paid reason (db w))),
     {| db := set_refunds (db w)
                (refunds (db w)
                 ++ [refund_row cfg now retreat_ ol paid reason (db w)]);
        log := log w ++ [refund_amount (settlement_id o)
                           (refund_cents cfg retreat_ paid)] |}).
Proof.
  intros Ho Hcost [u Hgw]. unfold make_refund. unfold_M.
  rewrite Ho. step. rewrite Hcost. step. rewrite Hgw. reflexivity.
Qed.

Lemma make_refund_rejected (ol : OrderLine) (o : Order) (paid : Decimal)
    (reason : string) (err : PaymentAPIError) (w : World) :
  get_row order_pk (order ol) (orders (db w)) = Some o ->
  cost ol = Some paid ->
  gw_refund_amount gw (settlement_id o) (refund_cents cfg retreat_ paid)
    = inl err ->
  make_refund cfg gw now retreat_ ol reason w
  = (inr (inl err),
     {| db := db w;
        log := log w ++ [refund_amount (settlement_id o)
                           (refund_cents cfg retreat_ paid)] |}).
Proof.
  intros Ho Hcost Hgw. unfold make_refund. unfold_M.
  rewrite Ho. step. rewrite Hcost. step. rewrite Hgw. reflexivity.
Qed.

Lemma cancel_refunded (ol : OrderLine) (o : Order) (paid : Decimal)
    (w : World) :
  is_active instance = true ->
  quantity ol <= 1 ->
  get_row order_pk (order ol) (orders (db w)) = Some o ->
  cost ol = Some paid ->
  (exists u, gw_refund_amount gw (settlement_id o)
               (refund_cents cfg retreat_ paid) = inr u) ->
  let refund := refund_row cfg now retreat_ ol paid "Reservation canceled"
                  (db w) in
  ReservationViewSet.cancel cfg gw now instance retreat_ (Some ol) true true w
  = (inr (Some refund),
     {| db := after_cancel now "R" instance retreat_
                (set_refunds (db w) (refunds (db w) ++ [refund]));
        log := log w ++ [refund_amount (settlement_id o)
                           (refund_cents cfg retreat_ paid)]
                     ++ [notify_scheduler_waite_queue (retreat_pk retreat_)]
     |}).
Proof.
  intros H Hq Ho Hcost Hgw refund. unfold ReservationViewSet.cancel.
  rewrite H. rewrite (quantity_allows_guard (Some ol) Hq).
  cbn [andb]. unfold bind at 1. unfold bind at 1.
  rewrite (make_refund_accepted ol o paid _ w Ho Hcost Hgw).
  unfold_M. step. fold refund. unfold after_cancel.
  cbn [reservations retreats set_reservations set_refunds].
  rewrite <- app_assoc.
  destruct (negb (reserved_seats retreat_ =? 0) || _); reflexivity.
Qed.

Lemma cancel_refund_rejected (ol : OrderLine) (o : Order) (paid : Decimal)
    (err : PaymentAPIError) (w : World) :
  is_active instance = true ->
  quantity ol <= 1 ->
  get_row order_pk (order ol) (orders (db w)) = Some o ->
  cost ol = Some paid ->
  gw_refund_amount gw (settlement_id o) (refund_cents cfg retreat_ paid)
    = inl err ->
  ReservationViewSet.cancel cfg gw now instance retreat_ (Some ol) true true w
  = (inl (ValidationError non_field_errors
            match err with
            | PAYSAFE_3406 => not_charged_yet
            | PaysafeError _ => payment_system_error
            end),
     {| db := db w;
        log := log w ++ [refund_amount (settlement_id o)
                           (refund_cents cfg retreat_ paid)] |}).
Proof.
  intros H Hq Ho Hcost Hgw. unfold ReservationViewSet.cancel.
  rewrite H. rewrite (quantity_allows_guard (Some ol) Hq).
  cbn [andb]. unfold bind at 1. unfold bind at 1.
  rewrite (make_refund_rejected ol o paid _ err w Ho Hcost Hgw).
  destruct err; reflexivity.
Qed.

End Cancel.

(** Once the objects of the request are loaded, [destroy] is its
    transaction followed by the refund mail. *)
Lemma destroy_loaded (cfg : Settings) (gw : Gateway) (ctx : Context)
    (now : datetime) (pk : Z) (w : World) (instance : Reservation)
    (retreat_ : Retreat) (order_line_ : option OrderLine)
    (order_ : option Order) :
  get_row reservation_pk pk (ReservationViewSet.get_queryset ctx (db w))
    = Some instance ->
  get_row retreat_pk (retreat instance) (retreats (db w)) = Some retreat_ ->
  ReservationViewSet.related_order_line (db w) instance = Some order_line_ ->
  ReservationViewSet.related_order (db w) order_line_ = Some order_ ->
  ReservationViewSet.destroy cfg gw ctx now pk w
  = match atomic (ReservationViewSet.cancel cfg gw now instance retreat_
                    order_line_
                    (ReservationViewSet.refundable_line (db w) order_line_)
                    (ReservationViewSet.respects_minimum_days now retreat_))
            w with
    | (inl e, w') => (inl e, w')
    | (inr refund, w') =>
        (inr HTTP_204_NO_CONTENT,
         if is_active instance && is_some refund
         then {| db := db w';
                 log := log w' ++ [send_mail "refund" (user instance)] |}
         else w')
    end.
Proof.
  intros Hi Hr Hol Ho.
  unfold ReservationViewSet.destroy, ReservationViewSet.get_object.
  unfold bind at 1. unfold bind at 1. unfold get_db at 1. step.
  rewrite Hi. unfold must at 1, ret at 1. step.
  unfold bind at 1. unfold get_db at 1. step.
  unfold bind at 1. rewrite Hr. unfold must at 1, ret at 1. step.
  unfold bind at 1. rewrite Hol. unfold must at 1, ret at 1. step.
  unfold bind at 1. rewrite Ho. unfold must at 1, ret at 1. step.
  unfold bind at 1.
  destruct (atomic _ w) as [[e | refund] w']; [reflexivity|].
  unfold_M. step.
  destruct (is_active instance), refund; destruct w'; reflexivity.
Qed.

Lemma make_refund_log_parametric (cfg : Settings) (gw : Gateway)
    (now : datetime) (r : Retreat) (ol : OrderLine) (reason : string) :
  log_parametric (make_refund cfg gw now r ol reason).
Proof. unfold make_refund. lp. Qed.

Lemma cancel_log_parametric (cfg : Settings) (gw : Gateway) (now : datetime)
    (instance : Reservation) (retreat_ : Retreat)
    (order_line_ : option OrderLine) (refundable_ respects : bool) :
  log_parametric (ReservationViewSet.cancel cfg gw now instance retreat_
                    order_line_ refundable_ respects).
Proof.
  unfold ReservationViewSet.cancel.
  pose proof (make_refund_log_parametric cfg gw now retreat_) as Hr.
  destruct (is_active instance); [|apply lp_ret].
  destruct (match order_line_ with Some ol => quantity ol >? 1 | None => false
            end); [apply lp_raise|].
  apply lp_bind.
  - destruct (respects && refundable_), order_line_; try apply lp_ret.
    apply lp_bind; [apply Hr|]. intros [[|]|]; lp.
  - intros refund. lp.
Qed.

Lemma destroy_log_parametric (cfg : Settings) (gw : Gateway) (ctx : Context)
    (now : datetime) (pk : Z) :
  log_parametric (ReservationViewSet.destroy cfg gw ctx now pk).
Proof.
  unfold ReservationViewSet.destroy, ReservationViewSet.get_object.
  apply lp_bind; [lp|]. intros instance.
  apply lp_bind; [lp|]. intros d.
  apply lp_bind; [lp|]. intros retreat_.
  apply lp_bind; [lp|]. intros order_line_.
  apply lp_bind; [lp|]. intros order_.
  apply lp_bind; [apply lp_atomic, cancel_log_parametric|]. intros refund.
  lp.
Qed.

(** A cancellation that raises leaves the tables as they were. *)
Lemma destroy_exception (cfg : Settings) (gw : Gateway) (ctx : Context)
    (now : datetime) (pk : Z) (w w' : World) (e : Exception) :
  ReservationViewSet.destroy cfg gw ctx now pk w = (inl e, w') ->
  db w' = db w.
Proof.
  destruct (get_row reservation_pk pk
              (ReservationViewSet.get_queryset ctx (db w)))
    as [instance|] eqn:Hi.
  2:{ unfold ReservationViewSet.destroy, ReservationViewSet.get_object.
      unfold_M. rewrite Hi. intros H. now inversion H. }
  destruct (get_row retreat_pk (retreat instance) (retreats (db w)))
    as [retreat_|] eqn:Hr.
  2:{ unfold ReservationViewSet.destroy, ReservationViewSet.get_object.
      unfold_M. rewrite Hi. step. rewrite Hr. intros H. now inversion H. }
  destruct (ReservationViewSet.related_order_line (db w) instance)
    as [order_line_|] eqn:Hol.
  2:{ unfold ReservationViewSet.destroy, ReservationViewSet.get_object.
      unfold_M. rewrite Hi. step. rewrite Hr. step. rewrite Hol.
      intros H. now inversion H. }
  destruct (ReservationViewSet.related_order (db w) order_line_)
    as [order_|] eqn:Ho.
  2:{ unfold ReservationViewSet.destroy, ReservationViewSet.get_object.
      unfold_M. rewrite Hi. step. rewrite Hr. step. rewrite Hol. step.
      rewrite Ho. intros H. now inversion H. }
  rewrite (destroy_loaded _ _ _ _ _ _ _ _ _ _ Hi Hr Hol Ho).
  destruct (atomic _ w) as [[e' | refund] w1] eqn:Ha; intros H; inversion H.
  subst. eapply atomic_exception. exact Ha.
Qed.

Lemma get_row_filter_save_row {A} (pk : A -> Z) (f : A -> bool)
    (rows : list A) (r r' : A) :
  get_row pk (pk r') (filter f rows) = Some r ->
  f r' = true ->
  get_row pk (pk r') (filter f (save_row pk r' rows)) = Some r'.
Proof.
  intros H Hf. unfold save_row.
  assert (Hex : existsb (fun x => pk x =? pk r') rows = true).
  { apply get_row_Some in H. destruct H as [Hin Hpk].
    apply filter_In in Hin. apply existsb_exists. exists r.
    split; [tauto | now apply Z.eqb_eq]. }
  rewrite Hex. clear Hex. unfold get_row in *.
  induction rows as [|x rows IH]; simpl in *; [discriminate|].
  destruct (pk x =? pk r') eqn:E.
  - rewrite Hf. simpl. now rewrite Z.eqb_refl.
  - destruct (f x); simpl in *; [rewrite E in *|]; now apply IH.
Qed.

Lemma cancel_active_inv (cfg : Settings) (gw : Gateway) (now : datetime)
    (instance : Reservation) (retreat_ : Retreat)
    (order_line_ : option OrderLine) (refundable_ respects : bool)
    (w w' : World) (refund : option Refund) :
  is_active instance = true ->
  ReservationViewSet.cancel cfg gw now instance retreat_ order_line_
    refundable_ respects w = (inr refund, w') ->
  quantity_allows order_line_
  /\ ((refund = None
       /\ (respects && refundable_ = false \/ order_line_ = None)
       /\ w' = {| db := after_cancel now "N" instance retreat_ (db w);
                  log := log w ++ [notify_scheduler_waite_queue
                                     (retreat_pk retreat_)] |})
      \/ (exists (ol : OrderLine) (o : Order) (paid : Decimal),
            order_line_ = Some ol
            /\ respects && refundable_ = true
            /\ get_row order_pk (order ol) (orders (db w)) = Some o
            /\ cost ol = Some paid
            /\ (exists u, gw_refund_amount gw (settlement_id o)
                            (refund_cents cfg retreat_ paid) = inr u)
            /\ refund = Some (refund_row cfg now retreat_ ol paid
                                "Reservation canceled" (db w))
            /\ w' = {| db := after_cancel now "R" instance retreat_
                               (set_refunds (db w)
                                  (refunds (db w)
                                   ++ [refund_row cfg now retreat_ ol paid
                                         "Reservation canceled" (db w)]));
                       log := log w
                              ++ [refund_amount (settlement_id o)
                                    (refund_cents cfg retreat_ paid)]
                              ++ [notify_scheduler_waite_queue
                                    (retreat_pk retreat_)] |})).
Proof.
  intros Hact Hrun.
  assert (Hq : quantity_allows order_line_).
  { destruct order_line_ as [ol|]; simpl; [|exact I].
    destruct (Z.gtb_spec (quantity ol) 1) as [Hgt|Hle]; [|exact Hle].
    rewrite (cancel_quantity cfg gw now instance retreat_ ol _ _ w Hact)
      in Hrun by lia.
    discriminate. }
  split; [exact Hq|].
  destruct (respects && refundable_) eqn:Hdue.
  2:{ left. rewrite cancel_not_refunded in Hrun by auto.
      inversion Hrun. auto. }
  destruct order_line_ as [ol|].
  2:{ left. rewrite cancel_not_refunded in Hrun by auto.
      inversion Hrun. auto. }
  apply andb_true_iff in Hdue. destruct Hdue as [-> ->].
  simpl in Hq.
  destruct (get_row order_pk (order ol) (orders (db w))) as [o|] eqn:Ho.
  2:{ exfalso. revert Hrun. unfold ReservationViewSet.cancel.
      rewrite Hact, (quantity_allows_guard (Some ol) Hq). cbn [andb].
      unfold make_refund. unfold_M. rewrite Ho. discriminate. }
  destruct (cost ol) as [paid|] eqn:Hcost.
  2:{ exfalso. revert Hrun. unfold ReservationViewSet.cancel.
      rewrite Hact, (quantity_allows_guard (Some ol) Hq). cbn [andb].
      unfold make_refund. unfold_M. rewrite Ho. step. rewrite Hcost.
      discriminate. }
  destruct (gw_refund_amount gw (settlement_id o)
              (refund_cents cfg retreat_ paid)) as [err|u] eqn:Hgw.
  { exfalso.
    rewrite (cancel_refund_rejected cfg gw now instance retreat_ ol o paid
               err w Hact Hq Ho Hcost Hgw) in Hrun.
    discriminate. }
  right. exists ol, o, paid.
  assert (Hex : exists u, gw_refund_amount gw (settlement_id o)
                            (refund_cents cfg retreat_ paid) = inr u)
    by (rewrite Hgw; now exists u).
  rewrite (cancel_refunded cfg gw now instance retreat_ ol o paid w Hact Hq
             Ho Hcost Hex) in Hrun.
  inversion Hrun. repeat split; auto.
Qed.

(** A cancellation that answers has found the reservation, its event and
    the order it was bought with. *)
Lemma destroy_ok_loaded (cfg : Settings) (gw : Gateway) (ctx : Context)
    (now : datetime) (pk : Z) (w w' : World) (resp : Response) :
  ReservationViewSet.destroy cfg gw ctx now pk w = (inr resp, w') ->
  exists instance retreat_ order_line_ order_,
    get_row reservation_pk pk (ReservationViewSet.get_queryset ctx (db w))
      = Some instance
    /\ get_row retreat_pk (retreat instance) (retreats (db w)) = Some retreat_
    /\ ReservationViewSet.related_order_line (db w) instance
       = Some order_line_
    /\ ReservationViewSet.related_order (db w) order_line_ = Some order_.
Proof.
  destruct (get_row reservation_pk pk
              (ReservationViewSet.get_queryset ctx (db w)))
    as [instance|] eqn:Hi.
  2:{ unfold ReservationViewSet.destroy, ReservationViewSet.get_object.
      unfold_M. rewrite Hi. discriminate. }
  destruct (get_row retreat_pk (retreat instance) (retreats (db w)))
    as [retreat_|] eqn:Hr.
  2:{ unfold ReservationViewSet.destroy, ReservationViewSet.get_object.
      unfold_M. rewrite Hi. step. rewrite Hr. discriminate. }
  destruct (ReservationViewSet.related_order_line (db w) instance)
    as [order_line_|] eqn:Hol.
  2:{ unfold ReservationViewSet.destroy, ReservationViewSet.get_object.
      unfold_M. rewrite Hi. step. rewrite Hr. step. rewrite Hol.
      discriminate. }
  destruct (ReservationViewSet.related_order (db w) order_line_)
    as [order_|] eqn:Ho.
  2:{ unfold ReservationViewSet.destroy, ReservationViewSet.get_object.
      unfold_M. rewrite Hi. step. rewrite Hr. step. rewrite Hol. step.
      rewrite Ho. discriminate. }
  intros _. now exists instance, retreat_, order_line_, order_.
Qed.

Lemma destroy_inactive (cfg : Settings) (gw : Gateway) (ctx : Context)
    (now : datetime) (pk : Z) (w : World) (instance : Reservation)
    (retreat_ : Retreat) (order_line_ : option OrderLine)
    (order_ : option Order) :
  get_row reservation_pk pk (ReservationViewSet.get_queryset ctx (db w))
    = Some instance ->
  is_active instance = false ->
  get_row retreat_pk (retreat instance) (retreats (db w)) = Some retreat_ ->
  ReservationViewSet.related_order_line (db w) instance = Some order_line_ ->
  ReservationViewSet.related_order (db w) order_line_ = Some order_ ->
  ReservationViewSet.destroy cfg gw ctx now pk w
  = (inr HTTP_204_NO_CONTENT, w).
Proof.
  intros Hi Hact Hr Hol Ho.
  rewrite (destroy_loaded _ _ _ _ _ _ _ _ _ _ Hi Hr Hol Ho).
  unfold atomic. rewrite cancel_inactive by exact Hact.
  rewrite Hact. reflexivity.
Qed.

(** The objects of the request are found again once the cancellation is
    written, and the reservation is then inactive. *)
Lemma loaded_after_cancel (ctx : Context) (now : datetime) (pk : Z)
    (action : string) (d dmid : DB) (instance : Reservation)
    (retreat_ : Retreat) (order_line_ : option OrderLine)
    (order_ : option Order) :
  reservations dmid = reservations d ->
  retreats dmid = retreats d ->
  order_lines dmid = order_lines d ->
  orders dmid = orders d ->
  get_row reservation_pk pk (ReservationViewSet.get_queryset ctx d)
    = Some instance ->
  get_row retreat_pk (retreat instance) (retreats d) = Some retreat_ ->
  ReservationViewSet.related_order_line d instance = Some order_line_ ->
  ReservationViewSet.related_order d order_line_ = Some order_ ->
  let d' := after_cancel now action instance retreat_ dmid in
  let canceled := ReservationViewSet.canceled_by_user now action instance in
  get_row reservation_pk pk (ReservationViewSet.get_queryset ctx d')
    = Some canceled
  /\ (exists r', get_row retreat_pk (retreat canceled) (retreats d')
                 = Some r')
  /\ ReservationViewSet.related_order_line d' canceled = Some order_line_
  /\ ReservationViewSet.related_order d' order_line_ = Some order_.
Proof.
  intros Eres Eret Eol Eo Hi Hr Hol Ho d' canceled.
  pose proof (get_row_Some _ _ _ _ Hi) as [Hin Hpk].
  pose proof (get_row_Some _ _ _ _ Hr) as [_ Hrpk].
  split; [|split; [|split]].
  - unfold d', after_cancel, ReservationViewSet.get_queryset in *.
    cbn [reservations set_reservations set_retreats].
    rewrite Eres. subst pk.
    change (reservation_pk instance) with (reservation_pk canceled) in *.
    destruct (request_user_is_staff ctx).
    + now apply get_row_save_row with (r := instance).
    + apply get_row_filter_save_row with (r := instance); [exact Hi|].
      apply filter_In in Hin. exact (proj2 Hin).
  - unfold d', after_cancel.
    cbn [retreats set_reservations set_retreats]. rewrite Eret.
    change (retreat canceled) with (retreat instance). rewrite <- Hrpk.
    destruct (negb (reserved_seats retreat_ =? 0) || _).
    + eexists.
      change (retreat_pk retreat_) with
        (retreat_pk (with_reserved_seats retreat_
                       (reserved_seats retreat_ + 1))).
      apply get_row_save_row with (r := retreat_).
      cbn [retreat_pk with_reserved_seats]. rewrite Hrpk. exact Hr.
    + eexists. apply get_row_save_row with (r := retreat_).
      rewrite Hrpk. exact Hr.
  - unfold d', after_cancel, ReservationViewSet.related_order_line in *.
    cbn [order_lines set_reservations set_retreats
         ReservationViewSet.canceled_by_user order_line canceled].
    rewrite Eol. exact Hol.
  - unfold d', after_cancel, ReservationViewSet.related_order in *.
    cbn [orders set_reservations set_retreats]. rewrite Eo. exact Ho.
Qed.

(** C10: canceling is idempotent.  Deleting a reservation that is already
    inactive answers the empty success response, calls neither the gateway
    nor anything else outside, and changes no table; and for every
    request, running [destroy] a second time ends in the tables the first
    run ended in, the second run of a run that answered being the empty
    success response without any further effect. *)
Theorem cancellation_is_idempotent (cfg : Settings) (gw : Gateway)
    (ctx : Context) (now : datetime) (pk : Z) (w : World) :
  (forall instance retreat_ order_line_ order_,
      get_row reservation_pk pk (ReservationViewSet.get_queryset ctx (db w))
        = Some instance ->
      is_active instance = false ->
      get_row retreat_pk (retreat instance) (retreats (db w))
        = Some retreat_ ->
      ReservationViewSet.related_order_line (db w) instance
        = Some order_line_ ->
      ReservationViewSet.related_order (db w) order_line_ = Some order_ ->
      ReservationViewSet.destroy cfg gw ctx now pk w
      = (inr HTTP_204_NO_CONTENT, w))
  /\ (let first := ReservationViewSet.destroy cfg gw ctx now pk w in
      let second := ReservationViewSet.destroy cfg gw ctx now pk (snd first) in
      db (snd second) = db (snd first)
      /\ (forall resp, fst first = inr resp ->
            resp = HTTP_204_NO_CONTENT
            /\ second = (inr HTTP_204_NO_CONTENT, snd first))).
Proof.
  split.
  { intros. eapply destroy_inactive; eassumption. }
  cbv zeta.
  destruct (ReservationViewSet.destroy cfg gw ctx now pk w)
    as [[e | resp] w1] eqn:H1; cbn [fst snd].
  - pose proof (destroy_exception _ _ _ _ _ _ _ _ H1) as Hdb.
    destruct (log_parametric_same_tables _ w1 w
                (destroy_log_parametric cfg gw ctx now pk) Hdb) as [_ E].
    rewrite E, H1. cbn [snd]. split; [reflexivity | discriminate].
  - destruct (destroy_ok_loaded _ _ _ _ _ _ _ _ H1)
      as (instance & retreat_ & order_line_ & order_ & Hi & Hr & Hol & Ho).
    assert (Hresp : resp = HTTP_204_NO_CONTENT
                    /\ ReservationViewSet.destroy cfg gw ctx now pk w1
                       = (inr HTTP_204_NO_CONTENT, w1)).
    { destruct (is_active instance) eqn:Hact.
      2:{ rewrite (destroy_inactive _ _ _ _ _ _ _ _ _ _ Hi Hact Hr Hol Ho)
            in H1.
          inversion H1; subst. split; [reflexivity|].
          eapply destroy_inactive; eassumption. }
      rewrite (destroy_loaded _ _ _ _ _ _ _ _ _ _ Hi Hr Hol Ho) in H1.
      unfold atomic in H1.
      destruct (ReservationViewSet.cancel _ _ _ _ _ _ _ _ w)
        as [[e | refund] w2] eqn:Hc; [discriminate|].
      inversion H1; subst resp w1. clear H1. split; [reflexivity|].
      destruct (cancel_active_inv _ _ _ _ _ _ _ _ _ _ _ Hact Hc)
        as [_ [(-> & _ & ->) | (ol & o & paid & _ & _ & _ & _ & _ & -> & ->)]];
        rewrite Hact; cbn [is_some andb db log].
      + destruct (loaded_after_cancel ctx now pk "N" (db w) (db w) instance
                    retreat_ order_line_ order_ eq_refl eq_refl eq_refl
                    eq_refl Hi Hr Hol Ho)
          as (Hi' & [r' Hr'] & Hol' & Ho').
        eapply destroy_inactive;
          [exact Hi' | reflexivity | exact Hr' | exact Hol' | exact Ho'].
      + destruct (loaded_after_cancel ctx now pk "R" (db w)
                    (set_refunds (db w)
                       (refunds (db w)
                        ++ [refund_row cfg now retreat_ ol paid
                              "Reservation canceled" (db w)]))
                    instance retreat_ order_line_ order_ eq_refl eq_refl
                    eq_refl eq_refl Hi Hr Hol Ho)
          as (Hi' & [r' Hr'] & Hol' & Ho').
        eapply destroy_inactive;
          [exact Hi' | reflexivity | exact Hr' | exact Hol' | exact Ho']. }
    destruct Hresp as [-> H2]. rewrite H2. cbn [snd].
    split; [reflexivity|]. intros resp E. inversion E. split; reflexivity.
Qed.

Lemma with_reserved_seats_same (r : Retreat) :
  with_reserved_seats r (reserved_seats r) = r.
Proof. now destruct r. Qed.

Lemma reservation_after_cancel (ctx : Context) (now : datetime) (pk : Z)
    (action : string) (d dmid : DB) (instance : Reservation)
    (retreat_ : Retreat) :
  reservations dmid = reservations d ->
  get_row reservation_pk pk (ReservationViewSet.get_queryset ctx d)
    = Some instance ->
  get_row reservation_pk pk
    (reservations (after_cancel now action instance retreat_ dmid))
  = Some (ReservationViewSet.canceled_by_user now action instance).
Proof.
  intros Eres Hi. pose proof (get_row_Some _ _ _ _ Hi) as [Hin Hpk].
  unfold after_cancel. cbn [reservations set_reservations set_retreats].
  rewrite Eres. subst pk.
  change (reservation_pk instance) with
    (reservation_pk (ReservationViewSet.canceled_by_user now action instance)).
  assert (Hin' : In instance (reservations d)).
  { unfold ReservationViewSet.get_queryset in Hin.
    destruct (request_user_is_staff ctx); [exact Hin|].
    now apply filter_In in Hin. }
  unfold save_row.
  assert (Hex : existsb (fun x => reservation_pk x =? reservation_pk instance)
                  (reservations d) = true).
  { apply existsb_exists. exists instance. split; [exact Hin'|].
    apply Z.eqb_refl. }
  cbn [reservation_pk ReservationViewSet.canceled_by_user]. rewrite Hex.
  clear - Hin'. unfold get_row.
  induction (reservations d) as [|x rows IH]; simpl in *; [tauto|].
  destruct (reservation_pk x =? reservation_pk instance) eqn:E.
  - cbn [reservation_pk]. now rewrite Z.eqb_refl.
  - rewrite E. apply IH. destruct Hin' as [-> | H]; [|exact H].
    now rewrite Z.eqb_refl in E.
Qed.

Lemma retreat_after_cancel (now : datetime) (action : string) (dmid d : DB)
    (instance : Reservation) (retreat_ : Retreat) :
  retreats dmid = retreats d ->
  reservations dmid = reservations d ->
  get_row retreat_pk (retreat instance) (retreats d) = Some retreat_ ->
  let d' := after_cancel now action instance retreat_ dmid in
  get_row retreat_pk (retreat_pk retreat_) (retreats d')
  = Some (with_reserved_seats retreat_
            (if negb (reserved_seats retreat_ =? 0)
                || (seats retreat_ - total_reservations d' retreat_
                    - reserved_seats retreat_ =? 1)
             then reserved_seats retreat_ + 1
             else reserved_seats retreat_)).
Proof.
  intros Eret Eres Hr d'. pose proof (get_row_Some _ _ _ _ Hr) as [_ Hrpk].
  unfold d', after_cancel.
  cbn [retreats reservations set_reservations set_retreats].
  unfold places_remaining, total_reservations.
  cbn [retreats reservations set_reservations set_retreats].
  rewrite Eret.
  destruct (negb (reserved_seats retreat_ =? 0) || _).
  - change (retreat_pk retreat_) with
      (retreat_pk (with_reserved_seats retreat_ (reserved_seats retreat_ + 1)))
      at 1.
    apply get_row_save_row with (r := retreat_).
    cbn [retreat_pk with_reserved_seats]. rewrite Hrpk. exact Hr.
  - rewrite with_reserved_seats_same.
    apply get_row_save_row with (r := retreat_). rewrite Hrpk. exact Hr.
Qed.


(** With distinct primary keys, the cancellation of an active reservation
    of an event is one active reservation less for that event. *)
Lemma replace_absent {A} (pk : A -> Z) (r' : A) (rows : list A) :
  ~ In (pk r') (map pk rows) ->
  map (fun x => if pk x =? pk r' then r' else x) rows = rows.
Proof.
  induction rows as [|x rows IH]; simpl; intros H; [reflexivity|].
  destruct (Z.eqb_spec (pk x) (pk r')) as [E|E]; [exfalso; tauto|].
  f_equal. apply IH. tauto.
Qed.

Lemma total_reservations_after_cancel (now : datetime) (action : string)
    (instance : Reservation) (r : Retreat) (d : DB) :
  NoDup (map reservation_pk (reservations d)) ->
  In instance (reservations d) ->
  is_active instance = true ->
  retreat instance = retreat_pk r ->
  total_reservations (after_cancel now action instance r d) r
  = total_reservations d r - 1.
Proof.
  intros Hnd Hin Hact Hret.
  unfold after_cancel, total_reservations.
  cbn [reservations set_reservations set_retreats]. unfold save_row.
  assert (Hex : existsb (fun x => reservation_pk x
                                  =? reservation_pk
                                       (ReservationViewSet.canceled_by_user
                                          now action instance))
                  (reservations d) = true).
  { apply existsb_exists. exists instance. split; [exact Hin|].
    apply Z.eqb_refl. }
  rewrite Hex. clear Hex.
  set (f := fun x => is_active x && (retreat x =? retreat_pk r)).
  set (c := ReservationViewSet.canceled_by_user now action instance).
  assert (Hc : f c = false) by reflexivity.
  assert (Hf : f instance = true).
  { unfold f. rewrite Hact, Hret. simpl. apply Z.eqb_refl. }
  assert (Hpk : reservation_pk c = reservation_pk instance) by reflexivity.
  enough (S (List.length
               (filter f (map (fun x => if reservation_pk x =? reservation_pk c
                                       then c else x) (reservations d))))
          = List.length (filter f (reservations d))) as <- by lia.
  induction (reservations d) as [|x rows IH]; [destruct Hin|].
  cbn [map] in Hnd. apply NoDup_cons_iff in Hnd. destruct Hnd as [Hx Hnd].
  destruct Hin as [-> | Hin].
  - cbn [map filter]. rewrite Hpk, Z.eqb_refl, Hc, Hf. cbn [Datatypes.length].
    rewrite <- Hpk. rewrite replace_absent; [reflexivity|].
    now rewrite Hpk.
  - cbn [map filter].
    assert (Hne : reservation_pk x <> reservation_pk c).
    { intros E. apply Hx. rewrite E, Hpk. now apply in_map. }
    apply Z.eqb_neq in Hne. rewrite Hne.
    destruct (f x); cbn [Datatypes.length]; rewrite <- (IH Hnd Hin);
      reflexivity.
Qed.

(** With distinct primary keys, a cancellation leaves one more place
    remaining than there was. *)
Lemma cancellation_frees_one_place (now : datetime) (action : string)
    (instance : Reservation) (r : Retreat) (d : DB) :
  NoDup (map reservation_pk (reservations d)) ->
  In instance (reservations d) ->
  is_active instance = true ->
  retreat instance = retreat_pk r ->
  seats r - total_reservations (after_cancel now action instance r d) r
  - reserved_seats r
  = places_remaining d r + 1.
Proof.
  intros Hnd Hin Hact Hret.
  rewrite total_reservations_after_cancel by assumption.
  unfold places_remaining. lia.
Qed.

(** C3, as amended: canceling an active reservation whose order line, if
    any, has a quantity of at most 1.  When the cancellation comes less
    than [min_day_refund] days before the event or the line is not
    refundable, the reservation becomes inactive with reason ['U'], action
    ['N'] and the current time as date, and the gateway is not called.
    Otherwise the gateway is asked to refund [refund_rate] percent of the
    paid price plus the tax on it, in cents; when it accepts, the
    reservation becomes inactive with reason ['U'], action ['R'] and the
    current time as date; when it refuses, the cancellation fails with a
    validation error and no table changes. *)
Theorem cancellation_refund_rule (cfg : Settings) (gw : Gateway)
    (ctx : Context) (now : datetime) (pk : Z) (w : World)
    (instance : Reservation) (retreat_ : Retreat)
    (order_line_ : option OrderLine) (order_ : option Order) :
  get_row reservation_pk pk (ReservationViewSet.get_queryset ctx (db w))
    = Some instance ->
  is_active instance = true ->
  get_row retreat_pk (retreat instance) (retreats (db w)) = Some retreat_ ->
  ReservationViewSet.related_order_line (db w) instance = Some order_line_ ->
  ReservationViewSet.related_order (db w) order_line_ = Some order_ ->
  quantity_allows order_line_ ->
  let due := (timedelta_days (min_day_refund retreat_)
                <=? start_time retreat_ - now)
             && ReservationViewSet.refundable_line (db w) order_line_ in
  let run := ReservationViewSet.destroy cfg gw ctx now pk w in
  let canceled action :=
    {| reservation_pk := reservation_pk instance; user := user instance;
       retreat := retreat instance; order_line := order_line instance;
       is_active := false; is_present := is_present instance;
       cancelation_reason := Some "U"; cancelation_action := Some action;
       cancelation_date := Some now |} in
  (due = false ->
     fst run = inr HTTP_204_NO_CONTENT
     /\ get_row reservation_pk pk (reservations (db (snd run)))
        = Some (canceled "N")
     /\ log (snd run)
        = log w ++ [notify_scheduler_waite_queue (retreat_pk retreat_)])
  /\ (due = true ->
      forall ol o paid,
        order_line_ = Some ol -> order_ = Some o -> cost ol = Some paid ->
        let cents :=
          int_of_Decimal
            (round2 (((paid * (inject_Z (refund_rate retreat_) / inject_Z 100))
                      * (SELLING_TAX cfg + 1)) * inject_Z 100)%Q) in
        ((exists u, gw_refund_amount gw (settlement_id o) cents = inr u) ->
           fst run = inr HTTP_204_NO_CONTENT
           /\ get_row reservation_pk pk (reservations (db (snd run)))
              = Some (canceled "R")
           /\ log (snd run)
              = log w ++ [refund_amount (settlement_id o) cents;
                          notify_scheduler_waite_queue (retreat_pk retreat_);
                          send_mail "refund" (user instance)])
        /\ (forall err,
              gw_refund_amount gw (settlement_id o) cents = inl err ->
              (exists message,
                 fst run = inl (ValidationError non_field_errors message))
              /\ db (snd run) = db w)).
Proof.
  intros Hi Hact Hr Hol Ho Hq due run canceled.
  unfold run. rewrite (destroy_loaded _ _ _ _ _ _ _ _ _ _ Hi Hr Hol Ho).
  fold (ReservationViewSet.respects_minimum_days now retreat_) in due.
  unfold atomic. split.
  - intros Hdue. rewrite cancel_not_refunded by auto.
    rewrite Hact. cbn [is_some andb fst snd db log].
    split; [reflexivity|]. split; [|reflexivity].
    now apply reservation_after_cancel with (ctx := ctx) (d := db w).
  - intros Hdue ol o paid Eol Eo Hcost. cbv zeta. subst order_line_ order_.
    fold (refund_total cfg retreat_ paid).
    fold (refund_cents cfg retreat_ paid).
    apply andb_true_iff in Hdue. destruct Hdue as [Hresp Hrefundable].
    rewrite Hresp, Hrefundable.
    assert (Ho' : get_row order_pk (order ol) (orders (db w)) = Some o).
    { unfold ReservationViewSet.related_order in Ho.
      destruct (get_row order_pk (order ol) (orders (db w))); simpl in Ho;
        congruence. }
    split.
    + intros Hgw.
      rewrite (cancel_refunded cfg gw now instance retreat_ ol o paid w Hact
                 Hq Ho' Hcost Hgw).
      rewrite Hact. cbn [is_some andb fst snd db log].
      split; [reflexivity|]. split.
      * now apply reservation_after_cancel with (ctx := ctx) (d := db w).
      * now rewrite <- !app_assoc.
    + intros err Hgw.
      rewrite (cancel_refund_rejected cfg gw now instance retreat_ ol o paid
                 err w Hact Hq Ho' Hcost Hgw).
      cbn [fst snd db]. split; [eexists; reflexivity | reflexivity].
Qed.


(** ** Orders with a quantity bigger than 1 *)

Lemma atomic_raise_unchanged {A} (m : M A) (w : World) (e : Exception) :
  m w = (inl e, w) -> atomic m w = (inl e, w).
Proof. intros H. unfold atomic. rewrite H. now destruct w. Qed.

Lemma exchange_checks_quantity (gw : Gateway) (now : datetime)
    (instance : Reservation) (current new_ : Retreat)
    (payment_token single_use_token : option string)
    (profile : option PaymentProfile) (w : World) (ol_pk : Z)
    (ol : OrderLine) :
  order_line instance = Some ol_pk ->
  get_row order_line_pk ol_pk (order_lines (db w)) = Some ol ->
  1 < quantity ol ->
  ReservationSerializer.exchange_checks gw now instance current new_
    payment_token single_use_token profile w
  = (inl (ValidationError non_field_errors quantity_bigger_than_1), w).
Proof.
  intros Hol Hrow Hq. unfold ReservationSerializer.exchange_checks.
  unfold_M. rewrite Hol. step. rewrite Hrow. step.
  assert ((quantity ol >? 1) = true) as -> by (apply Z.gtb_lt; lia).
  reflexivity.
Qed.

Lemma update_quantity (cfg : Settings) (gw : Gateway) (ctx : Context)
    (now : datetime) (instance : Reservation) (vd : Attrs) (w : World)
    (current new_ : Retreat) (ol_pk : Z) (ol : OrderLine) :
  view_action ctx = partial_update ->
  a_retirement vd = Some new_ ->
  get_row retreat_pk (retreat instance) (retreats (db w)) = Some current ->
  order_line instance = Some ol_pk ->
  get_row order_line_pk ol_pk (order_lines (db w)) = Some ol ->
  1 < quantity ol ->
  ReservationSerializer.update cfg gw ctx now instance vd w
  = (inl (ValidationError non_field_errors quantity_bigger_than_1), w).
Proof.
  intros Hact Hnew Hr Hol Hrow Hq. unfold ReservationSerializer.update.
  apply atomic_raise_unchanged.
  unfold bind at 1. unfold get_db at 1. step.
  unfold bind at 1. rewrite Hr. unfold must at 1, ret at 1. step.
  unfold bind at 1. rewrite Hact.
  cbn [a_retirement ReservationSerializer.popped]. rewrite Hnew.
  unfold bind at 1. unfold ReservationSerializer.exchange.
  unfold bind at 1.
  rewrite (exchange_checks_quantity gw now instance current new_ _ _ _ w
             ol_pk ol Hol Hrow Hq).
  reflexivity.
Qed.

(** C9: a reservation whose order line has a quantity bigger than 1 can be
    neither exchanged nor canceled: the partial update that names a retreat
    and the deletion of the reservation while active both fail with the
    validation error that sends the user to the support team, and leave the
    tables and the log as they were. *)
Theorem quantity_bigger_than_1_is_rejected (cfg : Settings) (gw : Gateway)
    (ctx : Context) (now : datetime) (pk : Z) (w : World)
    (instance : Reservation) (retreat_ : Retreat) (ol : OrderLine)
    (order_ : option Order) :
  get_row reservation_pk pk (ReservationViewSet.get_queryset ctx (db w))
    = Some instance ->
  get_row retreat_pk (retreat instance) (retreats (db w)) = Some retreat_ ->
  ReservationViewSet.related_order_line (db w) instance = Some (Some ol) ->
  ReservationViewSet.related_order (db w) (Some ol) = Some order_ ->
  1 < quantity ol ->
  (forall (ctx' : Context) (validated_data : Attrs) (new_retirement : Retreat),
      view_action ctx' = partial_update ->
      a_retirement validated_data = Some new_retirement ->
      ReservationSerializer.update cfg gw ctx' now instance validated_data w
      = (inl (ValidationError non_field_errors quantity_bigger_than_1), w))
  /\ (is_active instance = true ->
      ReservationViewSet.destroy cfg gw ctx now pk w
      = (inl (ValidationError non_field_errors quantity_bigger_than_1), w)).
Proof.
  intros Hi Hr Hol Ho Hq. split.
  - intros ctx' vd new_ Hact Hnew.
    unfold ReservationViewSet.related_order_line in Hol.
    destruct (order_line instance) as [ol_pk|] eqn:E; [|discriminate].
    destruct (get_row order_line_pk ol_pk (order_lines (db w))) as [ol'|]
      eqn:Hrow; [|discriminate].
    simpl in Hol. inversion Hol; subst ol'.
    now apply update_quantity with (current := retreat_) (new_ := new_)
                                   (ol_pk := ol_pk) (ol := ol).
  - intros Hact.
    rewrite (destroy_loaded _ _ _ _ _ _ _ _ _ _ Hi Hr Hol Ho).
    rewrite atomic_raise_unchanged
      with (e := ValidationError non_field_errors quantity_bigger_than_1);
      [reflexivity|].
    now apply cancel_quantity.
Qed.

(** ** Exchanging a reservation *)

Lemma charge_balance_ok (cfg : Settings) (gw : Gateway) (now : datetime)
    (instance : Reservation) (current new_ : Retreat)
    (payment_token single_use_token : option string)
    (profile : option PaymentProfile) (difference : Decimal)
    (w w1 : World) (ol_pk : Z) :
  ReservationSerializer.charge_balance cfg gw now instance current new_
    payment_token single_use_token profile difference w = (inr ol_pk, w1) ->
  ReservationSerializer.no_place_for (db w) (user instance) new_ = false
  /\ exists es,
       log w1 = log w ++ es
       /\ charged es = [balance_cents cfg difference]
       /\ refunded es = [].
Proof.
  unfold ReservationSerializer.charge_balance,
    ReservationSerializer.delete_user_waiting,
    ReservationSerializer.amount_with_tax_in_cents.
  fold (balance_cents cfg difference).
  unfold_M. intros H. run_in H; inversion H; subst; cbn [log];
    (split; [eassumption|]);
    eexists; (split; [repeat rewrite <- app_assoc; reflexivity|]);
    split; reflexivity.
Qed.

Lemma refund_balance_ok (cfg : Settings) (gw : Gateway) (now : datetime)
    (instance : Reservation) (current new_ : Retreat) (difference : Decimal)
    (w w1 : World) (u : unit) :
  ReservationSerializer.refund_balance cfg gw now instance current new_
    difference w = (inr u, w1) ->
  exists ol_pk ol o es,
    ReservationSerializer.no_place_for (db w) (user instance) new_ = false
    /\ order_line instance = Some ol_pk
    /\ get_row order_line_pk ol_pk (order_lines (db w)) = Some ol
    /\ get_row order_pk (order ol) (orders (db w)) = Some o
    /\ log w1 = log w ++ es
    /\ charged es = []
    /\ refunded es = [(settlement_id o, balance_cents cfg difference)].
Proof.
  unfold ReservationSerializer.refund_balance,
    ReservationSerializer.delete_user_waiting,
    ReservationSerializer.amount_with_tax_in_cents.
  fold (balance_cents cfg difference).
  unfold_M. intros H. run_in H; inversion H; subst; cbn [log].
  cbn [order_lines orders set_wait_queue] in *.
  do 3 eexists. eexists. split; [first [eassumption | reflexivity]|].
  split; [reflexivity|]. split; [eassumption|]. split; [eassumption|].
  split; [repeat rewrite <- app_assoc; reflexivity|].
  split; reflexivity.
Qed.

Lemma Qlt_bool_asym (a b : Q) : Qlt_bool a b = true -> Qlt_bool b a = false.
Proof.
  unfold Qlt_bool. rewrite negb_true_iff, negb_false_iff.
  intros H. apply Qle_bool_iff. apply Qlt_le_weak. apply Qnot_le_lt.
  intros Hle. apply Qle_bool_iff in Hle. congruence.
Qed.

(** What the checks of an exchange have established when they pass. *)
Lemma exchange_checks_ok (gw : Gateway) (now : datetime)
    (instance : Reservation) (current new_ : Retreat)
    (payment_token single_use_token : option string)
    (profile profile' : option PaymentProfile) (w w1 : World)
    (need_transaction need_refund : bool) (difference : Decimal) :
  ReservationSerializer.exchange_checks gw now instance current new_
    payment_token single_use_token profile w
  = (inr (need_transaction, need_refund, difference, profile'), w1) ->
  need_transaction = Qlt_bool (price current) (price new_)
  /\ need_refund = Qlt_bool (price new_) (price current)
  /\ difference = (if need_refund then (price current - price new_)%Q
                   else if need_transaction
                        then (price new_ - price current)%Q
                        else 0%Q)
  /\ (need_transaction = true ->
      truthy payment_token || truthy single_use_token = true)
  /\ overlaps (start_time new_) (end_time new_)
       (values_list_start_end (db w)
          (filter (fun x => negb (reservation_pk x =? reservation_pk instance))
             (filter (fun x => (user x =? user instance) && is_active x)
                (reservations (db w))))) = false
  /\ ReservationSerializer.respects_minimum_days now current
       (min_day_exchange current) = true
  /\ retreat_pk current <> retreat_pk new_
  /\ (exists ol_pk ol,
        order_line instance = Some ol_pk
        /\ get_row order_line_pk ol_pk (order_lines (db w)) = Some ol
        /\ quantity ol <= 1)
  /\ set_payment_profiles (db w1) (payment_profiles (db w)) = db w
  /\ exists es, log w1 = log w ++ es /\ charged es = [] /\ refunded es = [].
Proof.
  unfold ReservationSerializer.exchange_checks. unfold_M. intros H.
  run_in H; inversion H; subst; clear H; cbn [db log];
    cbn [reservations retreats set_payment_profiles] in *.
  all: repeat match goal with
         | |- _ /\ _ => split
         end.
  all: try reflexivity; try eassumption.
  all: try (apply Z.eqb_neq; assumption).
  all: try (match goal with
            | H : negb ?b = false |- ?b = true =>
                now apply negb_false_iff in H
            end).
  all: try (intros Hnt; try discriminate Hnt;
            match goal with
            | H : (_ && negb ?t) = false |- ?t = true =>
                try rewrite Hnt in H; simpl in H;
                now apply negb_false_iff in H
            end).
  all: try (do 2 eexists; split; [reflexivity|]; split; [eassumption|];
            match goal with
            | H : (quantity ?ol >? 1) = false |- quantity ?ol <= 1 =>
                destruct (Z.gtb_spec (quantity ol) 1); [discriminate | lia]
            end).
  all: try (destruct (db w1); reflexivity).
  all: try (destruct (db w); reflexivity).
  all: try (exists []; rewrite app_nil_r; repeat split; reflexivity).
  all: try (eexists [_]; repeat split; reflexivity).
Qed.

Lemma atomic_ok {A} (m : M A) (w w' : World) (a : A) :
  atomic m w = (inr a, w') -> m w = (inr a, w').
Proof.
  unfold atomic. destruct (m w) as [[e | a'] w1]; intros H; inversion H.
  reflexivity.
Qed.

(** What a whole exchange has done when it succeeds. *)
Lemma exchange_ok (cfg : Settings) (gw : Gateway) (now : datetime)
    (instance : Reservation) (current new_ : Retreat)
    (payment_token single_use_token : option string)
    (profile : option PaymentProfile) (vd vd' : Attrs)
    (canceled instance' : Reservation) (w w1 : World) :
  ReservationSerializer.exchange cfg gw now instance current new_
    payment_token single_use_token profile vd w
  = (inr (canceled, instance', vd'), w1) ->
  let need_transaction := Qlt_bool (price current) (price new_) in
  let need_refund := Qlt_bool (price new_) (price current) in
  a_retirement vd' = a_retirement vd
  /\ (need_transaction = true ->
      truthy payment_token || truthy single_use_token = true)
  /\ overlaps (start_time new_) (end_time new_)
       (values_list_start_end (db w)
          (filter (fun x => negb (reservation_pk x =? reservation_pk instance))
             (filter (fun x => (user x =? user instance) && is_active x)
                (reservations (db w))))) = false
  /\ (need_transaction || need_refund = true ->
      ReservationSerializer.no_place_for (db w) (user instance) new_ = false)
  /\ exists es,
       log w1 = log w ++ es
       /\ charged es
          = (if need_transaction
             then [balance_cents cfg (price new_ - price current)%Q]
             else [])
       /\ if need_refund
          then exists ol_pk ol o,
                 order_line instance = Some ol_pk
                 /\ get_row order_line_pk ol_pk (order_lines (db w)) = Some ol
                 /\ get_row order_pk (order ol) (orders (db w)) = Some o
                 /\ refunded es
                    = [(settlement_id o,
                        balance_cents cfg (price current - price new_)%Q)]
          else refunded es = [].
Proof.
  intros H need_transaction need_refund.
  unfold ReservationSerializer.exchange in H. unfold bind at 1 in H.
  destruct (ReservationSerializer.exchange_checks gw now instance current
              new_ payment_token single_use_token profile w)
    as [[e | [[[nt nr] difference] profile']] w0] eqn:Hchecks;
    [discriminate|].
  destruct (exchange_checks_ok _ _ _ _ _ _ _ _ _ _ _ _ _ _ Hchecks)
    as (Hnt & Hnr & Hdiff & Htok & Hover & _ & _ & _ & Hdb & es0 & Hlog0
        & Hc0 & Hr0).
  fold need_transaction in Hnt. fold need_refund in Hnr.
  apply atomic_ok in H.
  assert (Hplace :
            ReservationSerializer.no_place_for (db w0) (user instance) new_
            = ReservationSerializer.no_place_for (db w) (user instance) new_).
  { rewrite <- Hdb. reflexivity. }
  assert (Htables : order_lines (db w0) = order_lines (db w)
                    /\ orders (db w0) = orders (db w)).
  { rewrite <- Hdb. split; reflexivity. }
  destruct Htables as [Eol Eo].
  destruct nt.
  - (* the new retreat costs more *)
    assert (nr = false) as ->.
    { rewrite Hnr. unfold need_refund. apply Qlt_bool_asym.
      symmetry. exact Hnt. }
    cbn [when] in H. unfold bind at 1 in H. unfold bind at 1 in H.
    destruct (ReservationSerializer.charge_balance cfg gw now instance
                current new_ payment_token single_use_token profile'
                difference w0) as [[e | ol_pk] w2] eqn:Hcharge;
      [discriminate|].
    destruct (charge_balance_ok _ _ _ _ _ _ _ _ _ _ _ _ _ Hcharge)
      as (Havail & es1 & Hlog1 & Hc1 & Hr1).
    unfold_M_in H. run_in H; inversion H; subst; clear H.
    rewrite <- Hnt, <- Hnr. cbn [a_retirement ReservationSerializer.with_order_line].
    split; [reflexivity|]. split; [exact Htok|]. split; [exact Hover|].
    split; [intros _; now rewrite <- Hplace|].
    exists (es0 ++ es1). cbn [log]. rewrite Hlog1, Hlog0, app_assoc.
    split; [reflexivity|]. unfold charged, refunded in *.
    rewrite !flat_map_app, Hc0, Hc1, Hr0, Hr1.
    split; reflexivity.
  - destruct nr.
    + (* the new retreat costs less *)
      unfold bind at 1 in H. unfold ret at 1 in H.
      cbn [when] in H. unfold bind at 1 in H.
      destruct (ReservationSerializer.refund_balance cfg gw now instance
                  current new_ difference w0) as [[e | u] w2] eqn:Hrefund;
        [discriminate|].
      destruct (refund_balance_ok _ _ _ _ _ _ _ _ _ _ Hrefund)
        as (ol_pk & ol & o & es1 & Havail & Hol & Hrow & Horder & Hlog1
            & Hc1 & Hr1).
      unfold_M_in H. run_in H; inversion H; subst; clear H.
      rewrite <- Hnt, <- Hnr.
      split; [reflexivity|]. split; [exact Htok|]. split; [exact Hover|].
      split; [intros _; now rewrite <- Hplace|].
      exists (es0 ++ es1). cbn [log]. rewrite Hlog1, Hlog0, app_assoc.
      split; [reflexivity|]. unfold charged, refunded in *.
      rewrite !flat_map_app, Hc0, Hc1, Hr0, Hr1.
      split; [reflexivity|].
      exists ol_pk, ol, o. rewrite <- Eol, <- Eo. auto.
    + (* same price *)
      unfold_M_in H. run_in H; inversion H; subst; clear H.
      rewrite <- Hnt, <- Hnr.
      split; [reflexivity|]. split; [exact Htok|]. split; [exact Hover|].
      split; [discriminate|].
      exists es0. cbn [log]. auto.
Qed.

Lemma Qlt_bool_iff (a b : Q) : Qlt_bool a b = true <-> (a < b)%Q.
Proof.
  unfold Qlt_bool. rewrite negb_true_iff. split.
  - intros H. apply Qnot_le_lt. intros Hle. apply Qle_bool_iff in Hle.
    congruence.
  - intros H. destruct (Qle_bool b a) eqn:E; [|reflexivity].
    apply Qle_bool_iff in E. exfalso. exact (Qlt_not_le _ _ H E).
Qed.

Lemma charged_app (a b : list Effect) :
  charged (a ++ b) = charged a ++ charged b.
Proof. apply flat_map_app. Qed.

Lemma refunded_app (a b : list Effect) :
  refunded (a ++ b) = refunded a ++ refunded b.
Proof. apply flat_map_app. Qed.

(** What a partial update that names a retreat has done when it succeeds:
    it is the exchange followed by mails. *)
Lemma update_exchange_ok (cfg : Settings) (gw : Gateway) (ctx : Context)
    (now : datetime) (instance result : Reservation) (vd : Attrs)
    (new_ : Retreat) (w w' : World) :
  view_action ctx = partial_update ->
  a_retirement vd = Some new_ ->
  ReservationSerializer.update cfg gw ctx now instance vd w
  = (inr result, w') ->
  exists current,
    get_row retreat_pk (retreat instance) (retreats (db w)) = Some current
    /\ (Qlt_bool (price current) (price new_) = true ->
        truthy (pop_token (a_payment_token vd))
        || truthy (pop_token (a_single_use_token vd)) = true)
    /\ overlaps (start_time new_) (end_time new_)
         (values_list_start_end (db w)
            (filter (fun x => negb (reservation_pk x =? reservation_pk instance))
               (filter (fun x => (user x =? user instance) && is_active x)
                  (reservations (db w))))) = false
    /\ (Qlt_bool (price current) (price new_)
        || Qlt_bool (price new_) (price current) = true ->
        ReservationSerializer.no_place_for (db w) (user instance) new_ = false)
    /\ exists es,
         log w' = log w ++ es
         /\ charged es
            = (if Qlt_bool (price current) (price new_)
               then [balance_cents cfg (price new_ - price current)%Q]
               else [])
         /\ if Qlt_bool (price new_) (price current)
            then exists ol_pk ol o,
                   order_line instance = Some ol_pk
                   /\ get_row order_line_pk ol_pk (order_lines (db w))
                      = Some ol
                   /\ get_row order_pk (order ol) (orders (db w)) = Some o
                   /\ refunded es
                      = [(settlement_id o,
                          balance_cents cfg (price current - price new_)%Q)]
            else refunded es = [].
Proof.
  intros Hact Hnew H. apply atomic_ok in H.
  unfold ReservationSerializer.update in H.
  unfold bind at 1 in H. unfold get_db at 1 in H. cbv beta iota in H.
  unfold bind at 1 in H.
  destruct (get_row retreat_pk (retreat instance) (retreats (db w)))
    as [current|] eqn:Hr; [|discriminate].
  unfold must at 1, ret at 1 in H. cbv beta iota in H.
  rewrite Hact in H. cbn [a_retirement ReservationSerializer.popped] in H.
  rewrite Hnew in H.
  unfold bind at 1 in H. unfold bind at 1 in H.
  destruct (ReservationSerializer.exchange cfg gw now instance current new_
              _ _ _ _ w) as [[e | [[canceled instance'] vd']] w0] eqn:Hex;
    [discriminate|].
  destruct (exchange_ok _ _ _ _ _ _ _ _ _ _ _ _ _ _ _ Hex)
    as (Hret & Htok & Hover & Havail & es & Hlog & Hc & Hrf).
  cbn [a_retirement ReservationSerializer.popped] in Hret.
  rewrite Hnew in Hret.
  exists current. split; [reflexivity|]. split; [exact Htok|].
  split; [exact Hover|]. split; [exact Havail|].
  unfold ret at 1 in H. cbv beta iota in H.
  unfold ReservationSerializer.super_update in H.
  unfold_M_in H. rewrite Hret in H.
  run_in H; inversion H; subst; clear H; cbn [log].
  exists (es ++ [send_mail "exchange" (user instance);
                 send_mail "retirement_info"
                   (user (ReservationSerializer.set_attrs vd' instance'))]).
  rewrite Hlog. split; [now rewrite <- !app_assoc|].
  rewrite charged_app, refunded_app.
  change (charged [send_mail _ _; send_mail _ _]) with (@nil Z).
  change (refunded [send_mail _ _; send_mail _ _]) with (@nil (Z * Z)).
  rewrite !app_nil_r. split; [exact Hc | exact Hrf].
Qed.



(** ** Every call of an exchange to the gateway *)

Section EmitsOnly.
Context (P : Effect -> Prop).











End EmitsOnly.









(** ** Notifying the wait queue *)

(** C5, as amended: for an event the caller can see and a retention of
    notifications of at least one day, calling [notify] while a
    notification of the event was created within the last 23 hours 55
    minutes answers that the last notification was sent less than 24h
    ago; it notifies nobody, creates no notification, calls nothing
    outside and leaves the event as it was.  It is not a no-op: the
    notifications of the event older than the retention are deleted. *)
Theorem notify_within_24h_reports_too_soon (cfg : Settings) (ctx : Context)
    (now : datetime) (pk : Z) (w : World) (retreat_ : Retreat)
    (n : WaitQueueNotification) :
  get_row retreat_pk pk (RetreatViewSet.get_queryset ctx (db w))
    = Some retreat_ ->
  1 <= RETREAT_NOTIFICATION_LIFETIME_DAYS cfg ->
  In n (wait_queue_notifications (db w)) ->
  wqn_retreat n = pk ->
  now - timedelta_hours_minutes 23 55 < wqn_created_at n ->
  let kept :=
    filter (fun m => negb ((wqn_created_at m
                              <? now - timedelta_days
                                         (RETREAT_NOTIFICATION_LIFETIME_DAYS
                                            cfg))
                           && (wqn_retreat m =? pk)))
      (wait_queue_notifications (db w)) in
  RetreatViewSet.notify cfg ctx now pk w
  = (inr (HTTP_200_OK RetreatViewSet.last_notification_less_than_24h false),
     {| db := set_wait_queue_notifications (db w) kept; log := log w |})
  /\ In n kept
  /\ forall m, In m kept -> In m (wait_queue_notifications (db w)).
Proof.
  intros Hobj Hlife Hin Hret Hrecent kept.
  pose proof (get_row_Some _ _ _ _ Hobj) as [_ Hpk].
  assert (Hkept : In n kept).
  { unfold kept. apply filter_In. split; [exact Hin|].
    apply negb_true_iff, andb_false_iff. left. apply Z.ltb_ge.
    unfold timedelta_days, timedelta_hours_minutes in *. lia. }
  split; [|split; [exact Hkept|]].
  2:{ intros m Hm. unfold kept in Hm. now apply filter_In in Hm. }
  unfold RetreatViewSet.notify, RetreatViewSet.get_object.
  unfold_M. rewrite Hobj. step.
  cbn [wait_queue_notifications set_wait_queue_notifications].
  unfold delete_rows. rewrite Hpk. fold kept.
  destruct (filter _ kept) as [|m recent] eqn:Hrec.
  - exfalso.
    assert (Hn : In n (filter (fun n0 => (wqn_retreat n0 =? pk)
                                 && (now - timedelta_hours_minutes 23 55
                                     <? wqn_created_at n0)) kept)).
    { apply filter_In. split; [exact Hkept|].
      apply andb_true_iff. split; [now apply Z.eqb_eq | now apply Z.ltb_lt]. }
    rewrite Hrec in Hn. exact Hn.
  - reflexivity.
Qed.

(** ** Overlapping reservations *)

Lemma overlaps_member (start end_ s e : datetime)
    (l : list (datetime * datetime)) :
  In (s, e) l -> Z.max s start < Z.min e end_ -> overlaps start end_ l = true.
Proof.
  intros Hin Hlt. unfold overlaps. apply existsb_exists.
  exists (s, e). split; [exact Hin|]. now apply Z.ltb_lt.
Qed.

Lemma values_list_member (d : DB) (rows : list Reservation) (x : Reservation)
    (r : Retreat) :
  In x rows ->
  get_row retreat_pk (retreat x) (retreats d) = Some r ->
  In (start_time r, end_time r) (values_list_start_end d rows).
Proof.
  intros Hin Hr. unfold values_list_start_end. apply in_flat_map.
  exists x. split; [exact Hin|]. rewrite Hr. now left.
Qed.

(** The creation of a reservation is refused when the user holds an
    active reservation that overlaps it, unless that reservation matches
    every key of the submitted data. *)
Lemma validate_rejects_overlap (d : DB) (ctx : Context) (attrs : Attrs)
    (new_ : Retreat) (u : Z) (x : Reservation) (r : Retreat) :
  view_action ctx <> partial_update ->
  a_retirement attrs = Some new_ ->
  a_user attrs = Some u ->
  ReservationSerializer.has_unknown_lookup attrs = false ->
  In x (reservations d) ->
  user x = u ->
  is_active x = true ->
  ReservationSerializer.matches_validated_data attrs x = false ->
  get_row retreat_pk (retreat x) (retreats d) = Some r ->
  Z.max (start_time r) (start_time new_) < Z.min (end_time r) (end_time new_) ->
  ReservationSerializer.validate d ctx attrs
  = inl (ValidationError non_field_errors overlaps_with_another).
Proof.
  intros Hact Hnew Hu Hk Hin Hux Hax Hm Hr Hlt.
  unfold ReservationSerializer.validate. rewrite Hnew, Hu, Hk.
  rewrite (overlaps_member _ _ (start_time r) (end_time r)).
  - destruct (view_action ctx); congruence.
  - apply values_list_member with (x := x); [|exact Hr].
    apply filter_In. split.
    + apply filter_In. split; [exact Hin|].
      rewrite Hax, andb_true_r. now apply Z.eqb_eq.
    + now rewrite Hm.
  - exact Hlt.
Qed.

(** The exchange of a reservation to a retreat that overlaps another
    active reservation of the user does not succeed, and leaves the tables
    as they were. *)
Lemma update_rejects_overlap (cfg : Settings) (gw : Gateway) (ctx : Context)
    (now : datetime) (instance : Reservation) (vd : Attrs) (new_ : Retreat)
    (w : World) (x : Reservation) (r : Retreat) :
  view_action ctx = partial_update ->
  a_retirement vd = Some new_ ->
  In x (reservations (db w)) ->
  user x = user instance ->
  is_active x = true ->
  reservation_pk x <> reservation_pk instance ->
  get_row retreat_pk (retreat x) (retreats (db w)) = Some r ->
  Z.max (start_time r) (start_time new_) < Z.min (end_time r) (end_time new_) ->
  exists e w',
    ReservationSerializer.update cfg gw ctx now instance vd w = (inl e, w')
    /\ db w' = db w.
Proof.
  intros Hact Hnew Hin Hux Hax Hpk Hr Hlt.
  destruct (ReservationSerializer.update cfg gw ctx now instance vd w)
    as [[e | result] w'] eqn:Hrun.
  - exists e, w'. split; [reflexivity|].
    unfold ReservationSerializer.update in Hrun.
    now apply atomic_exception in Hrun.
  - exfalso.
    destruct (update_exchange_ok _ _ _ _ _ _ _ _ _ _ Hact Hnew Hrun)
      as (current & _ & _ & Hover & _).
    rewrite (overlaps_member _ _ (start_time r) (end_time r)) in Hover;
      [discriminate| |exact Hlt].
    apply values_list_member with (x := x); [|exact Hr].
    apply filter_In. split.
    + apply filter_In. split; [exact Hin|].
      rewrite Hax, andb_true_r. now apply Z.eqb_eq.
    + apply negb_true_iff. now apply Z.eqb_neq.
Qed.

Lemma exchange_checks_overlap (gw : Gateway) (now : datetime)
    (instance : Reservation) (current new_ : Retreat)
    (payment_token single_use_token : option string)
    (profile : option PaymentProfile) (w : World) (ol_pk : Z)
    (ol : OrderLine) (x : Reservation) (r : Retreat) :
  order_line instance = Some ol_pk ->
  get_row order_line_pk ol_pk (order_lines (db w)) = Some ol ->
  In x (reservations (db w)) ->
  user x = user instance ->
  is_active x = true ->
  reservation_pk x <> reservation_pk instance ->
  get_row retreat_pk (retreat x) (retreats (db w)) = Some r ->
  Z.max (start_time r) (start_time new_) < Z.min (end_time r) (end_time new_) ->
  exists e w1,
    ReservationSerializer.exchange_checks gw now instance current new_
      payment_token single_use_token profile w = (inl e, w1)
    /\ is_validation_error e = true.
Proof.
  intros Hol Hrow Hin Hux Hax Hpk Hr Hlt.
  destruct (ReservationSerializer.exchange_checks gw now instance current
              new_ payment_token single_use_token profile w)
    as [[e | [[[nt nr] difference] profile']] w1] eqn:H.
  - exists e, w1. split; [reflexivity|].
    unfold ReservationSerializer.exchange_checks in H. unfold_M_in H.
    rewrite Hol in H. cbv beta iota in H. cbn [db log] in H.
    rewrite Hrow in H.
    run_in H; inversion H; reflexivity.
  - exfalso.
    destruct (exchange_checks_ok _ _ _ _ _ _ _ _ _ _ _ _ _ _ H)
      as (_ & _ & _ & _ & Hover & _).
    rewrite (overlaps_member _ _ (start_time r) (end_time r)) in Hover;
      [discriminate| |exact Hlt].
    apply values_list_member with (x := x); [|exact Hr].
    apply filter_In. split.
    + apply filter_In. split; [exact Hin|].
      rewrite Hax, andb_true_r. now apply Z.eqb_eq.
    + apply negb_true_iff. now apply Z.eqb_neq.
Qed.

(** X24: the exchange of a reservation to a retreat that overlaps another
    active reservation of the user is refused with a validation error and
    leaves the tables as they were. *)
Lemma update_overlap_is_refused (cfg : Settings) (gw : Gateway)
    (ctx : Context) (now : datetime) (instance : Reservation) (vd : Attrs)
    (current new_ : Retreat) (w : World) (ol_pk : Z) (ol : OrderLine)
    (x : Reservation) (r : Retreat) :
  view_action ctx = partial_update ->
  a_retirement vd = Some new_ ->
  get_row retreat_pk (retreat instance) (retreats (db w)) = Some current ->
  order_line instance = Some ol_pk ->
  get_row order_line_pk ol_pk (order_lines (db w)) = Some ol ->
  In x (reservations (db w)) ->
  user x = user instance ->
  is_active x = true ->
  reservation_pk x <> reservation_pk instance ->
  get_row retreat_pk (retreat x) (retreats (db w)) = Some r ->
  Z.max (start_time r) (start_time new_) < Z.min (end_time r) (end_time new_) ->
  exists e w',
    ReservationSerializer.update cfg gw ctx now instance vd w = (inl e, w')
    /\ is_validation_error e = true
    /\ db w' = db w.
Proof.
  intros Hact Hnew Hcur Hol Hrow Hin Hux Hax Hpk Hr Hlt.
  destruct (exchange_checks_overlap gw now instance current new_
              (pop_token (a_payment_token vd))
              (pop_token (a_single_use_token vd))
              (find (fun p => owner p =? user instance)
                 (payment_profiles (db w)))
              w ol_pk ol x r Hol Hrow Hin Hux Hax Hpk Hr Hlt)
    as (e & w1 & Hchecks & He).
  exists e, {| db := db w; log := log w1 |}.
  split; [|split; [exact He | reflexivity]].
  unfold ReservationSerializer.update. unfold atomic.
  unfold bind at 1. unfold get_db at 1. step.
  unfold bind at 1. rewrite Hcur. unfold must at 1, ret at 1. step.
  unfold bind at 1. rewrite Hact.
  cbn [a_retirement ReservationSerializer.popped]. rewrite Hnew.
  unfold bind at 1. unfold ReservationSerializer.exchange.
  unfold bind at 1. rewrite Hchecks. reflexivity.
Qed.

(** ** The statements at the sample data *)

(** C1: the validation of a creation leaves out of its overlap test the
    reservations that match every submitted key.  User 1 holds an active
    reservation for the retreat of days 30 to 32; the creation of a second
    active reservation of user 1 for the same retreat, whose interval
    overlaps the first, passes the validation. *)
Theorem duplicate_reservation_passes_validation :
  In (sample_reservation 1 1 1 1 true) (reservations sample_db)
  /\ Z.max (start_time mega_retreat) (start_time mega_retreat)
     < Z.min (end_time mega_retreat) (end_time mega_retreat)
  /\ ReservationSerializer.validate sample_db (staff_request create)
       duplicate_attrs = inr duplicate_attrs.
Proof.
  split; [now left|]. split; [reflexivity|]. reflexivity.
Qed.

(** C2: the exchange to an event without places left, for a user who was
    notified of its reserved seat, succeeds and removes the user from the
    wait queue, but the reserved seat is not consumed and the notification
    stays. *)
Theorem exchange_to_reserved_seat_keeps_the_seat :
  let run := ReservationSerializer.update sample_settings accepting_gateway
               (request_of 1 partial_update) sample_now
               (sample_reservation 1 1 1 1 true)
               (exchange_attrs full_retreat (Some "CZgD1NlBzPuSefg"))
               sample_world in
  places_remaining sample_db full_retreat = -1
  /\ reserved_seats full_retreat = 1
  /\ fst run = inr {| reservation_pk := 1; user := 1; retreat := 5;
                      order_line := Some 4; is_active := true;
                      is_present := false; cancelation_reason := None;
                      cancelation_action := None; cancelation_date := None |}
  /\ charged (log (snd run)) = [11497]
  /\ option_map reserved_seats
       (get_row retreat_pk 5 (retreats (db (snd run)))) = Some 1
  /\ filter (fun n => (wqn_user n =? 1) && (wqn_retreat n =? 5))
       (wait_queue_notifications (db (snd run)))
     = [{| notification_pk := 2; wqn_user := 1; wqn_retreat := 5;
           wqn_created_at := timedelta_days 9 |}]
  /\ filter (fun q => (wq_user q =? 1) && (wq_retreat q =? 5))
       (wait_queue (db (snd run))) = [].
Proof. vm_compute. repeat split. Qed.

(** An exchange at the same price is not tested for places at all: user 1
    moves to a sold-out event nobody was notified for. *)
Lemma exchange_at_same_price_skips_the_places :
  let run := ReservationSerializer.update sample_settings accepting_gateway
               (request_of 1 partial_update) sample_now
               (sample_reservation 1 1 1 1 true)
               (exchange_attrs sold_out_retreat None) sample_world in
  places_remaining sample_db sold_out_retreat = 0
  /\ reserved_seats sold_out_retreat = 0
  /\ option_map retreat (match fst run with inr x => Some x | inl _ => None end)
     = Some 6
  /\ places_remaining (db (snd run)) sold_out_retreat = -1.
Proof. vm_compute. repeat split. Qed.

(** C3 as stated fails on an order line of quantity 2: the reservation is
    active and the request reaches it, yet the cancellation is refused and
    the reservation is not soft-canceled, with whatever action. *)
Lemma cancellation_refund_rule_counterexample :
  let instance := sample_reservation 2 2 1 2 true in
  let run := ReservationViewSet.destroy sample_settings accepting_gateway
               (request_of 2 destroy_action) sample_now 2 sample_world in
  get_row reservation_pk 2
    (ReservationViewSet.get_queryset (request_of 2 destroy_action) sample_db)
  = Some instance
  /\ is_active instance = true
  /\ fst run = inl (ValidationError non_field_errors quantity_bigger_than_1)
  /\ get_row reservation_pk 2 (reservations (db (snd run))) = Some instance
  /\ ~ (exists action,
          get_row reservation_pk 2 (reservations (db (snd run)))
          = Some (ReservationViewSet.canceled_by_user sample_now action
                    instance)).
Proof.
  cbv zeta. split; [reflexivity|]. split; [reflexivity|].
  split; [reflexivity|]. split; [reflexivity|].
  intros [action H]. vm_compute in H. discriminate H.
Qed.

(** A cancellation 5 days before the event, less than the 7 days of
    [min_day_refund]: no refund, and the gateway is not called. *)
Example late_cancellation_is_not_refunded :
  let run := ReservationViewSet.destroy sample_settings accepting_gateway
               (request_of 1 destroy_action) (timedelta_days 25) 1
               sample_world in
  fst run = inr HTTP_204_NO_CONTENT
  /\ get_row reservation_pk 1 (reservations (db (snd run)))
     = Some {| reservation_pk := 1; user := 1; retreat := 1;
               order_line := Some 1; is_active := false;
               is_present := false; cancelation_reason := Some "U";
               cancelation_action := Some "N";
               cancelation_date := Some (timedelta_days 25) |}
  /\ log (snd run) = [notify_scheduler_waite_queue 1].
Proof. vm_compute. repeat split. Qed.

(** The exchange to a retreat that costs 100 less refunds 114.97 on the
    settlement of the order of the reservation. *)
Example exchange_to_cheaper_retreat_refunds :
  let run := ReservationSerializer.update sample_settings accepting_gateway
               (request_of 1 partial_update) sample_now
               (sample_reservation 1 1 1 1 true)
               (exchange_attrs cheaper_retreat None) sample_world in
  option_map retreat (match fst run with inr x => Some x | inl _ => None end)
  = Some 3
  /\ log (snd run)
     = [refund_amount 11 11497; send_mail "refund" 1; send_mail "exchange" 1;
        send_mail "retirement_info" 1].
Proof. vm_compute. repeat split. Qed.

(** The exchange to a retreat that overlaps an active reservation of the
    user is refused. *)
Example exchange_to_overlapping_retreat_is_refused :
  let w := {| db := set_reservations sample_db
                      (reservations sample_db
                       ++ [sample_reservation 4 1 6 1 true]);
              log := [] |} in
  ReservationSerializer.update sample_settings accepting_gateway
    (request_of 1 partial_update) sample_now
    (sample_reservation 4 1 6 1 true)
    (exchange_attrs overlapping_retreat None) w
  = (inl (ValidationError non_field_errors overlaps_with_another), w).
Proof. vm_compute. reflexivity. Qed.

(** The gateway refusing the refund, the cancellation fails and the
    reservation stays as it was. *)
Example cancellation_refused_by_the_gateway :
  let run := ReservationViewSet.destroy sample_settings refusing_gateway
               (request_of 1 destroy_action) sample_now 1 sample_world in
  fst run = inl (ValidationError non_field_errors payment_system_error)
  /\ db (snd run) = sample_db
  /\ log (snd run) = [refund_amount 11 11440].
Proof. vm_compute. repeat split. Qed.

(** C5 as stated fails when the event has a notification older than the
    retention: the call made within 24 hours of the last notification
    reports so, and deletes the old notification. *)
Lemma notify_within_24h_counterexample :
  let run := RetreatViewSet.notify sample_settings
               (request_of 0 create) an_hour_later 5 stale_world in
  In {| notification_pk := 2; wqn_user := 1; wqn_retreat := 5;
        wqn_created_at := timedelta_days 9 |}
     (wait_queue_notifications (db stale_world))
  /\ an_hour_later - timedelta_hours_minutes 23 55 < timedelta_days 9
  /\ fst run
     = inr (HTTP_200_OK RetreatViewSet.last_notification_less_than_24h false)
  /\ In stale_notification (wait_queue_notifications (db stale_world))
  /\ ~ In stale_notification (wait_queue_notifications (db (snd run)))
  /\ db (snd run) <> db stale_world.
Proof.
  cbv zeta. split; [vm_compute; tauto|]. split; [reflexivity|].
  split; [reflexivity|]. split; [now left|].
  assert (H : ~ In stale_notification
                  (wait_queue_notifications
                     (db (snd (RetreatViewSet.notify sample_settings
                                 (request_of 0 create) an_hour_later 5
                                 stale_world))))).
  { vm_compute. intros [H | [H | []]]; discriminate H. }
  split; [exact H|]. intros E. apply H. rewrite E. now left.
Qed.


Lemma cancellation_refund_rule_witness :
  let instance := sample_reservation 1 1 1 1 true in
  let run := ReservationViewSet.destroy sample_settings accepting_gateway
               (request_of 1 destroy_action) sample_now 1 sample_world in
  get_row reservation_pk 1
    (ReservationViewSet.get_queryset (request_of 1 destroy_action) sample_db)
  = Some instance
  /\ is_active instance = true
  /\ get_row retreat_pk (retreat instance) (retreats sample_db)
     = Some mega_retreat
  /\ ReservationViewSet.related_order_line sample_db instance
     = Some (Some (sample_order_line 1 1 1 (199 # 1)))
  /\ ReservationViewSet.related_order sample_db
       (Some (sample_order_line 1 1 1 (199 # 1)))
     = Some (Some (sample_order 1 1))
  /\ quantity_allows (Some (sample_order_line 1 1 1 (199 # 1)))
  /\ fst run = inr HTTP_204_NO_CONTENT
  /\ option_map cancelation_action
       (get_row reservation_pk 1 (reservations (db (snd run))))
     = Some (Some "R")
  /\ log (snd run)
     = [refund_amount 11 11440; notify_scheduler_waite_queue 1;
        send_mail "refund" 1].
Proof.
  cbv zeta.
  assert (Hq : quantity_allows (Some (sample_order_line 1 1 1 (199 # 1))))
    by (simpl; lia).
  destruct (cancellation_refund_rule sample_settings accepting_gateway
              (request_of 1 destroy_action) sample_now 1 sample_world
              (sample_reservation 1 1 1 1 true) mega_retreat
              (Some (sample_order_line 1 1 1 (199 # 1)))
              (Some (sample_order 1 1))
              eq_refl eq_refl eq_refl eq_refl eq_refl Hq) as [_ Hdue].
  destruct (Hdue eq_refl _ _ _ eq_refl eq_refl eq_refl) as [Hok _].
  destruct (Hok (ex_intro _ tt eq_refl)) as (H1 & H2 & H3).
  do 5 (split; [reflexivity|]). split; [exact Hq|].
  split; [exact H1|]. split; [now rewrite H2 | exact H3].
Defined.


Lemma notify_within_24h_reports_too_soon_witness :
  let n := {| notification_pk := 2; wqn_user := 1; wqn_retreat := 5;
              wqn_created_at := timedelta_days 9 |} in
  get_row retreat_pk 5
    (RetreatViewSet.get_queryset (request_of 0 create) sample_db)
  = Some full_retreat
  /\ 1 <= RETREAT_NOTIFICATION_LIFETIME_DAYS sample_settings
  /\ In n (wait_queue_notifications sample_db)
  /\ an_hour_later - timedelta_hours_minutes 23 55 < wqn_created_at n
  /\ RetreatViewSet.notify sample_settings (request_of 0 create)
       an_hour_later 5 sample_world
     = (inr (HTTP_200_OK RetreatViewSet.last_notification_less_than_24h
               false), sample_world).
Proof.
  cbv zeta.
  assert (Hin : In {| notification_pk := 2; wqn_user := 1; wqn_retreat := 5;
                      wqn_created_at := timedelta_days 9 |}
                   (wait_queue_notifications sample_db))
    by (right; now left).
  split; [reflexivity|]. split; [discriminate|]. split; [exact Hin|].
  split; [reflexivity|].
  destruct (notify_within_24h_reports_too_soon sample_settings
              (request_of 0 create) an_hour_later 5 sample_world full_retreat
              _ eq_refl ltac:(discriminate) Hin eq_refl eq_refl)
    as [Hrun _].
  rewrite Hrun. reflexivity.
Defined.


Lemma quantity_bigger_than_1_is_rejected_witness :
  let instance := sample_reservation 2 2 1 2 true in
  let ol := sample_order_line 2 2 1 (398 # 1) in
  get_row reservation_pk 2
    (ReservationViewSet.get_queryset (request_of 2 destroy_action) sample_db)
  = Some instance
  /\ get_row retreat_pk (retreat instance) (retreats sample_db)
     = Some mega_retreat
  /\ ReservationViewSet.related_order_line sample_db instance
     = Some (Some ol)
  /\ ReservationViewSet.related_order sample_db (Some ol)
     = Some (Some (sample_order 2 2))
  /\ 1 < quantity ol
  /\ ReservationSerializer.update sample_settings accepting_gateway
       (request_of 2 partial_update) sample_now instance
       (exchange_attrs cheaper_retreat None) sample_world
     = (inl (ValidationError non_field_errors quantity_bigger_than_1),
        sample_world)
  /\ ReservationViewSet.destroy sample_settings accepting_gateway
       (request_of 2 destroy_action) sample_now 2 sample_world
     = (inl (ValidationError non_field_errors quantity_bigger_than_1),
        sample_world).
Proof.
  cbv zeta.
  destruct (quantity_bigger_than_1_is_rejected sample_settings
              accepting_gateway (request_of 2 destroy_action) sample_now 2
              sample_world (sample_reservation 2 2 1 2 true) mega_retreat
              (sample_order_line 2 2 1 (398 # 1)) (Some (sample_order 2 2))
              eq_refl eq_refl eq_refl eq_refl eq_refl) as [Hupdate Hdestroy].
  do 5 (split; [reflexivity|]).
  split.
  - exact (Hupdate (request_of 2 partial_update)
             (exchange_attrs cheaper_retreat None) cheaper_retreat
             eq_refl eq_refl).
  - exact (Hdestroy eq_refl).
Defined.

Lemma cancellation_is_idempotent_witness :
  let instance := sample_reservation 3 3 2 3 false in
  get_row reservation_pk 3
    (ReservationViewSet.get_queryset (request_of 3 destroy_action) sample_db)
  = Some instance
  /\ is_active instance = false
  /\ get_row retreat_pk (retreat instance) (retreats sample_db)
     = Some pricier_retreat
  /\ ReservationViewSet.related_order_line sample_db instance
     = Some (Some (sample_order_line 3 1 2 (299 # 1)))
  /\ ReservationViewSet.related_order sample_db
       (Some (sample_order_line 3 1 2 (299 # 1)))
     = Some (Some (sample_order 3 3))
  /\ ReservationViewSet.destroy sample_settings accepting_gateway
       (request_of 3 destroy_action) sample_now 3 sample_world
     = (inr HTTP_204_NO_CONTENT, sample_world).
Proof.
  cbv zeta. do 5 (split; [reflexivity|]).
  exact (proj1 (cancellation_is_idempotent sample_settings accepting_gateway
                  (request_of 3 destroy_action) sample_now 3 sample_world)
           (sample_reservation 3 3 2 3 false) pricier_retreat
           (Some (sample_order_line 3 1 2 (299 # 1)))
           (Some (sample_order 3 3))
           eq_refl eq_refl eq_refl eq_refl eq_refl).
Defined.

(** * Further properties of the views and serializers *)

(** ** What a requester can see *)

Lemma get_row_filter_None {A} (pk : A -> Z) (f : A -> bool) (id : Z)
    (rows : list A) :
  (forall x, In x rows -> pk x = id -> f x = false) ->
  get_row pk id (filter f rows) = None.
Proof.
  intros H. unfold get_row.
  induction rows as [|x rows IH]; simpl; [reflexivity|].
  destruct (f x) eqn:Hf; simpl.
  - destruct (Z.eqb_spec (pk x) id) as [E|E].
    + rewrite (H x) in Hf; [discriminate | now left | exact E].
    + apply IH. intros y Hy. apply H. now right.
  - apply IH. intros y Hy. apply H. now right.
Qed.

Lemma rows_with_one_key {A} (pk : A -> Z) (rows : list A) (x y : A) :
  NoDup (map pk rows) -> In x rows -> In y rows -> pk x = pk y -> x = y.
Proof.
  induction rows as [|z rows IH]; simpl; intros Hnd Hx Hy Hpk; [tauto|].
  apply NoDup_cons_iff in Hnd. destruct Hnd as [Hz Hnd].
  destruct Hx as [-> | Hx], Hy as [-> | Hy].
  - reflexivity.
  - exfalso. apply Hz. rewrite Hpk. now apply in_map.
  - exfalso. apply Hz. rewrite <- Hpk. now apply in_map.
  - now apply IH.
Qed.

(** X1: a requester who is not staff and asks to cancel a reservation
    that is not theirs is answered that it does not exist: whatever the
    reservation, the gateway and the time, the request fails with
    [Http404], and neither a table nor the outside is touched. *)
Theorem reservation_of_another_user_is_not_found (cfg : Settings)
    (gw : Gateway) (ctx : Context) (now : datetime) (pk : Z) (w : World) :
  request_user_is_staff ctx = false ->
  (forall x, In x (reservations (db w)) -> reservation_pk x = pk ->
             user x <> request_user ctx) ->
  ReservationViewSet.destroy cfg gw ctx now pk w = (inl Http404, w).
Proof.
  intros Hstaff Hother.
  unfold ReservationViewSet.destroy, ReservationViewSet.get_object,
    ReservationViewSet.get_queryset.
  rewrite Hstaff. unfold_M.
  rewrite get_row_filter_None; [reflexivity|].
  intros x Hin Hpk. apply Z.eqb_neq. now apply Hother.
Qed.

(** X2: a requester who is not staff and asks to leave the wait queue with
    an entry that is not theirs is answered that it does not exist: the
    request fails with [Http404], the cursor of the event, the
    notifications and the queue are as they were. *)
Theorem wait_queue_entry_of_another_user_is_not_found (ctx : Context)
    (pk : Z) (w : World) :
  request_user_is_staff ctx = false ->
  (forall q, In q (wait_queue (db w)) -> wait_queue_pk q = pk ->
             wq_user q <> request_user ctx) ->
  WaitQueueViewSet.destroy ctx pk w = (inl Http404, w).
Proof.
  intros Hstaff Hother.
  unfold WaitQueueViewSet.destroy, WaitQueueViewSet.get_object,
    WaitQueueViewSet.get_queryset.
  rewrite Hstaff. unfold_M.
  rewrite get_row_filter_None; [reflexivity|].
  intros x Hin Hpk. apply Z.eqb_neq. now apply Hother.
Qed.

(** An event that is inactive or hidden is not among the events of a
    requester who is not staff. *)
Lemma invisible_retreat (ctx : Context) (pk : Z) (d : DB) :
  request_user_is_staff ctx = false ->
  (forall r, In r (retreats d) -> retreat_pk r = pk ->
             retreat_is_active r = false \/ hidden r = true) ->
  get_row retreat_pk pk (RetreatViewSet.get_queryset ctx d) = None.
Proof.
  intros Hstaff Hinv. unfold RetreatViewSet.get_queryset. rewrite Hstaff.
  apply get_row_filter_None. intros r Hin Hpk.
  destruct (Hinv r Hin Hpk) as [-> | ->]; [reflexivity|].
  apply andb_false_r.
Qed.

Lemma retreat_not_found (cfg : Settings) (ctx : Context) (now : datetime)
    (pk : Z) (w : World) :
  get_row retreat_pk pk (RetreatViewSet.get_queryset ctx (db w)) = None ->
  RetreatViewSet.notify cfg ctx now pk w = (inl Http404, w)
  /\ RetreatViewSet.remind_users ctx now pk w = (inl Http404, w)
  /\ RetreatViewSet.recap ctx now pk w = (inl Http404, w)
  /\ RetreatViewSet.destroy ctx pk w = (inl Http404, w).
Proof.
  intros Hnone.
  unfold RetreatViewSet.notify, RetreatViewSet.remind_users,
    RetreatViewSet.recap, RetreatViewSet.destroy, RetreatViewSet.get_object.
  unfold_M. rewrite Hnone. repeat split.
Qed.

(** X3: for a requester who is not staff, an event that is inactive or
    hidden does not exist: [notify], [remind_users], [recap] and [destroy]
    all fail with [Http404] and leave the tables and the outside alone; in
    particular [notify] deletes no notification and no mail is sent. *)
Theorem invisible_retreat_is_not_found (cfg : Settings) (ctx : Context)
    (now : datetime) (pk : Z) (w : World) :
  request_user_is_staff ctx = false ->
  (forall r, In r (retreats (db w)) -> retreat_pk r = pk ->
             retreat_is_active r = false \/ hidden r = true) ->
  RetreatViewSet.notify cfg ctx now pk w = (inl Http404, w)
  /\ RetreatViewSet.remind_users ctx now pk w = (inl Http404, w)
  /\ RetreatViewSet.recap ctx now pk w = (inl Http404, w)
  /\ RetreatViewSet.destroy ctx pk w = (inl Http404, w).
Proof.
  intros Hstaff Hinv. apply retreat_not_found.
  now apply invisible_retreat.
Qed.

(** ** Deactivating an event *)

Lemma queryset_of_retreats (ctx : Context) (d : DB) (pk : Z) (r : Retreat) :
  get_row retreat_pk pk (RetreatViewSet.get_queryset ctx d) = Some r ->
  In r (retreats d) /\ retreat_pk r = pk.
Proof.
  intros H. apply get_row_Some in H. destruct H as [Hin Hpk].
  split; [|exact Hpk]. unfold RetreatViewSet.get_queryset in Hin.
  destruct (request_user_is_staff ctx); [exact Hin|].
  now apply filter_In in Hin.
Qed.

(** What [destroy] has done when it answers. *)
Lemma retreat_destroy_ok (ctx : Context) (pk : Z) (w w' : World)
    (resp : Response) :
  RetreatViewSet.destroy ctx pk w = (inr resp, w') ->
  exists instance,
    get_row retreat_pk pk (RetreatViewSet.get_queryset ctx (db w))
    = Some instance
    /\ resp = HTTP_204_NO_CONTENT
    /\ w' = if retreat_is_active instance
            then {| db := set_retreats (db w)
                            (save_row retreat_pk
                               (RetreatViewSet.with_retreat_is_active
                                  instance false)
                               (retreats (db w)));
                    log := log w |}
            else w.
Proof.
  unfold RetreatViewSet.destroy, RetreatViewSet.get_object. unfold_M.
  destruct (get_row retreat_pk pk (RetreatViewSet.get_queryset ctx (db w)))
    as [instance|]; [|discriminate].
  step. intros H. exists instance. split; [reflexivity|].
  destruct (retreat_is_active instance); inversion H; split; reflexivity.
Qed.

Lemma inactive_is_deactivated (r : Retreat) :
  retreat_is_active r = false ->
  RetreatViewSet.with_retreat_is_active r false = r.
Proof. destruct r; simpl; intros ->; reflexivity. Qed.

(** The row of the event after [destroy] has answered. *)
Lemma retreat_destroy_row (ctx : Context) (pk : Z) (w w' : World)
    (resp : Response) :
  RetreatViewSet.destroy ctx pk w = (inr resp, w') ->
  exists instance,
    get_row retreat_pk pk (RetreatViewSet.get_queryset ctx (db w))
    = Some instance
    /\ get_row retreat_pk pk (retreats (db w'))
       = Some (RetreatViewSet.with_retreat_is_active instance false).
Proof.
  intros H. destruct (retreat_destroy_ok _ _ _ _ _ H)
    as (instance & Hi & _ & ->).
  exists instance. split; [exact Hi|].
  destruct (queryset_of_retreats _ _ _ _ Hi) as [Hin Hpk].
  destruct (retreat_is_active instance) eqn:Hact.
  - cbn [db retreats set_retreats].
    unfold save_row. cbn [RetreatViewSet.with_retreat_is_active retreat_pk].
    assert (Hex : existsb (fun x => retreat_pk x =? retreat_pk instance)
                    (retreats (db w)) = true).
    { apply existsb_exists. exists instance. split; [exact Hin|].
      apply Z.eqb_refl. }
    rewrite Hex. clear Hex Hi H. unfold get_row. subst pk.
    induction (retreats (db w)) as [|x rows IH]; [destruct Hin|].
    cbn [map find].
    destruct (retreat_pk x =? retreat_pk instance) eqn:E.
    + cbn [RetreatViewSet.with_retreat_is_active retreat_pk].
      now rewrite Z.eqb_refl.
    + rewrite E. apply IH. destruct Hin as [-> | Hin]; [|exact Hin].
      now rewrite Z.eqb_refl in E.
  - rewrite inactive_is_deactivated by exact Hact.
    unfold RetreatViewSet.get_queryset in Hi.
    destruct (request_user_is_staff ctx); [exact Hi|].
    exfalso. apply get_row_Some in Hi. destruct Hi as [Hf _].
    apply filter_In in Hf. rewrite Hact in Hf. destruct Hf as [_ Hf].
    discriminate Hf.
Qed.


(** X5: once an event is deleted it is gone for everyone who is not
    staff.  With distinct primary keys, after a [destroy] that answered,
    [notify], [remind_users], [recap] and [destroy] on that event by a
    requester who is not staff fail with [Http404] without any effect. *)
Theorem retreat_destroy_hides_the_event (cfg : Settings) (ctx ctx' : Context)
    (now : datetime) (pk : Z) (w w' : World) (resp : Response) :
  NoDup (map retreat_pk (retreats (db w))) ->
  RetreatViewSet.destroy ctx pk w = (inr resp, w') ->
  request_user_is_staff ctx' = false ->
  RetreatViewSet.notify cfg ctx' now pk w' = (inl Http404, w')
  /\ RetreatViewSet.remind_users ctx' now pk w' = (inl Http404, w')
  /\ RetreatViewSet.recap ctx' now pk w' = (inl Http404, w')
  /\ RetreatViewSet.destroy ctx' pk w' = (inl Http404, w').
Proof.
  intros Hnd H Hstaff. apply retreat_not_found.
  apply invisible_retreat; [exact Hstaff|].
  destruct (retreat_destroy_ok _ _ _ _ _ H) as (instance & Hi & _ & ->).
  destruct (queryset_of_retreats _ _ _ _ Hi) as [Hin Hpk].
  destruct (retreat_is_active instance) eqn:Hact.
  - cbn [db retreats set_retreats]. intros r Hr Hrpk. left.
    unfold save_row in Hr.
    assert (Hex : existsb (fun x => retreat_pk x
                                    =? retreat_pk
                                         (RetreatViewSet.with_retreat_is_active
                                            instance false))
                    (retreats (db w)) = true).
    { apply existsb_exists. exists instance. split; [exact Hin|].
      apply Z.eqb_refl. }
    rewrite Hex in Hr. apply in_map_iff in Hr. destruct Hr as (y & Hy & _).
    destruct (Z.eqb_spec (retreat_pk y)
                (retreat_pk (RetreatViewSet.with_retreat_is_active
                               instance false))) as [E|E].
    + now subst r.
    + subst r. exfalso. apply E.
      cbn [RetreatViewSet.with_retreat_is_active retreat_pk]. congruence.
  - intros r Hr Hrpk. left.
    assert (r = instance) as ->; [|exact Hact].
    apply (rows_with_one_key retreat_pk (retreats (db w)));
      [exact Hnd | exact Hr | exact Hin | congruence].
Qed.

(** X6: deleting an event twice is deleting it once: after a [destroy]
    that answered, a staff requester who repeats it gets the empty success
    response again and nothing changes. *)
Theorem retreat_destroy_is_idempotent (ctx ctx' : Context) (pk : Z)
    (w w' : World) (resp : Response) :
  RetreatViewSet.destroy ctx pk w = (inr resp, w') ->
  request_user_is_staff ctx' = true ->
  RetreatViewSet.destroy ctx' pk w' = (inr HTTP_204_NO_CONTENT, w').
Proof.
  intros H Hstaff.
  destruct (retreat_destroy_row _ _ _ _ _ H) as (instance & _ & Hrow).
  unfold RetreatViewSet.destroy, RetreatViewSet.get_object,
    RetreatViewSet.get_queryset.
  rewrite Hstaff. unfold_M. rewrite Hrow. reflexivity.
Qed.

(** ** Reminders and recaps *)

Lemma mail_each (template : string) (rows : list Reservation) (w : World) :
  fold_right
    (fun reservation k => emit (send_mail template (user reservation)) ;; k)
    (ret tt) rows w
  = (inr tt,
     {| db := db w;
        log := log w ++ map (fun x => send_mail template (user x)) rows |}).
Proof.
  revert w. induction rows as [|x rows IH]; intros w; cbn [fold_right map].
  - unfold ret. rewrite app_nil_r. now destruct w.
  - unfold bind at 1, emit at 1. rewrite IH. cbn [db log].
    now rewrite <- app_assoc.
Qed.

(** The mails of [remind_users] and [recap]: one for each active
    reservation of the event, to the user of the reservation. *)
Lemma mail_active_reservations_ok (template : string) (r : Retreat)
    (w : World) :
  exists es,
    RetreatViewSet.mail_active_reservations template r w
    = (inr tt, {| db := db w; log := log w ++ es |})
    /\ Z.of_nat (List.length es)
       = RetirementSerializer.count_active_reservations (db w) r
    /\ forall e,
         In e es <->
         exists x, In x (reservations (db w))
                   /\ retreat x = retreat_pk r
                   /\ is_active x = true
                   /\ e = send_mail template (user x).
Proof.
  eexists. split; [|split].
  - unfold RetreatViewSet.mail_active_reservations.
    unfold bind at 1, get_db at 1. step. apply mail_each.
  - rewrite length_map.
    unfold RetirementSerializer.count_active_reservations.
    rewrite filter_filter. do 2 f_equal. apply filter_ext.
    intros x. apply andb_comm.
  - intros e. rewrite in_map_iff. split.
    + intros (x & <- & Hx). apply filter_In in Hx.
      destruct Hx as [Hin Hx]. apply andb_true_iff in Hx.
      destruct Hx as [Hr Ha]. apply Z.eqb_eq in Hr. now exists x.
    + intros (x & Hin & Hr & Ha & ->). exists x. split; [reflexivity|].
      apply filter_In. split; [exact Hin|].
      rewrite Ha, andb_true_r. now apply Z.eqb_eq.
Qed.

(** X7: [remind_users] on an event the requester can see.  More than 8
    days before the start of the event it answers that the event takes
    place in more than 8 days and does nothing.  From then on it answers
    with [stop] set, sends exactly one reminder for each active
    reservation of the event, to the user of that reservation, none for a
    canceled reservation or for another event, as many as the serializer
    counts active reservations, and changes no table. *)
Theorem remind_users_mails_the_active_reservations (ctx : Context)
    (now : datetime) (pk : Z) (w : World) (r : Retreat) :
  get_row retreat_pk pk (RetreatViewSet.get_queryset ctx (db w)) = Some r ->
  (now < start_time r - timedelta_days 8 ->
   RetreatViewSet.remind_users ctx now pk w
   = (inr (RetreatViewSet.HTTP_200
             (Some RetreatViewSet.takes_place_in_more_than_8_days) false), w))
  /\ (start_time r - timedelta_days 8 <= now ->
      exists es,
        RetreatViewSet.remind_users ctx now pk w
        = (inr (RetreatViewSet.HTTP_200 None true),
           {| db := db w; log := log w ++ es |})
        /\ Z.of_nat (List.length es)
           = RetirementSerializer.count_active_reservations (db w) r
        /\ forall e,
             In e es <->
             exists x, In x (reservations (db w))
                       /\ retreat x = retreat_pk r
                       /\ is_active x = true
                       /\ e = send_mail "send_retreat_7_days_email" (user x)).
Proof.
  intros Hr.
  assert (Hrun : RetreatViewSet.remind_users ctx now pk w
                 = (if now <? start_time r - timedelta_days 8
                    then ret (RetreatViewSet.HTTP_200
                                (Some RetreatViewSet.takes_place_in_more_than_8_days)
                                false)
                    else RetreatViewSet.mail_active_reservations
                           "send_retreat_7_days_email" r ;;
                         ret (RetreatViewSet.HTTP_200 None true)) w).
  { unfold RetreatViewSet.remind_users, RetreatViewSet.get_object.
    unfold bind at 1. unfold bind at 1. unfold get_db at 1. step.
    rewrite Hr. reflexivity. }
  rewrite Hrun. clear Hrun. split; intros Hnow.
  - apply Z.ltb_lt in Hnow. rewrite Hnow. reflexivity.
  - apply Z.ltb_ge in Hnow. rewrite Hnow.
    destruct (mail_active_reservations_ok "send_retreat_7_days_email" r w)
      as (es & Hrun & Hlen & Hin).
    exists es. split; [|split; [exact Hlen | exact Hin]].
    unfold bind. rewrite Hrun. reflexivity.
Qed.

(** X8: [recap] on an event the requester can see.  More than one day
    before the end of the event it answers that the event ends in more
    than 1 day and does nothing.  From then on it answers with [stop] set,
    sends exactly one mail for each active reservation of the event, to
    the user of that reservation, none for a canceled reservation or for
    another event, and changes no table. *)
Theorem recap_mails_the_active_reservations (ctx : Context)
    (now : datetime) (pk : Z) (w : World) (r : Retreat) :
  get_row retreat_pk pk (RetreatViewSet.get_queryset ctx (db w)) = Some r ->
  (now < end_time r - timedelta_days 1 ->
   RetreatViewSet.recap ctx now pk w
   = (inr (RetreatViewSet.HTTP_200
             (Some RetreatViewSet.ends_in_more_than_1_day) false), w))
  /\ (end_time r - timedelta_days 1 <= now ->
      exists es,
        RetreatViewSet.recap ctx now pk w
        = (inr (RetreatViewSet.HTTP_200 None true),
           {| db := db w; log := log w ++ es |})
        /\ Z.of_nat (List.length es)
           = RetirementSerializer.count_active_reservations (db w) r
        /\ forall e,
             In e es <->
             exists x, In x (reservations (db w))
                       /\ retreat x = retreat_pk r
                       /\ is_active x = true
                       /\ e = send_mail "send_post_retreat_email" (user x)).
Proof.
  intros Hr.
  assert (Hrun : RetreatViewSet.recap ctx now pk w
                 = (if now <? end_time r - timedelta_days 1
                    then ret (RetreatViewSet.HTTP_200
                                (Some RetreatViewSet.ends_in_more_than_1_day)
                                false)
                    else RetreatViewSet.mail_active_reservations
                           "send_post_retreat_email" r ;;
                         ret (RetreatViewSet.HTTP_200 None true)) w).
  { unfold RetreatViewSet.recap, RetreatViewSet.get_object.
    unfold bind at 1. unfold bind at 1. unfold get_db at 1. step.
    rewrite Hr. reflexivity. }
  rewrite Hrun. clear Hrun. split; intros Hnow.
  - apply Z.ltb_lt in Hnow. rewrite Hnow. reflexivity.
  - apply Z.ltb_ge in Hnow. rewrite Hnow.
    destruct (mail_active_reservations_ok "send_post_retreat_email" r w)
      as (es & Hrun & Hlen & Hin).
    exists es. split; [|split; [exact Hlen | exact Hin]].
    unfold bind. rewrite Hrun. reflexivity.
Qed.

(** ** The reservations an event is serialized with *)

Lemma active_or_not (f : Reservation -> bool) (rows : list Reservation) :
  (List.length (filter (fun x => is_active x && f x) rows)
   + List.length (filter (fun x => negb (is_active x) && f x) rows))%nat
  = List.length (filter f rows).
Proof.
  induction rows as [|x rows IH]; [reflexivity|]. cbn [filter].
  destruct (is_active x), (f x); cbn [negb andb Datatypes.length]; lia.
Qed.

(** X9: what an event is serialized with adds up.  The number of links to
    its active reservations, its [places_remaining] and its
    [reserved_seats] make its [seats]; and the links to the active and to
    the canceled reservations are together as many as the event has
    reservations. *)
Theorem reservation_links_and_places_add_up (reverse : Z -> string)
    (d : DB) (obj : Retreat) :
  Z.of_nat (List.length
              (RetirementSerializer.get_reservations reverse d obj))
  + RetirementSerializer.get_places_remaining d obj + reserved_seats obj
  = seats obj
  /\ (List.length (RetirementSerializer.get_reservations reverse d obj)
      + List.length
          (RetirementSerializer.get_reservations_canceled reverse d obj))%nat
     = List.length
         (filter (fun x => retreat x =? retreat_pk obj) (reservations d)).
Proof.
  unfold RetirementSerializer.get_reservations,
    RetirementSerializer.get_reservations_canceled,
    RetirementSerializer.get_places_remaining,
    RetirementSerializer.count_active_reservations.
  cbv zeta. rewrite !length_map. split.
  - rewrite filter_filter. lia.
  - apply active_or_not.
Qed.

Lemma link_listed (reverse : Z -> string) (f : Reservation -> bool)
    (rows : list Reservation) (x : Reservation) :
  (forall a b, In a (map reservation_pk rows) ->
               In b (map reservation_pk rows) ->
               reverse a = reverse b -> a = b) ->
  NoDup (map reservation_pk rows) ->
  In x rows ->
  In (reverse (reservation_pk x))
     (map reverse (map reservation_pk (filter f rows)))
  <-> f x = true.
Proof.
  intros Hinj Hnd Hin. rewrite map_map, in_map_iff. split.
  - intros (y & Hy & Hf). apply filter_In in Hf. destruct Hf as [Hyin Hf].
    assert (y = x) as <-; [|exact Hf].
    apply (rows_with_one_key reservation_pk rows); try assumption.
    apply Hinj; [now apply in_map | now apply in_map | exact Hy].
  - intros Hf. exists x. split; [reflexivity|]. now apply filter_In.
Qed.

(** X10: with distinct primary keys and distinct links for distinct
    reservations, a reservation of an event is linked once: among the
    active reservations of the event exactly when it is active, among the
    canceled ones exactly when it is not. *)
Theorem reservation_is_linked_by_its_state (reverse : Z -> string) (d : DB)
    (obj : Retreat) (x : Reservation) :
  (forall a b, In a (map reservation_pk (reservations d)) ->
               In b (map reservation_pk (reservations d)) ->
               reverse a = reverse b -> a = b) ->
  NoDup (map reservation_pk (reservations d)) ->
  In x (reservations d) ->
  retreat x = retreat_pk obj ->
  (In (reverse (reservation_pk x))
      (RetirementSerializer.get_reservations reverse d obj)
   <-> is_active x = true)
  /\ (In (reverse (reservation_pk x))
         (RetirementSerializer.get_reservations_canceled reverse d obj)
      <-> is_active x = false).
Proof.
  intros Hinj Hnd Hin Hr.
  unfold RetirementSerializer.get_reservations,
    RetirementSerializer.get_reservations_canceled. cbv zeta.
  rewrite !link_listed by assumption.
  rewrite Hr, Z.eqb_refl, !andb_true_r. split; [tauto|].
  apply negb_true_iff.
Qed.

(** ** Validation of a reservation *)

Lemma overlaps_false_iff (start end_ : datetime)
    (l : list (datetime * datetime)) :
  overlaps start end_ l = false
  <-> forall s e, In (s, e) l -> Z.min e end_ <= Z.max s start.
Proof.
  unfold overlaps. split.
  - intros H s e Hin.
    destruct (Z.ltb_spec (Z.max s start) (Z.min e end_)) as [Hlt|Hge];
      [|exact Hge].
    exfalso. assert (Ht : existsb
                            (fun retirements =>
                               Z.max (fst retirements) start
                               <? Z.min (snd retirements) end_) l = true).
    { apply existsb_exists. exists (s, e). split; [exact Hin|].
      now apply Z.ltb_lt. }
    congruence.
  - intros H. apply not_true_is_false. intros Ht.
    apply existsb_exists in Ht. destruct Ht as ([s e] & Hin & Hlt).
    apply Z.ltb_lt in Hlt. cbn [fst snd] in Hlt.
    specialize (H s e Hin). lia.
Qed.

Lemma values_list_In (d : DB) (rows : list Reservation) (s e : datetime) :
  In (s, e) (values_list_start_end d rows)
  <-> exists x r, In x rows
                  /\ get_row retreat_pk (retreat x) (retreats d) = Some r
                  /\ s = start_time r /\ e = end_time r.
Proof.
  unfold values_list_start_end. rewrite in_flat_map. split.
  - intros (x & Hin & Hx).
    destruct (get_row retreat_pk (retreat x) (retreats d)) as [r|] eqn:Hr;
      [|destruct Hx].
    destruct Hx as [Hx | []]. inversion Hx. now exists x, r.
  - intros (x & r & Hin & Hr & -> & ->). exists x. split; [exact Hin|].
    rewrite Hr. now left.
Qed.

(** X11: the creation of a reservation passes validation exactly when no
    active reservation of the user, other than those that match every key
    of the submitted data, is for an event whose interval meets the
    interval of the requested event, the intervals being half-open: an
    event that starts when another ends does not meet it.  Otherwise the
    validation fails with the error of overlapping reservations. *)
Theorem validate_accepts_iff_no_overlap (d : DB) (ctx : Context)
    (attrs : Attrs) (new_ : Retreat) (u : Z) :
  view_action ctx <> partial_update ->
  a_retirement attrs = Some new_ ->
  a_user attrs = Some u ->
  ReservationSerializer.has_unknown_lookup attrs = false ->
  (ReservationSerializer.validate d ctx attrs = inr attrs
   <-> forall x r,
         In x (reservations d) -> user x = u -> is_active x = true ->
         ReservationSerializer.matches_validated_data attrs x = false ->
         get_row retreat_pk (retreat x) (retreats d) = Some r ->
         Z.min (end_time r) (end_time new_)
         <= Z.max (start_time r) (start_time new_))
  /\ (ReservationSerializer.validate d ctx attrs = inr attrs
      \/ ReservationSerializer.validate d ctx attrs
         = inl (ValidationError non_field_errors overlaps_with_another)).
Proof.
  intros Hact Hnew Hu Hk.
  assert (Hrun : ReservationSerializer.validate d ctx attrs
                 = if overlaps (start_time new_) (end_time new_)
                        (values_list_start_end d
                           (filter (fun x =>
                                      negb (ReservationSerializer.matches_validated_data
                                              attrs x))
                              (filter (fun x => (user x =? u) && is_active x)
                                 (reservations d))))
                   then inl (ValidationError non_field_errors
                               overlaps_with_another)
                   else inr attrs).
  { unfold ReservationSerializer.validate. rewrite Hnew, Hu, Hk.
    destruct (view_action ctx); congruence. }
  rewrite Hrun. clear Hrun.
  destruct (overlaps _ _ _) eqn:Hover.
  - split; [|now right]. split; [discriminate|]. intros H. exfalso.
    assert (Hf : overlaps (start_time new_) (end_time new_)
                   (values_list_start_end d
                      (filter (fun x =>
                                 negb (ReservationSerializer.matches_validated_data
                                         attrs x))
                         (filter (fun x => (user x =? u) && is_active x)
                            (reservations d)))) = false);
      [|congruence].
    apply overlaps_false_iff. intros s e Hin.
    apply values_list_In in Hin.
    destruct Hin as (x & r & Hx & Hr & -> & ->).
    apply filter_In in Hx. destruct Hx as [Hx Hm].
    apply filter_In in Hx. destruct Hx as [Hx Hua].
    apply andb_true_iff in Hua. destruct Hua as [Hux Ha].
    apply Z.eqb_eq in Hux. apply negb_true_iff in Hm.
    now apply (H x r).
  - split; [|now left]. split; [|reflexivity]. intros _ x r Hx Hux Ha Hm Hr.
    rewrite overlaps_false_iff in Hover. apply Hover.
    apply values_list_In. exists x, r.
    split; [|split; [exact Hr | split; reflexivity]].
    apply filter_In. split; [|now rewrite Hm].
    apply filter_In. split; [exact Hx|].
    rewrite Ha, andb_true_r. now apply Z.eqb_eq.
Qed.

(** ** Partial update without an exchange *)

(** A validated partial update carries [is_present], [retirement] and the
    tokens only. *)
Lemma validated_partial_update (d : DB) (ctx : Context) (attrs : Attrs) :
  view_action ctx = partial_update ->
  ReservationSerializer.validate d ctx attrs = inr attrs ->
  a_user attrs = None /\ a_order_line attrs = None
  /\ a_is_active attrs = None /\ a_cancelation_reason attrs = None
  /\ a_cancelation_action attrs = None /\ a_cancelation_date attrs = None.
Proof.
  intros Hact. unfold ReservationSerializer.validate. rewrite Hact.
  unfold ReservationSerializer.is_invalid.
  destruct (a_user attrs), (a_order_line attrs), (a_is_active attrs),
    (a_cancelation_reason attrs), (a_cancelation_action attrs),
    (a_cancelation_date attrs); try discriminate.
  intros _. repeat split.
Qed.

Lemma replace_by_itself {A} (pk : A -> Z) (r : A) (rows : list A) :
  NoDup (map pk rows) -> In r rows ->
  save_row pk r rows = rows.
Proof.
  intros Hnd Hin. unfold save_row.
  assert (Hex : existsb (fun x => pk x =? pk r) rows = true).
  { apply existsb_exists. exists r. split; [exact Hin | apply Z.eqb_refl]. }
  rewrite Hex. clear Hex.
  rewrite <- (map_id rows) at 2. apply map_ext_in. intros x Hx.
  destruct (Z.eqb_spec (pk x) (pk r)) as [E|E]; [|reflexivity].
  symmetry. now apply (rows_with_one_key pk rows).
Qed.

(** A partial update that names no event saves the reservation with the
    value of [is_present] it carries, when the requester is staff. *)
Lemma update_without_retirement (cfg : Settings) (gw : Gateway)
    (ctx : Context) (now : datetime) (instance : Reservation)
    (attrs : Attrs) (w : World)
    (current_retirement : Retreat) :
  view_action ctx = partial_update ->
  ReservationSerializer.validate (db w) ctx attrs = inr attrs ->
  a_retirement attrs = None ->
  In instance (reservations (db w)) ->
  get_row retreat_pk (retreat instance) (retreats (db w))
    = Some current_retirement ->
  let saved :=
    with_is_present instance
      (if request_user_is_staff ctx
       then ReservationSerializer.or_else (a_is_present attrs) (is_present instance)
       else is_present instance) in
  ReservationSerializer.update cfg gw ctx now instance attrs w
  = (inr saved,
     {| db := set_reservations (db w)
                (save_row reservation_pk saved (reservations (db w)));
        log := log w |}).
Proof.
  intros Hact Hval Hnew Hin Hcur saved.
  destruct (validated_partial_update _ _ _ Hact Hval)
    as (Hu & Hol & Ha & Hcr & Hca & Hcd).
  assert (Hset : ReservationSerializer.set_attrs
                   (ReservationSerializer.popped (request_user_is_staff ctx)
                      attrs) instance = saved).
  { unfold ReservationSerializer.set_attrs, ReservationSerializer.popped,
      saved, with_is_present.
    cbn [a_user a_retirement a_order_line a_is_active a_is_present
         a_cancelation_reason a_cancelation_action a_cancelation_date].
    rewrite Hu, Hol, Ha, Hcr, Hca, Hcd, Hnew. cbn [ReservationSerializer.or_else option_map].
    destruct (request_user_is_staff ctx); reflexivity. }
  unfold ReservationSerializer.update, ReservationSerializer.super_update.
  unfold_M. rewrite Hcur. step. rewrite Hact.
  cbn [ReservationSerializer.popped a_retirement]. rewrite Hnew.
  step. cbn [db log set_reservations reservations].
  fold (ReservationSerializer.popped (request_user_is_staff ctx) attrs).
  rewrite Hset.
  assert (Hnone : a_retirement
                    (ReservationSerializer.popped (request_user_is_staff ctx)
                       attrs) = None) by exact Hnew.
  rewrite Hnone. step. cbn [db log set_reservations reservations].
  assert (Hrow : get_row reservation_pk (reservation_pk instance)
                   (save_row reservation_pk saved (reservations (db w)))
                 = Some saved).
  { change (reservation_pk instance) with (reservation_pk saved).
    destruct (get_row reservation_pk (reservation_pk saved)
                (reservations (db w))) as [r|] eqn:Hr.
    - now apply get_row_save_row with (r := r).
    - exfalso. unfold get_row in Hr.
      apply (find_none _ _ Hr) in Hin. cbn [saved with_is_present
        reservation_pk] in Hin. now rewrite Z.eqb_refl in Hin. }
  rewrite Hrow. reflexivity.
Qed.

Lemma sample_reservations_distinct :
  NoDup (map reservation_pk (reservations sample_db)).
Proof.
  cbn. repeat constructor; cbn; intuition discriminate.
Qed.

Lemma with_is_present_same (x : Reservation) :
  with_is_present x (is_present x) = x.
Proof. now destruct x. Qed.

(** X12: a requester who is not staff cannot mark a reservation as
    present.  With distinct primary keys, the partial update of a stored
    reservation that passed validation and names no event answers the
    reservation as it was, whatever [is_present] it carried: no table
    changes and nothing is asked of the outside. *)
Theorem partial_update_by_non_staff_changes_nothing (cfg : Settings)
    (gw : Gateway) (ctx : Context) (now : datetime) (instance : Reservation)
    (attrs : Attrs) (w : World) (current_retirement : Retreat) :
  view_action ctx = partial_update ->
  request_user_is_staff ctx = false ->
  ReservationSerializer.validate (db w) ctx attrs = inr attrs ->
  a_retirement attrs = None ->
  NoDup (map reservation_pk (reservations (db w))) ->
  In instance (reservations (db w)) ->
  get_row retreat_pk (retreat instance) (retreats (db w))
    = Some current_retirement ->
  ReservationSerializer.update cfg gw ctx now instance attrs w
  = (inr instance, w).
Proof.
  intros Hact Hstaff Hval Hnew Hnd Hin Hcur.
  rewrite (update_without_retirement cfg gw ctx now instance attrs w
             current_retirement Hact Hval Hnew Hin Hcur).
  rewrite Hstaff, with_is_present_same.
  rewrite replace_by_itself by assumption.
  destruct w as [d l]. now destruct d.
Qed.

(** X13: a staff requester marks a reservation as present, and that is
    all the partial update does.  The partial update of a stored
    reservation that passed validation, names no event and carries
    [is_present] answers the reservation with that value of [is_present]
    and every other field as it was, and stores it under its key; every
    other reservation and every other table is as it was, no mail is sent
    and the gateway is not called. *)
Theorem partial_update_by_staff_sets_is_present (cfg : Settings)
    (gw : Gateway) (ctx : Context) (now : datetime) (instance : Reservation)
    (attrs : Attrs) (w : World) (current_retirement : Retreat)
    (present : bool) :
  view_action ctx = partial_update ->
  request_user_is_staff ctx = true ->
  ReservationSerializer.validate (db w) ctx attrs = inr attrs ->
  a_retirement attrs = None ->
  a_is_present attrs = Some present ->
  In instance (reservations (db w)) ->
  get_row retreat_pk (retreat instance) (retreats (db w))
    = Some current_retirement ->
  exists w',
    ReservationSerializer.update cfg gw ctx now instance attrs w
    = (inr (with_is_present instance present), w')
    /\ get_row reservation_pk (reservation_pk instance) (reservations (db w'))
       = Some (with_is_present instance present)
    /\ (forall id, id <> reservation_pk instance ->
          get_row reservation_pk id (reservations (db w'))
          = get_row reservation_pk id (reservations (db w)))
    /\ set_reservations (db w') (reservations (db w)) = db w
    /\ log w' = log w.
Proof.
  intros Hact Hstaff Hval Hnew Hp Hin Hcur.
  rewrite (update_without_retirement cfg gw ctx now instance attrs w
             current_retirement Hact Hval Hnew Hin Hcur).
  rewrite Hstaff, Hp. cbn [ReservationSerializer.or_else].
  eexists. split; [reflexivity|].
  cbn [db log reservations set_reservations].
  split; [|split; [|split]].
  - change (reservation_pk instance)
      with (reservation_pk (with_is_present instance present)).
    destruct (get_row reservation_pk
                (reservation_pk (with_is_present instance present))
                (reservations (db w))) as [r|] eqn:Hr.
    + now apply get_row_save_row with (r := r).
    + exfalso. unfold get_row in Hr. apply (find_none _ _ Hr) in Hin.
      cbn [with_is_present reservation_pk] in Hin.
      now rewrite Z.eqb_refl in Hin.
  - intros id Hid. apply get_row_save_row_other.
    cbn [with_is_present reservation_pk]. congruence.
  - now destruct (db w).
  - reflexivity.
Qed.

(** ** Exchanges that are refused *)

(** An exchange whose checks raise is refused with their exception, and
    the tables are as they were. *)
Lemma update_checks_raise (cfg : Settings) (gw : Gateway) (ctx : Context)
    (now : datetime) (instance : Reservation) (vd : Attrs)
    (current new_ : Retreat) (w w1 : World) (e : Exception) :
  view_action ctx = partial_update ->
  a_retirement vd = Some new_ ->
  get_row retreat_pk (retreat instance) (retreats (db w)) = Some current ->
  ReservationSerializer.exchange_checks gw now instance current new_
    (pop_token (a_payment_token vd)) (pop_token (a_single_use_token vd))
    (find (fun p => owner p =? user instance) (payment_profiles (db w))) w
  = (inl e, w1) ->
  ReservationSerializer.update cfg gw ctx now instance vd w
  = (inl e, {| db := db w; log := log w1 |}).
Proof.
  intros Hact Hnew Hcur Hchecks.
  unfold ReservationSerializer.update. unfold atomic.
  unfold bind at 1. unfold get_db at 1. step.
  unfold bind at 1. rewrite Hcur. unfold must at 1, ret at 1. step.
  unfold bind at 1. rewrite Hact.
  cbn [a_retirement ReservationSerializer.popped]. rewrite Hnew.
  unfold bind at 1. unfold ReservationSerializer.exchange.
  unfold bind at 1. rewrite Hchecks. reflexivity.
Qed.

Lemma Qlt_bool_irrefl (a : Q) : Qlt_bool a a = false.
Proof.
  unfold Qlt_bool. apply negb_false_iff. apply Qle_bool_iff. apply Qle_refl.
Qed.

Lemma quantity_passes (ol : OrderLine) :
  quantity ol <= 1 -> (quantity ol >? 1) = false.
Proof. intros H. destruct (Z.gtb_spec (quantity ol) 1); [lia | reflexivity]. Qed.

(** X14: a reservation cannot be exchanged for the event it is already
    for.  The partial update that names the event of the reservation, on
    an order line with a quantity of at most 1, fails with the validation
    error [already_assigned] under the key [retirement], whatever tokens
    it carries; no table changes and nothing is asked of the gateway. *)
Theorem exchange_to_the_same_retreat_is_refused (cfg : Settings)
    (gw : Gateway) (ctx : Context) (now : datetime) (instance : Reservation)
    (vd : Attrs) (current : Retreat) (w : World) (ol_pk : Z)
    (ol : OrderLine) :
  view_action ctx = partial_update ->
  a_retirement vd = Some current ->
  get_row retreat_pk (retreat instance) (retreats (db w)) = Some current ->
  order_line instance = Some ol_pk ->
  get_row order_line_pk ol_pk (order_lines (db w)) = Some ol ->
  quantity ol <= 1 ->
  ReservationSerializer.update cfg gw ctx now instance vd w
  = (inl (ValidationError "retirement" already_assigned), w).
Proof.
  intros Hact Hnew Hcur Hol Hrow Hq.
  rewrite (update_checks_raise cfg gw ctx now instance vd current current w w
             (ValidationError "retirement" already_assigned) Hact Hnew Hcur).
  - now destruct w.
  - unfold ReservationSerializer.exchange_checks. unfold_M.
    rewrite Hol. step. rewrite Hrow. step.
    rewrite (quantity_passes ol Hq), Qlt_bool_irrefl, Z.eqb_refl.
    reflexivity.
Qed.

(** X15: a reservation cannot be exchanged once the event is closer than
    [min_day_exchange] days.  The partial update that names another
    event, on an order line with a quantity of at most 1 and with a token
    when the new event costs more, fails with the validation error
    [maximum_exchange_date_exceeded] when less than [min_day_exchange]
    days of the current event remain before its start; no table changes,
    no payment profile is created and nothing is charged or refunded. *)
Theorem exchange_after_the_deadline_is_refused (cfg : Settings)
    (gw : Gateway) (ctx : Context) (now : datetime) (instance : Reservation)
    (vd : Attrs) (current new_ : Retreat) (w : World) (ol_pk : Z)
    (ol : OrderLine) :
  view_action ctx = partial_update ->
  a_retirement vd = Some new_ ->
  get_row retreat_pk (retreat instance) (retreats (db w)) = Some current ->
  order_line instance = Some ol_pk ->
  get_row order_line_pk ol_pk (order_lines (db w)) = Some ol ->
  quantity ol <= 1 ->
  retreat_pk new_ <> retreat_pk current ->
  ((price current < price new_)%Q ->
   truthy (pop_token (a_payment_token vd))
   || truthy (pop_token (a_single_use_token vd)) = true) ->
  start_time current - now < timedelta_days (min_day_exchange current) ->
  ReservationSerializer.update cfg gw ctx now instance vd w
  = (inl (ValidationError non_field_errors maximum_exchange_date_exceeded),
     w).
Proof.
  intros Hact Hnew Hcur Hol Hrow Hq Hpk Htok Hlate.
  rewrite (update_checks_raise cfg gw ctx now instance vd current new_ w w
             (ValidationError non_field_errors
                maximum_exchange_date_exceeded) Hact Hnew Hcur).
  - now destruct w.
  - unfold ReservationSerializer.exchange_checks. unfold_M.
    rewrite Hol. step. rewrite Hrow. step.
    rewrite (quantity_passes ol Hq).
    assert (Hguard : Qlt_bool (price current) (price new_)
                     && negb (truthy (pop_token (a_payment_token vd))
                              || truthy (pop_token (a_single_use_token vd)))
                     = false).
    { destruct (Qlt_bool (price current) (price new_)) eqn:Hlt;
        [|reflexivity].
      apply Qlt_bool_iff in Hlt. now rewrite (Htok Hlt). }
    rewrite Hguard.
    assert ((retreat_pk current =? retreat_pk new_) = false) as ->
      by (apply Z.eqb_neq; congruence).
    unfold ReservationSerializer.respects_minimum_days.
    assert ((timedelta_days (min_day_exchange current)
             <=? start_time current - now) = false) as ->
      by (apply Z.leb_gt; exact Hlate).
    reflexivity.
Qed.

(** ** The tables of an exchange *)

(** The block that charges the balance writes an order, its line and a
    refund, and takes the user out of the wait queue of the new event. *)
Lemma charge_balance_tables (cfg : Settings) (gw : Gateway) (now : datetime)
    (instance : Reservation) (current new_ : Retreat)
    (payment_token single_use_token : option string)
    (profile : option PaymentProfile) (difference : Decimal)
    (w w1 : World) (ol_pk : Z) :
  ReservationSerializer.charge_balance cfg gw now instance current new_
    payment_token single_use_token profile difference w = (inr ol_pk, w1) ->
  ol_pk = next_pk order_line_pk (order_lines (db w))
  /\ reservations (db w1) = reservations (db w)
  /\ retreats (db w1) = retreats (db w)
  /\ wait_queue_notifications (db w1) = wait_queue_notifications (db w).
Proof.
  unfold ReservationSerializer.charge_balance,
    ReservationSerializer.delete_user_waiting.
  unfold_M. intros H. run_in H; inversion H; subst; cbn [db];
    repeat split; reflexivity.
Qed.

(** The block that refunds the balance writes a refund, and takes the
    user out of the wait queue of the new event. *)
Lemma refund_balance_tables (cfg : Settings) (gw : Gateway) (now : datetime)
    (instance : Reservation) (current new_ : Retreat) (difference : Decimal)
    (w w1 : World) (u : unit) :
  ReservationSerializer.refund_balance cfg gw now instance current new_
    difference w = (inr u, w1) ->
  reservations (db w1) = reservations (db w)
  /\ retreats (db w1) = retreats (db w)
  /\ wait_queue_notifications (db w1) = wait_queue_notifications (db w).
Proof.
  unfold ReservationSerializer.refund_balance,
    ReservationSerializer.delete_user_waiting.
  unfold_M. intros H. run_in H; inversion H; subst; cbn [db];
    repeat split; reflexivity.
Qed.

Lemma exchange_checks_tables (gw : Gateway) (now : datetime)
    (instance : Reservation) (current new_ : Retreat)
    (payment_token single_use_token : option string)
    (profile profile' : option PaymentProfile) (w w1 : World)
    (need_transaction need_refund : bool) (difference : Decimal) :
  ReservationSerializer.exchange_checks gw now instance current new_
    payment_token single_use_token profile w
  = (inr (need_transaction, need_refund, difference, profile'), w1) ->
  reservations (db w1) = reservations (db w)
  /\ retreats (db w1) = retreats (db w)
  /\ wait_queue_notifications (db w1) = wait_queue_notifications (db w)
  /\ order_lines (db w1) = order_lines (db w).
Proof.
  intros H.
  destruct (exchange_checks_ok _ _ _ _ _ _ _ _ _ _ _ _ _ _ H)
    as (_ & _ & _ & _ & _ & _ & _ & _ & Hdb & _).
  rewrite <- Hdb. repeat split.
Qed.

(** What an exchange that succeeds has written: the copy of the
    reservation under a new key, after the rows of the reservations; the
    events and the notifications are as they were. *)
Lemma exchange_tables (cfg : Settings) (gw : Gateway) (now : datetime)
    (instance : Reservation) (current new_ : Retreat)
    (payment_token single_use_token : option string)
    (profile : option PaymentProfile) (vd vd' : Attrs)
    (canceled instance' : Reservation) (w w1 : World) :
  ReservationSerializer.exchange cfg gw now instance current new_
    payment_token single_use_token profile vd w
  = (inr (canceled, instance', vd'), w1) ->
  canceled = ReservationSerializer.with_pk instance
               (next_pk reservation_pk (reservations (db w)))
  /\ reservations (db w1) = reservations (db w) ++ [canceled]
  /\ retreats (db w1) = retreats (db w)
  /\ wait_queue_notifications (db w1) = wait_queue_notifications (db w)
  /\ get_row reservation_pk (reservation_pk instance)
       (reservations (db w) ++ [canceled]) = Some instance'
  /\ vd' = (if Qlt_bool (price current) (price new_)
            then ReservationSerializer.with_order_line vd
                   (Some (next_pk order_line_pk (order_lines (db w))))
            else vd).
Proof.
  intros H.
  unfold ReservationSerializer.exchange in H. unfold bind at 1 in H.
  destruct (ReservationSerializer.exchange_checks gw now instance current
              new_ payment_token single_use_token profile w)
    as [[e | [[[nt nr] difference] profile']] w0] eqn:Hchecks;
    [discriminate|].
  destruct (exchange_checks_ok _ _ _ _ _ _ _ _ _ _ _ _ _ _ Hchecks)
    as (Hnt & Hnr & _).
  destruct (exchange_checks_tables _ _ _ _ _ _ _ _ _ _ _ _ _ _ Hchecks)
    as (Hres0 & Hret0 & Hnot0 & Hol0).
  apply atomic_ok in H. rewrite <- Hnt.
  destruct nt.
  - assert (nr = false) as ->.
    { rewrite Hnr. apply Qlt_bool_asym. symmetry. exact Hnt. }
    cbn [when] in H. unfold bind at 1 in H. unfold bind at 1 in H.
    destruct (ReservationSerializer.charge_balance cfg gw now instance
                current new_ payment_token single_use_token profile'
                difference w0) as [[e | ol_pk] w2] eqn:Hcharge;
      [discriminate|].
    destruct (charge_balance_tables _ _ _ _ _ _ _ _ _ _ _ _ _ Hcharge)
      as (Hpk & Hres1 & Hret1 & Hnot1).
    unfold_M_in H. run_in H; inversion H; subst; clear H.
    cbn [db reservations retreats wait_queue_notifications set_reservations]
      in *.
    rewrite Hres1, Hres0 in *. rewrite Hret1, Hret0, Hnot1, Hnot0, Hol0.
    repeat split; try reflexivity. assumption.
  - destruct nr.
    + unfold bind at 1 in H. unfold ret at 1 in H.
      cbn [when] in H. unfold bind at 1 in H.
      destruct (ReservationSerializer.refund_balance cfg gw now instance
                  current new_ difference w0) as [[e | u] w2] eqn:Hrefund;
        [discriminate|].
      destruct (refund_balance_tables _ _ _ _ _ _ _ _ _ _ Hrefund)
        as (Hres1 & Hret1 & Hnot1).
      unfold_M_in H. run_in H; inversion H; subst; clear H.
      cbn [db reservations retreats wait_queue_notifications
           set_reservations] in *.
      rewrite Hres1, Hres0 in *. rewrite Hret1, Hret0, Hnot1, Hnot0.
      repeat split; try reflexivity. assumption.
    + unfold_M_in H. run_in H; inversion H; subst; clear H.
      cbn [db reservations retreats wait_queue_notifications
           set_reservations] in *.
      rewrite Hres0 in *. rewrite Hret0, Hnot0.
      repeat split; try reflexivity. assumption.
Qed.

(** What a partial update that names an event has written when it
    succeeds: the copy was added, the reservation was saved with the data
    of the request, then the copy was saved as canceled by exchange. *)
Lemma update_exchange_tables (cfg : Settings) (gw : Gateway) (ctx : Context)
    (now : datetime) (instance result : Reservation) (vd : Attrs)
    (new_ : Retreat) (w w' : World) :
  view_action ctx = partial_update ->
  a_retirement vd = Some new_ ->
  ReservationSerializer.update cfg gw ctx now instance vd w
  = (inr result, w') ->
  exists current stored,
    let canceled := ReservationSerializer.with_pk instance
                      (next_pk reservation_pk (reservations (db w))) in
    let popped_ := ReservationSerializer.popped (request_user_is_staff ctx)
                     vd in
    let vd' := if Qlt_bool (price current) (price new_)
               then ReservationSerializer.with_order_line popped_
                      (Some (next_pk order_line_pk (order_lines (db w))))
               else popped_ in
    get_row retreat_pk (retreat instance) (retreats (db w)) = Some current
    /\ get_row reservation_pk (reservation_pk instance)
         (reservations (db w) ++ [canceled]) = Some stored
    /\ reservations (db w')
       = save_row reservation_pk
           (ReservationSerializer.canceled_by_exchange now canceled)
           (save_row reservation_pk
              (ReservationSerializer.set_attrs vd' stored)
              (reservations (db w) ++ [canceled]))
    /\ retreats (db w') = retreats (db w)
    /\ wait_queue_notifications (db w') = wait_queue_notifications (db w)
    /\ get_row reservation_pk (reservation_pk instance)
         (reservations (db w')) = Some result.
Proof.
  intros Hact Hnew H. apply atomic_ok in H.
  unfold ReservationSerializer.update in H.
  unfold bind at 1 in H. unfold get_db at 1 in H. cbv beta iota in H.
  unfold bind at 1 in H.
  destruct (get_row retreat_pk (retreat instance) (retreats (db w)))
    as [current|] eqn:Hr; [|discriminate].
  unfold must at 1, ret at 1 in H. cbv beta iota in H.
  rewrite Hact in H. cbn [a_retirement ReservationSerializer.popped] in H.
  rewrite Hnew in H.
  unfold bind at 1 in H. unfold bind at 1 in H.
  destruct (ReservationSerializer.exchange cfg gw now instance current new_
              _ _ _ _ w) as [[e | [[canceled instance'] vd']] w0] eqn:Hex;
    [discriminate|].
  destruct (exchange_tables _ _ _ _ _ _ _ _ _ _ _ _ _ _ _ Hex)
    as (Hcopy & Hres & Hret & Hnot & Hstored & Hvd).
  fold (ReservationSerializer.popped (request_user_is_staff ctx) vd) in Hvd.
  exists current, instance'. cbv zeta. rewrite <- Hcopy, <- Hvd.
  split; [reflexivity|]. split; [exact Hstored|].
  assert (Hsome : a_retirement vd' = Some new_).
  { rewrite Hvd. destruct (Qlt_bool _ _); exact Hnew. }
  unfold ret at 1 in H. cbv beta iota in H.
  unfold ReservationSerializer.super_update in H.
  unfold_M_in H. rewrite Hsome in H.
  run_in H; inversion H; subst result w'; clear H.
  cbn [db reservations retreats wait_queue_notifications set_reservations]
    in *.
  rewrite Hres in *. rewrite Hret, Hnot.
  repeat split; try reflexivity. assumption.
Qed.

Section MoreTableFacts.
Context {A : Type} (pk : A -> Z).

Lemma next_pk_fresh (rows : list A) (x : A) :
  In x rows -> pk x < next_pk pk rows.
Proof.
  unfold next_pk. induction rows as [|y rows IH]; cbn [map fold_right];
    intros Hin; [destruct Hin|].
  destruct Hin as [-> | Hin]; [lia|]. specialize (IH Hin). lia.
Qed.

Lemma next_pk_absent (rows : list A) :
  ~ In (next_pk pk rows) (map pk rows).
Proof.
  intros Hin. apply in_map_iff in Hin. destruct Hin as (x & Hpk & Hin).
  apply next_pk_fresh in Hin. lia.
Qed.

Lemma get_row_app (id : Z) (rows : list A) (x r : A) :
  get_row pk id rows = Some r -> get_row pk id (rows ++ [x]) = Some r.
Proof.
  unfold get_row. induction rows as [|y rows IH]; cbn [find app];
    [discriminate|].
  destruct (pk y =? id); [trivial | exact IH].
Qed.

Lemma get_row_app_other (id : Z) (rows : list A) (x : A) :
  pk x <> id -> get_row pk id (rows ++ [x]) = get_row pk id rows.
Proof.
  intros Hne. unfold get_row.
  induction rows as [|y rows IH]; cbn [find app].
  - now assert ((pk x =? id) = false) as -> by now apply Z.eqb_neq.
  - destruct (pk y =? id); [reflexivity | exact IH].
Qed.

Lemma get_row_app_new (rows : list A) (x : A) :
  ~ In (pk x) (map pk rows) -> get_row pk (pk x) (rows ++ [x]) = Some x.
Proof.
  unfold get_row. induction rows as [|y rows IH]; cbn [find app map];
    intros Hnew.
  - now rewrite Z.eqb_refl.
  - destruct (Z.eqb_spec (pk y) (pk x)) as [E|E].
    + exfalso. apply Hnew. now left.
    + apply IH. intros Hin. apply Hnew. now right.
Qed.

Lemma get_row_of_member (rows : list A) (x : A) :
  NoDup (map pk rows) -> In x rows -> get_row pk (pk x) rows = Some x.
Proof.
  intros Hnd Hin.
  destruct (get_row pk (pk x) rows) as [y|] eqn:Hy.
  - apply get_row_Some in Hy. destruct Hy as [Hyin Hpk].
    f_equal. now apply (rows_with_one_key pk rows).
  - exfalso. unfold get_row in Hy. apply (find_none _ _ Hy) in Hin.
    now rewrite Z.eqb_refl in Hin.
Qed.

(** Saving a row over the row with its key changes, for any test, the
    number of rows that pass the test by what the two rows make of it. *)
Lemma count_replace (f : A -> bool) (rows : list A) (r r' : A) :
  NoDup (map pk rows) -> In r rows -> pk r' = pk r ->
  (List.length (filter f (map (fun x => if (pk x =? pk r')%Z then r' else x)
                            rows))
   + (if f r then 1 else 0))%nat
  = (List.length (filter f rows) + (if f r' then 1 else 0))%nat.
Proof.
  intros Hnd Hin Hpk. induction rows as [|x rows IH]; [destruct Hin|].
  cbn [map] in Hnd. apply NoDup_cons_iff in Hnd. destruct Hnd as [Hx Hnd].
  destruct Hin as [-> | Hin].
  - cbn [map filter]. rewrite Hpk, Z.eqb_refl. rewrite <- Hpk.
    rewrite replace_absent by now rewrite Hpk.
    destruct (f r), (f r'); cbn [Datatypes.length]; lia.
  - cbn [map filter].
    assert (Hne : (pk x =? pk r') = false).
    { apply Z.eqb_neq. intros E. apply Hx. rewrite E, Hpk.
      now apply in_map. }
    rewrite Hne. specialize (IH Hnd Hin).
    destruct (f x); cbn [Datatypes.length]; lia.
Qed.

End MoreTableFacts.

(** X16: a partial update never writes to an event or to a notification
    of the wait queue.  Whatever the request, the reservation and the
    outcome, the table of the events after [update] is the table before
    it, and so is the table of the notifications: an exchange changes
    neither [seats], [reserved_seats] nor [next_user_notified] of the
    event left or of the event joined, and consumes no notification. *)
Theorem update_changes_no_event (cfg : Settings) (gw : Gateway)
    (ctx : Context) (now : datetime) (instance : Reservation) (vd : Attrs)
    (w : World) :
  let w' := snd (ReservationSerializer.update cfg gw ctx now instance vd w) in
  retreats (db w') = retreats (db w)
  /\ wait_queue_notifications (db w') = wait_queue_notifications (db w).
Proof.
  cbv zeta.
  destruct (ReservationSerializer.update cfg gw ctx now instance vd w)
    as [[e | result] w'] eqn:H; cbn [snd].
  - unfold ReservationSerializer.update in H.
    apply atomic_exception in H. now rewrite H.
  - destruct (view_action ctx) eqn:Hact;
      destruct (a_retirement vd) as [new_|] eqn:Hnew.
    3:{ destruct (update_exchange_tables _ _ _ _ _ _ _ _ _ _ Hact Hnew H)
          as (current & stored & _ & _ & _ & Hret & Hnot & _).
        now split. }
    all: apply atomic_ok in H; unfold ReservationSerializer.update in H;
      unfold ReservationSerializer.super_update in H; unfold_M_in H;
      rewrite Hact in H; cbn [a_retirement ReservationSerializer.popped] in H;
      rewrite Hnew in H; run_in H; inversion H; subst; cbn [db];
      split; reflexivity.
Qed.

(** The reservation that a successful exchange answers. *)
Lemma exchange_keeps_a_canceled_copy_fields (cfg : Settings) (gw : Gateway)
    (ctx : Context) (now : datetime) (instance result : Reservation)
    (vd : Attrs) (new_ : Retreat) (w w' : World) :
  view_action ctx = partial_update ->
  a_retirement vd = Some new_ ->
  ReservationSerializer.validate (db w) ctx vd = inr vd ->
  get_row reservation_pk (reservation_pk instance) (reservations (db w))
    = Some instance ->
  ReservationSerializer.update cfg gw ctx now instance vd w
  = (inr result, w') ->
  reservation_pk result = reservation_pk instance
  /\ retreat result = retreat_pk new_
  /\ is_active result = is_active instance.
Proof.
  intros Hact Hnew Hval Hstored H.
  destruct (validated_partial_update _ _ _ Hact Hval)
    as (Hu & _ & Ha & _).
  destruct (update_exchange_tables _ _ _ _ _ _ _ _ _ _ Hact Hnew H)
    as (current & stored & _ & Hst & Hrows & _ & _ & Hres).
  cbv zeta in Hst, Hrows.
  set (fresh := next_pk reservation_pk (reservations (db w))) in *.
  rewrite (get_row_app reservation_pk _ _ _ _ Hstored) in Hst.
  inversion Hst; subst stored. clear Hst.
  set (copy := ReservationSerializer.with_pk instance fresh) in *.
  set (vd' := if Qlt_bool (price current) (price new_) then _ else _) in *.
  set (moved := ReservationSerializer.set_attrs vd' instance) in *.
  assert (Hfresh : reservation_pk instance <> fresh).
  { apply get_row_Some in Hstored. destruct Hstored as [Hin _].
    apply (next_pk_fresh reservation_pk) in Hin. unfold fresh. lia. }
  rewrite Hrows in Hres.
  rewrite get_row_save_row_other in Hres
    by (cbn [ReservationSerializer.canceled_by_exchange copy
             ReservationSerializer.with_pk reservation_pk]; congruence).
  change (reservation_pk instance) with (reservation_pk moved) in Hres.
  rewrite (get_row_save_row reservation_pk _ instance moved) in Hres
    by now apply get_row_app.
  inversion Hres; subst result. clear Hres.
  assert (Hkeys : a_is_active vd' = None /\ a_retirement vd' = Some new_).
  { unfold vd'. destruct (Qlt_bool _ _);
      cbn [ReservationSerializer.with_order_line ReservationSerializer.popped
           a_is_active a_retirement]; auto. }
  destruct Hkeys as (Ha' & Hn').
  split; [reflexivity|]. unfold moved.
  cbn [ReservationSerializer.set_attrs retreat is_active].
  rewrite Ha', Hn'. split; reflexivity.
Qed.

(** X17: what a successful exchange leaves in the table of the
    reservations.  For a stored reservation and a request that passed
    validation, the reservation keeps its key and its user, is now for the
    new event, and is as active as it was; a copy of the reservation as it
    was, for the event left, is stored under the next key as canceled by
    the user (['U']) through an exchange (['E']) at the time of the
    request; every other reservation is as it was. *)
Theorem exchange_keeps_a_canceled_copy (cfg : Settings) (gw : Gateway)
    (ctx : Context) (now : datetime) (instance result : Reservation)
    (vd : Attrs) (new_ : Retreat) (w w' : World) :
  view_action ctx = partial_update ->
  a_retirement vd = Some new_ ->
  ReservationSerializer.validate (db w) ctx vd = inr vd ->
  get_row reservation_pk (reservation_pk instance) (reservations (db w))
    = Some instance ->
  ReservationSerializer.update cfg gw ctx now instance vd w
  = (inr result, w') ->
  let fresh := next_pk reservation_pk (reservations (db w)) in
  get_row reservation_pk (reservation_pk instance) (reservations (db w'))
    = Some result
  /\ reservation_pk result = reservation_pk instance
  /\ user result = user instance
  /\ retreat result = retreat_pk new_
  /\ is_active result = is_active instance
  /\ get_row reservation_pk fresh (reservations (db w'))
     = Some {| reservation_pk := fresh; user := user instance;
               retreat := retreat instance;
               order_line := order_line instance;
               is_active := false; is_present := is_present instance;
               cancelation_reason := Some "U";
               cancelation_action := Some "E";
               cancelation_date := Some now |}
  /\ (forall id, id <> reservation_pk instance -> id <> fresh ->
        get_row reservation_pk id (reservations (db w'))
        = get_row reservation_pk id (reservations (db w))).
Proof.
  intros Hact Hnew Hval Hstored H fresh.
  destruct (validated_partial_update _ _ _ Hact Hval)
    as (Hu & _ & Ha & _).
  destruct (update_exchange_tables _ _ _ _ _ _ _ _ _ _ Hact Hnew H)
    as (current & stored & _ & Hst & Hrows & _ & _ & Hres).
  cbv zeta in Hst, Hrows. fold fresh in Hst, Hrows.
  rewrite (get_row_app reservation_pk _ _ _ _ Hstored) in Hst.
  inversion Hst; subst stored. clear Hst.
  set (copy := ReservationSerializer.with_pk instance fresh) in *.
  set (vd' := if Qlt_bool (price current) (price new_) then _ else _) in *.
  set (moved := ReservationSerializer.set_attrs vd' instance) in *.
  assert (Hfresh : reservation_pk instance <> fresh).
  { apply get_row_Some in Hstored. destruct Hstored as [Hin _].
    apply (next_pk_fresh reservation_pk) in Hin. unfold fresh. lia. }
  assert (Hmoved : get_row reservation_pk (reservation_pk instance)
                     (reservations (db w')) = Some moved).
  { rewrite Hrows. rewrite get_row_save_row_other
      by (cbn [ReservationSerializer.canceled_by_exchange copy
               ReservationSerializer.with_pk reservation_pk]; congruence).
    change (reservation_pk instance) with (reservation_pk moved).
    apply get_row_save_row with (r := instance).
    now apply get_row_app. }
  rewrite Hmoved in Hres. inversion Hres; subst result. clear Hres.
  split; [exact Hmoved|]. split; [reflexivity|].
  assert (Hkeys : a_user vd' = None /\ a_is_active vd' = None
                  /\ a_retirement vd' = Some new_).
  { unfold vd'. destruct (Qlt_bool _ _);
      cbn [ReservationSerializer.with_order_line ReservationSerializer.popped
           a_user a_is_active a_retirement]; auto. }
  destruct Hkeys as (Hu' & Ha' & Hn').
  split; [|split; [|split; [|split]]].
  - unfold moved. cbn [ReservationSerializer.set_attrs user].
    now rewrite Hu'.
  - unfold moved. cbn [ReservationSerializer.set_attrs retreat].
    now rewrite Hn'.
  - unfold moved. cbn [ReservationSerializer.set_attrs is_active].
    now rewrite Ha'.
  - rewrite Hrows.
    change fresh with (reservation_pk
                         (ReservationSerializer.canceled_by_exchange now copy)).
    apply get_row_save_row with (r := copy).
    cbn [ReservationSerializer.canceled_by_exchange reservation_pk].
    rewrite get_row_save_row_other
      by (cbn [moved ReservationSerializer.set_attrs reservation_pk copy
               ReservationSerializer.with_pk]; congruence).
    change (reservation_pk copy) with fresh.
    change fresh with (reservation_pk copy) at 1.
    apply get_row_app_new. apply next_pk_absent.
  - intros id Hid Hidf. rewrite Hrows.
    rewrite !get_row_save_row_other, get_row_app_other; try reflexivity.
    + cbn [copy ReservationSerializer.with_pk reservation_pk]. congruence.
    + cbn [moved ReservationSerializer.set_attrs reservation_pk]. congruence.
    + cbn [ReservationSerializer.canceled_by_exchange copy
           ReservationSerializer.with_pk reservation_pk]. congruence.
Qed.

(** An exchange between two rows of the same event does not pass the
    checks. *)
Lemma update_exchange_distinct (cfg : Settings) (gw : Gateway)
    (ctx : Context) (now : datetime) (instance result : Reservation)
    (vd : Attrs) (current new_ : Retreat) (w w' : World) :
  view_action ctx = partial_update ->
  a_retirement vd = Some new_ ->
  get_row retreat_pk (retreat instance) (retreats (db w)) = Some current ->
  ReservationSerializer.update cfg gw ctx now instance vd w
  = (inr result, w') ->
  retreat_pk current <> retreat_pk new_.
Proof.
  intros Hact Hnew Hcur H.
  destruct (ReservationSerializer.exchange_checks gw now instance current
              new_ (pop_token (a_payment_token vd))
              (pop_token (a_single_use_token vd))
              (find (fun p => owner p =? user instance)
                 (payment_profiles (db w))) w)
    as [[e | [[[nt nr] difference] profile']] w1] eqn:Hchecks.
  - rewrite (update_checks_raise _ _ _ _ _ _ _ _ _ _ _ Hact Hnew Hcur Hchecks)
      in H. discriminate.
  - now destruct (exchange_checks_ok _ _ _ _ _ _ _ _ _ _ _ _ _ _ Hchecks)
      as (_ & _ & _ & _ & _ & _ & Hne & _).
Qed.

(** With distinct primary keys, the rows of the reservations after a
    successful exchange: the rows before it with the reservation replaced,
    followed by the canceled copy. *)
Lemma exchange_rows (cfg : Settings) (gw : Gateway) (ctx : Context)
    (now : datetime) (instance result : Reservation) (vd : Attrs)
    (new_ : Retreat) (w w' : World) :
  view_action ctx = partial_update ->
  a_retirement vd = Some new_ ->
  NoDup (map reservation_pk (reservations (db w))) ->
  In instance (reservations (db w)) ->
  ReservationSerializer.update cfg gw ctx now instance vd w
  = (inr result, w') ->
  reservations (db w')
  = map (fun x => if reservation_pk x =? reservation_pk instance
                  then result else x) (reservations (db w))
    ++ [ReservationSerializer.canceled_by_exchange now
          (ReservationSerializer.with_pk instance
             (next_pk reservation_pk (reservations (db w))))].
Proof.
  intros Hact Hnew Hnd Hin H.
  pose proof (get_row_of_member reservation_pk _ _ Hnd Hin) as Hstored.
  destruct (update_exchange_tables _ _ _ _ _ _ _ _ _ _ Hact Hnew H)
    as (current & stored & _ & Hst & Hrows & _ & _ & Hres).
  cbv zeta in Hst, Hrows.
  set (fresh := next_pk reservation_pk (reservations (db w))) in *.
  rewrite (get_row_app reservation_pk _ _ _ _ Hstored) in Hst.
  inversion Hst; subst stored. clear Hst.
  set (copy := ReservationSerializer.with_pk instance fresh) in *.
  set (vd' := if Qlt_bool (price current) (price new_) then _ else _) in *.
  set (moved := ReservationSerializer.set_attrs vd' instance) in *.
  assert (Hfresh : reservation_pk instance <> fresh).
  { apply (next_pk_fresh reservation_pk) in Hin. unfold fresh. lia. }
  assert (Hfirst : save_row reservation_pk moved
                     (reservations (db w) ++ [copy])
                   = map (fun x => if reservation_pk x
                                      =? reservation_pk instance
                                   then moved else x) (reservations (db w))
                     ++ [copy]).
  { unfold save_row.
    assert (Hex : existsb (fun x => reservation_pk x =? reservation_pk moved)
                    (reservations (db w) ++ [copy]) = true).
    { apply existsb_exists. exists instance. split.
      - apply in_or_app. now left.
      - apply Z.eqb_refl. }
    rewrite Hex, map_app. cbn [map]. f_equal.
    change (reservation_pk copy) with fresh.
    change (reservation_pk moved) with (reservation_pk instance).
    assert ((fresh =? reservation_pk instance) = false) as ->
      by (apply Z.eqb_neq; congruence).
    reflexivity. }
  rewrite Hfirst in Hrows.
  assert (Hmoved : result = moved).
  { rewrite Hrows in Hres.
    rewrite get_row_save_row_other in Hres
      by (cbn [ReservationSerializer.canceled_by_exchange copy
               ReservationSerializer.with_pk reservation_pk]; congruence).
    rewrite <- Hfirst in Hres.
    change (reservation_pk instance) with (reservation_pk moved) in Hres.
    rewrite (get_row_save_row reservation_pk _ instance moved) in Hres
      by now apply get_row_app.
    now inversion Hres. }
  rewrite Hrows, Hmoved. unfold save_row.
  assert (Hex : existsb
                  (fun x => reservation_pk x
                            =? reservation_pk
                                 (ReservationSerializer.canceled_by_exchange
                                    now copy))
                  (map (fun x => if reservation_pk x
                                    =? reservation_pk instance
                                 then moved else x) (reservations (db w))
                   ++ [copy]) = true).
  { apply existsb_exists. exists copy. split.
    - apply in_or_app. right. now left.
    - apply Z.eqb_refl. }
  rewrite Hex, map_app. cbn [map].
  change (reservation_pk (ReservationSerializer.canceled_by_exchange now copy))
    with fresh.
  change (reservation_pk copy) with fresh. rewrite Z.eqb_refl. f_equal.
  rewrite map_map. apply map_ext_in. intros x Hx.
  destruct (Z.eqb_spec (reservation_pk x) (reservation_pk instance)) as [E|E].
  - change (reservation_pk moved) with (reservation_pk instance).
    assert ((reservation_pk instance =? fresh) = false) as ->
      by (apply Z.eqb_neq; congruence).
    reflexivity.
  - assert ((reservation_pk x =? fresh) = false) as ->; [|reflexivity].
    apply Z.eqb_neq. apply (next_pk_fresh reservation_pk) in Hx.
    unfold fresh. lia.
Qed.

Lemma count_active_reservations_length (d : DB) (r : Retreat) :
  RetirementSerializer.count_active_reservations d r
  = Z.of_nat (List.length
                (filter (fun x => is_active x && (retreat x =? retreat_pk r))
                   (reservations d))).
Proof.
  unfold RetirementSerializer.count_active_reservations.
  now rewrite filter_filter.
Qed.

(** X18: a successful exchange moves one place.  With distinct primary
    keys, after the exchange of a stored active reservation by a request
    that passed validation, the event joined has one place remaining less
    and the event left one more, as the serializer reports them. *)
Theorem exchange_moves_one_place (cfg : Settings) (gw : Gateway)
    (ctx : Context) (now : datetime) (instance result : Reservation)
    (vd : Attrs) (current new_ : Retreat) (w w' : World) :
  view_action ctx = partial_update ->
  a_retirement vd = Some new_ ->
  ReservationSerializer.validate (db w) ctx vd = inr vd ->
  NoDup (map reservation_pk (reservations (db w))) ->
  In instance (reservations (db w)) ->
  is_active instance = true ->
  get_row retreat_pk (retreat instance) (retreats (db w)) = Some current ->
  ReservationSerializer.update cfg gw ctx now instance vd w
  = (inr result, w') ->
  RetirementSerializer.get_places_remaining (db w') new_
  = RetirementSerializer.get_places_remaining (db w) new_ - 1
  /\ RetirementSerializer.get_places_remaining (db w') current
     = RetirementSerializer.get_places_remaining (db w) current + 1.
Proof.
  intros Hact Hnew Hval Hnd Hin Hactive Hcur H.
  pose proof (update_exchange_distinct _ _ _ _ _ _ _ _ _ _ _ Hact Hnew Hcur H)
    as Hne.
  pose proof (get_row_of_member reservation_pk _ _ Hnd Hin) as Hstored.
  destruct (exchange_keeps_a_canceled_copy_fields cfg gw ctx now instance
              result vd new_ w w' Hact Hnew Hval Hstored H)
    as (Hpk & Hret & Hres).
  pose proof (exchange_rows _ _ _ _ _ _ _ _ _ _ Hact Hnew Hnd Hin H) as Hrows.
  apply get_row_Some in Hcur. destruct Hcur as [_ Hcur].
  assert (Hcount : forall r : Retreat,
            (List.length
               (filter (fun x => is_active x
                                 && (retreat x =? retreat_pk r)%Z)
                  (reservations (db w')))
             + (if (retreat_pk current =? retreat_pk r)%Z then 1 else 0))%nat
            = (List.length
                 (filter (fun x => is_active x
                                   && (retreat x =? retreat_pk r)%Z)
                    (reservations (db w)))
               + (if (retreat_pk new_ =? retreat_pk r)%Z then 1 else 0))%nat).
  { intros r. rewrite Hrows, filter_app, length_app.
    cbn [filter ReservationSerializer.canceled_by_exchange is_active andb
         Datatypes.length].
    rewrite Nat.add_0_r. rewrite <- Hpk.
    pose proof (count_replace reservation_pk
                  (fun x => is_active x && (retreat x =? retreat_pk r))
                  (reservations (db w)) instance result Hnd Hin Hpk) as Hc.
    cbv beta in Hc. rewrite Hres, Hret, Hactive, <- Hcur in Hc.
    cbn [andb] in Hc. exact Hc. }
  unfold RetirementSerializer.get_places_remaining. cbv zeta.
  rewrite !count_active_reservations_length. split.
  - specialize (Hcount new_). rewrite Z.eqb_refl in Hcount.
    assert ((retreat_pk current =? retreat_pk new_) = false) as E
      by now apply Z.eqb_neq.
    rewrite E in Hcount. lia.
  - specialize (Hcount current). rewrite Z.eqb_refl in Hcount.
    assert ((retreat_pk new_ =? retreat_pk current) = false) as E
      by (apply Z.eqb_neq; congruence).
    rewrite E in Hcount. lia.
Qed.

(** ** What a cancellation leaves alone *)



(** The tables after a cancellation that answered. *)
Lemma destroy_ok_tables (cfg : Settings) (gw : Gateway) (ctx : Context)
    (now : datetime) (pk : Z) (w w' : World) (resp : Response) :
  ReservationViewSet.destroy cfg gw ctx now pk w = (inr resp, w') ->
  exists instance retreat_,
    get_row reservation_pk pk (ReservationViewSet.get_queryset ctx (db w))
    = Some instance
    /\ get_row retreat_pk (retreat instance) (retreats (db w)) = Some retreat_
    /\ (is_active instance = false -> db w' = db w)
    /\ (is_active instance = true ->
        exists action new,
          db w' = after_cancel now action instance retreat_
                    (set_refunds (db w) (refunds (db w) ++ new))
          /\ (List.length new <= 1)%nat).
Proof.
  intros H.
  destruct (destroy_ok_loaded _ _ _ _ _ _ _ _ H)
    as (instance & retreat_ & order_line_ & order_ & Hi & Hr & Hol & Ho).
  exists instance, retreat_. split; [exact Hi|]. split; [exact Hr|].
  split; intros Hact.
  - rewrite (destroy_inactive _ _ _ _ _ _ _ _ _ _ Hi Hact Hr Hol Ho) in H.
    now inversion H.
  - rewrite (destroy_loaded _ _ _ _ _ _ _ _ _ _ Hi Hr Hol Ho) in H.
    unfold atomic in H.
    destruct (ReservationViewSet.cancel _ _ _ _ _ _ _ _ w)
      as [[e | refund] w2] eqn:Hc; [discriminate|].
    inversion H; subst resp w'. clear H.
    assert (Hdb : db (if is_active instance && is_some refund
                      then {| db := db w2;
                              log := log w2 ++ [send_mail "refund"
                                                  (user instance)] |}
                      else w2) = db w2)
      by now destruct (is_active instance && is_some refund).
    rewrite Hdb.
    destruct (cancel_active_inv _ _ _ _ _ _ _ _ _ _ _ Hact Hc)
      as [_ [(_ & _ & ->) | (ol & o & paid & _ & _ & _ & _ & _ & _ & ->)]];
      cbn [db].
    + exists "N", []. split; [|cbn; lia].
      rewrite app_nil_r. f_equal. now destruct (db w).
    + exists "R", [refund_row cfg now retreat_ ol paid "Reservation canceled"
                     (db w)].
      split; [reflexivity | cbn; lia].
Qed.

(** X20: a cancellation writes to the reservation, to its event and to
    the refunds, and to nothing else.  When [destroy] answers, the orders,
    the order lines, the payment profiles, the wait queue and its
    notifications are as they were; so is every reservation but the one
    canceled and every event but its event; and at most one refund was
    added after those there were. *)
Theorem cancellation_touches_its_rows_only (cfg : Settings) (gw : Gateway)
    (ctx : Context) (now : datetime) (pk : Z) (w w' : World)
    (resp : Response) :
  ReservationViewSet.destroy cfg gw ctx now pk w = (inr resp, w') ->
  exists instance,
    get_row reservation_pk pk (ReservationViewSet.get_queryset ctx (db w))
    = Some instance
    /\ orders (db w') = orders (db w)
    /\ order_lines (db w') = order_lines (db w)
    /\ payment_profiles (db w') = payment_profiles (db w)
    /\ wait_queue (db w') = wait_queue (db w)
    /\ wait_queue_notifications (db w') = wait_queue_notifications (db w)
    /\ (forall id, id <> pk ->
          get_row reservation_pk id (reservations (db w'))
          = get_row reservation_pk id (reservations (db w)))
    /\ (forall id, id <> retreat instance ->
          get_row retreat_pk id (retreats (db w'))
          = get_row retreat_pk id (retreats (db w)))
    /\ exists new, refunds (db w') = refunds (db w) ++ new
                   /\ (List.length new <= 1)%nat.
Proof.
  intros H.
  destruct (destroy_ok_tables _ _ _ _ _ _ _ _ H)
    as (instance & retreat_ & Hi & Hr & Hno & Hyes).
  exists instance. split; [exact Hi|].
  pose proof (get_row_Some _ _ _ _ Hi) as [_ Hpk].
  pose proof (get_row_Some _ _ _ _ Hr) as [_ Hrpk].
  destruct (is_active instance) eqn:Hact.
  - destruct (Hyes eq_refl) as (action & new & -> & Hlen).
    unfold after_cancel.
    cbn [orders order_lines payment_profiles wait_queue
         wait_queue_notifications reservations retreats refunds
         set_reservations set_retreats set_refunds].
    do 5 (split; [reflexivity|]). split; [|split].
    + intros id Hid. apply get_row_save_row_other.
      cbn [ReservationViewSet.canceled_by_user reservation_pk]. congruence.
    + intros id Hid. apply get_row_save_row_other.
      destruct (negb (reserved_seats retreat_ =? 0) || _);
        cbn [with_reserved_seats retreat_pk]; congruence.
    + now exists new.
  - rewrite (Hno eq_refl). do 7 (split; [reflexivity|]).
    exists []. split; [now rewrite app_nil_r | cbn; lia].
Qed.

(** X21: a cancellation frees exactly one seat, and a full event stays
    full.  With distinct primary keys, after the cancellation of an active
    reservation the places remaining and the reserved seats of its event,
    as the serializer reports them, are together one more than they were;
    and when no place remained before, none remains after: the seat freed
    is reserved for the wait queue. *)
Theorem cancellation_frees_a_seat_or_reserves_it (cfg : Settings)
    (gw : Gateway) (ctx : Context) (now : datetime) (pk : Z) (w w' : World)
    (resp : Response) (instance : Reservation) (retreat_ : Retreat) :
  NoDup (map reservation_pk (reservations (db w))) ->
  get_row reservation_pk pk (ReservationViewSet.get_queryset ctx (db w))
    = Some instance ->
  is_active instance = true ->
  get_row retreat_pk (retreat instance) (retreats (db w)) = Some retreat_ ->
  ReservationViewSet.destroy cfg gw ctx now pk w = (inr resp, w') ->
  exists retreat',
    get_row retreat_pk (retreat_pk retreat_) (retreats (db w'))
    = Some retreat'
    /\ RetirementSerializer.get_places_remaining (db w') retreat'
       + reserved_seats retreat'
       = RetirementSerializer.get_places_remaining (db w) retreat_
         + reserved_seats retreat_ + 1
    /\ (RetirementSerializer.get_places_remaining (db w) retreat_ = 0 ->
        RetirementSerializer.get_places_remaining (db w') retreat' = 0
        /\ reserved_seats retreat' = reserved_seats retreat_ + 1).
Proof.
  intros Hnd Hi Hact Hr H.
  destruct (destroy_ok_tables _ _ _ _ _ _ _ _ H)
    as (instance' & retreat0 & Hi' & Hr' & _ & Hyes).
  rewrite Hi in Hi'. inversion Hi'; subst instance'. clear Hi'.
  rewrite Hr in Hr'. inversion Hr'; subst retreat0. clear Hr'.
  destruct (Hyes Hact) as (action & new & Hdb & _).
  set (dmid := set_refunds (db w) (refunds (db w) ++ new)) in *.
  pose proof (retreat_after_cancel now action dmid (db w) instance retreat_
                eq_refl eq_refl Hr) as Hrow.
  cbv zeta in Hrow. rewrite <- Hdb in Hrow.
  assert (Hin : In instance (reservations dmid)).
  { apply get_row_Some in Hi. destruct Hi as [Hin _].
    unfold ReservationViewSet.get_queryset in Hin.
    destruct (request_user_is_staff ctx); [exact Hin|].
    now apply filter_In in Hin. }
  pose proof (get_row_Some _ _ _ _ Hr) as [_ Hrpk].
  pose proof (total_reservations_after_cancel now action instance retreat_
                dmid Hnd Hin Hact (eq_sym Hrpk)) as Hcount.
  rewrite <- Hdb in Hcount.
  change (total_reservations dmid retreat_)
    with (total_reservations (db w) retreat_) in Hcount.
  eexists. split; [exact Hrow|].
  rewrite !get_places_remaining_places_remaining.
  unfold places_remaining.
  change (total_reservations (db w') (with_reserved_seats retreat_ _))
    with (total_reservations (db w') retreat_).
  cbn [with_reserved_seats seats reserved_seats].
  rewrite Hcount.
  destruct (Z.eqb_spec (reserved_seats retreat_) 0) as [E0|E0];
    destruct (Z.eqb_spec (seats retreat_
                          - (total_reservations (db w) retreat_ - 1)
                          - reserved_seats retreat_) 1) as [E1|E1];
    cbn [negb orb]; split; try lia; intros Hfull; lia.
Qed.

(** ** The wait queue after an unsubscription *)

Lemma created_before_trans (a b c : WaitQueue) :
  created_before a b -> created_before b c -> created_before a c.
Proof. unfold created_before. lia. Qed.

Lemma insert_first (q : WaitQueue) (l : list WaitQueue) :
  Forall (created_before q) l -> insert_by_created_at q l = q :: l.
Proof.
  intros H. destruct l as [|x l]; [reflexivity|]. cbn.
  apply Forall_inv in H. unfold created_before in H.
  now apply Z.leb_le in H as ->.
Qed.

(** Filtering commutes with the insertion into a queue in order. *)
Lemma filter_insert_by_created_at (f : WaitQueue -> bool) (q : WaitQueue)
    (l : list WaitQueue) :
  Sorted created_before l ->
  filter f (insert_by_created_at q l)
  = if f q then insert_by_created_at q (filter f l) else filter f l.
Proof.
  induction l as [|x l IH]; intros Hs.
  - cbn. now destruct (f q).
  - cbn [insert_by_created_at].
    destruct (Z.leb_spec (wq_created_at q) (wq_created_at x)) as [Hle|Hgt].
    + change (filter f (q :: x :: l))
        with (if f q then q :: filter f (x :: l) else filter f (x :: l)).
      destruct (f q); [|reflexivity].
      symmetry. apply insert_first.
      assert (Hall : Forall (created_before q) (x :: l)).
      { constructor; [exact Hle|].
        apply (Sorted_extends created_before_trans) in Hs.
        eapply Forall_impl; [|exact Hs].
        intros y Hy. now apply created_before_trans with (b := x). }
      apply Forall_forall. intros y Hy. apply filter_In in Hy.
      rewrite Forall_forall in Hall. now apply Hall.
    + cbn [filter]. apply Sorted_inv in Hs. destruct Hs as [Hs _].
      rewrite (IH Hs).
      destruct (f x), (f q); try reflexivity.
      cbn [insert_by_created_at].
      destruct (Z.leb_spec (wq_created_at q) (wq_created_at x));
        [lia | reflexivity].
Qed.

Lemma order_by_created_at_filter (f : WaitQueue -> bool)
    (l : list WaitQueue) :
  order_by_created_at (filter f l) = filter f (order_by_created_at l).
Proof.
  induction l as [|x l IH]; [reflexivity|].
  change (order_by_created_at (x :: l))
    with (insert_by_created_at x (order_by_created_at l)).
  rewrite filter_insert_by_created_at by apply order_by_created_at_sorted.
  cbn [filter]. destruct (f x); [|exact IH].
  change (order_by_created_at (x :: filter f l))
    with (insert_by_created_at x (order_by_created_at (filter f l))).
  now rewrite IH.
Qed.

Lemma filter_comm {A} (f g : A -> bool) (l : list A) :
  filter f (filter g l) = filter g (filter f l).
Proof.
  induction l as [|x l IH]; [reflexivity|]. cbn [filter].
  destruct (f x) eqn:Hf, (g x) eqn:Hg; cbn [filter];
    rewrite ?Hf, ?Hg, IH; reflexivity.
Qed.

Lemma NoDup_map_filter {A} (pk : A -> Z) (f : A -> bool) (l : list A) :
  NoDup (map pk l) -> NoDup (map pk (filter f l)).
Proof.
  induction l as [|x l IH]; cbn [map filter]; intros H; [constructor|].
  apply NoDup_cons_iff in H. destruct H as [Hx Hnd].
  destruct (f x); [|now apply IH]. cbn [map]. constructor; [|now apply IH].
  intros Hin. apply Hx. apply in_map_iff in Hin.
  destruct Hin as (y & Hy & Hyin). apply filter_In in Hyin.
  apply in_map_iff. exists y. tauto.
Qed.

Lemma retreat_wait_queue_distinct (d : DB) (r : Retreat) :
  NoDup (map wait_queue_pk (wait_queue d)) ->
  NoDup (map wait_queue_pk (retreat_wait_queue d r)).
Proof.
  intros H. unfold retreat_wait_queue.
  eapply Permutation_NoDup.
  - apply Permutation_map. apply order_by_created_at_permutation.
  - now apply NoDup_map_filter.
Qed.

(** The position [index] finds splits the queue around the entry. *)
Lemma index_split (obj : WaitQueue) (l : list WaitQueue) (pos : nat) :
  WaitQueueViewSet.index obj l = Some pos ->
  exists a x b,
    l = a ++ x :: b /\ List.length a = pos
    /\ wait_queue_pk x = wait_queue_pk obj
    /\ forall y, In y a -> wait_queue_pk y <> wait_queue_pk obj.
Proof.
  revert pos. induction l as [|y l IH]; intros pos H; [discriminate|].
  cbn [WaitQueueViewSet.index] in H.
  destruct (Z.eqb_spec (wait_queue_pk y) (wait_queue_pk obj)) as [E|E].
  - inversion H; subst pos. exists [], y, l.
    repeat split; [exact E | intros z []].
  - destruct (WaitQueueViewSet.index obj l) as [p|]; [|discriminate].
    inversion H; subst pos.
    destruct (IH p eq_refl) as (a & x & b & -> & Hlen & Hx & Ha).
    exists (y :: a), x, b. cbn [app Datatypes.length].
    repeat split; [now rewrite Hlen | exact Hx |].
    intros z [<- | Hz]; [exact E | now apply Ha].
Qed.

Lemma filter_all {A} (f : A -> bool) (l : list A) :
  (forall x, In x l -> f x = true) -> filter f l = l.
Proof.
  induction l as [|x l IH]; intros H; [reflexivity|]. cbn [filter].
  rewrite (H x) by now left. f_equal. apply IH. intros y Hy. apply H.
  now right.
Qed.

Section RemoveEntry.
Context {A : Type} (f : A -> bool).

Lemma In_firstn (n : nat) (l : list A) (y : A) : In y (firstn n l) -> In y l.
Proof.
  intros H. rewrite <- (firstn_skipn n l). apply in_or_app. now left.
Qed.

Lemma In_skipn (n : nat) (l : list A) (y : A) : In y (skipn n l) -> In y l.
Proof.
  intros H. rewrite <- (firstn_skipn n l). apply in_or_app. now right.
Qed.

(** Taking one entry out of a list, and moving a cursor that is past it
    one step back, leaves the same entries before and after the cursor. *)
Lemma remove_entry (a b : list A) (x : A) (n : nat) :
  (forall y, In y a -> f y = true) ->
  (forall y, In y b -> f y = true) ->
  f x = false ->
  let n' := if (List.length a <? n)%nat then (n - 1)%nat else n in
  filter f (a ++ x :: b) = a ++ b
  /\ firstn n' (a ++ b) = filter f (firstn n (a ++ x :: b))
  /\ skipn n' (a ++ b) = filter f (skipn n (a ++ x :: b)).
Proof.
  intros Ha Hb Hx n'.
  assert (Hfa : forall k, filter f (firstn k a) = firstn k a).
  { intros k. apply filter_all. intros y Hy. apply Ha.
    now apply In_firstn in Hy. }
  assert (Hfb : forall k, filter f (firstn k b) = firstn k b).
  { intros k. apply filter_all. intros y Hy. apply Hb.
    now apply In_firstn in Hy. }
  assert (Hsa : forall k, filter f (skipn k a) = skipn k a).
  { intros k. apply filter_all. intros y Hy. apply Ha.
    now apply In_skipn in Hy. }
  assert (Hsb : forall k, filter f (skipn k b) = skipn k b).
  { intros k. apply filter_all. intros y Hy. apply Hb.
    now apply In_skipn in Hy. }
  split; [|split].
  - rewrite filter_app. cbn [filter]. rewrite Hx.
    now rewrite (filter_all f a Ha), (filter_all f b Hb).
  - rewrite !firstn_app, filter_app. unfold n'.
    destruct (Nat.ltb_spec (List.length a) n) as [Hlt|Hge].
    + rewrite (@firstn_all2 _ n a), (@firstn_all2 _ (n - 1) a) by lia.
      destruct (n - List.length a)%nat as [|k] eqn:Hk; [lia|].
      cbn [firstn filter]. rewrite Hx, Hfb, (filter_all f a Ha).
      do 2 f_equal. lia.
    + assert ((n - List.length a)%nat = 0%nat) as -> by lia.
      cbn [firstn filter]. now rewrite Hfa.
  - rewrite !skipn_app, filter_app. unfold n'.
    destruct (Nat.ltb_spec (List.length a) n) as [Hlt|Hge].
    + rewrite (@skipn_all2 _ n a), (@skipn_all2 _ (n - 1) a) by lia.
      destruct (n - List.length a)%nat as [|k] eqn:Hk; [lia|].
      cbn [skipn filter app]. rewrite Hsb. f_equal. lia.
    + assert ((n - List.length a)%nat = 0%nat) as -> by lia.
      cbn [skipn filter]. rewrite Hx, Hsa, (filter_all f b Hb).
      reflexivity.
Qed.

End RemoveEntry.

Lemma with_next_user_notified_same (r : Retreat) :
  with_next_user_notified r (next_user_notified r) = r.
Proof. now destruct r. Qed.

(** What an unsubscription has done. *)
Lemma unsubscribe_run (ctx : Context) (pk : Z) (w : World) (obj : WaitQueue)
    (r : Retreat) (pos : nat) :
  get_row wait_queue_pk pk (WaitQueueViewSet.get_queryset ctx (db w))
    = Some obj ->
  get_row retreat_pk (wq_retreat obj) (retreats (db w)) = Some r ->
  WaitQueueViewSet.index obj (retreat_wait_queue (db w) r) = Some pos ->
  exists w',
    WaitQueueViewSet.destroy ctx pk w = (inr HTTP_204_NO_CONTENT, w')
    /\ get_row retreat_pk (retreat_pk r) (retreats (db w'))
       = Some (with_next_user_notified r (cursor_after_unsubscribe pos r))
    /\ wait_queue (db w')
       = filter (fun q => negb (wait_queue_pk q =? pk)) (wait_queue (db w)).
Proof.
  intros Hobj Hr Hpos.
  pose proof (get_row_Some _ _ _ _ Hobj) as [_ Hpk].
  pose proof (get_row_Some _ _ _ _ Hr) as [_ Hrpk].
  unfold cursor_after_unsubscribe.
  destruct (Z.of_nat pos <? next_user_notified r) eqn:Hlt.
  - eexists. split.
    { unfold WaitQueueViewSet.destroy, WaitQueueViewSet.get_object.
      unfold_M. rewrite Hobj. step. rewrite Hr. step. rewrite Hpos. step.
      rewrite Hlt. step.
      unfold WaitQueueViewSet.get_queryset in Hobj |- *.
      cbn [wait_queue set_wait_queue_notifications set_retreats].
      rewrite Hobj. reflexivity. }
    cbn [db retreats wait_queue set_retreats set_wait_queue
         set_wait_queue_notifications].
    split; [|now rewrite Hpk].
    pose proof (get_row_save_row retreat_pk (retreats (db w)) r
                  (with_next_user_notified r (next_user_notified r - 1)))
      as E.
    cbn [retreat_pk with_next_user_notified] in E.
    rewrite E; [reflexivity|]. rewrite Hrpk. exact Hr.
  - eexists. split.
    { unfold WaitQueueViewSet.destroy, WaitQueueViewSet.get_object.
      unfold_M. rewrite Hobj. step. rewrite Hr. step. rewrite Hpos. step.
      rewrite Hlt. step.
      unfold WaitQueueViewSet.get_queryset in Hobj |- *.
      cbn [wait_queue set_wait_queue_notifications set_retreats].
      rewrite Hobj. reflexivity. }
    cbn [db retreats wait_queue set_retreats set_wait_queue
         set_wait_queue_notifications].
    split; [|now rewrite Hpk].
    rewrite with_next_user_notified_same, Hrpk. exact Hr.
Qed.

(** With distinct primary keys, an unsubscription takes the entry out of
    the queue of its event and leaves the other entries in their order. *)
Lemma unsubscribe_queue (ctx : Context) (pk : Z) (w : World)
    (obj : WaitQueue) (r : Retreat) :
  NoDup (map wait_queue_pk (wait_queue (db w))) ->
  get_row wait_queue_pk pk (WaitQueueViewSet.get_queryset ctx (db w))
    = Some obj ->
  get_row retreat_pk (wq_retreat obj) (retreats (db w)) = Some r ->
  exists w' r' a x b,
    WaitQueueViewSet.destroy ctx pk w = (inr HTTP_204_NO_CONTENT, w')
    /\ get_row retreat_pk (retreat_pk r) (retreats (db w')) = Some r'
    /\ next_user_notified r'
       = cursor_after_unsubscribe (List.length a) r
    /\ retreat_wait_queue (db w) r = a ++ x :: b
    /\ retreat_wait_queue (db w') r' = a ++ b
    /\ wait_queue_pk x = pk
    /\ (forall y, In y a -> negb (wait_queue_pk y =? pk) = true)
    /\ (forall y, In y b -> negb (wait_queue_pk y =? pk) = true).
Proof.
  intros Hnd Hobj Hr.
  destruct (index_of_member obj _
              (wait_queue_object_in_queue _ _ _ _ _ Hobj Hr)) as [pos Hpos].
  pose proof (get_row_Some _ _ _ _ Hobj) as [_ Hpk].
  destruct (unsubscribe_run _ _ _ _ _ _ Hobj Hr Hpos)
    as (w' & Hrun & Hrow & Hqueue).
  destruct (index_split _ _ _ Hpos) as (a & x & b & Hsplit & Hlen & Hx & Ha).
  rewrite Hpk in Hx, Ha.
  pose proof (retreat_wait_queue_distinct (db w) r Hnd) as Hnd'.
  rewrite Hsplit, map_app in Hnd'. cbn [map] in Hnd'.
  apply NoDup_remove_2 in Hnd'.
  assert (Ha' : forall y, In y a -> negb (wait_queue_pk y =? pk) = true).
  { intros y Hy. apply negb_true_iff, Z.eqb_neq. now apply Ha. }
  assert (Hb' : forall y, In y b -> negb (wait_queue_pk y =? pk) = true).
  { intros y Hy. apply negb_true_iff, Z.eqb_neq. intros E.
    apply Hnd'. apply in_or_app. right. rewrite Hx, <- E.
    now apply in_map. }
  exists w', (with_next_user_notified r (cursor_after_unsubscribe pos r)),
    a, x, b.
  split; [exact Hrun|]. split; [exact Hrow|].
  split; [now rewrite Hlen|]. split; [exact Hsplit|].
  split; [|split; [exact Hx | split; [exact Ha' | exact Hb']]].
  unfold retreat_wait_queue in *.
  cbn [with_next_user_notified retreat_pk]. rewrite Hqueue.
  rewrite filter_comm, order_by_created_at_filter, Hsplit.
  apply (remove_entry (fun q => negb (wait_queue_pk q =? pk)) a b x 0);
    [exact Ha' | exact Hb' |].
  rewrite Hx. now rewrite Z.eqb_refl.
Qed.

(** X22: an unsubscription keeps the cursor inside the queue.  With
    distinct primary keys, when the cursor [next_user_notified] of an
    event is between 0 and the length of its queue, deleting an entry of
    the queue succeeds, makes the queue one entry shorter, and the cursor
    is again between 0 and the length of the queue. *)
Theorem unsubscribe_keeps_the_cursor_in_the_queue (ctx : Context) (pk : Z)
    (w : World) (obj : WaitQueue) (r : Retreat) :
  NoDup (map wait_queue_pk (wait_queue (db w))) ->
  get_row wait_queue_pk pk (WaitQueueViewSet.get_queryset ctx (db w))
    = Some obj ->
  get_row retreat_pk (wq_retreat obj) (retreats (db w)) = Some r ->
  0 <= next_user_notified r
    <= Z.of_nat (List.length (retreat_wait_queue (db w) r)) ->
  exists w' r',
    WaitQueueViewSet.destroy ctx pk w = (inr HTTP_204_NO_CONTENT, w')
    /\ get_row retreat_pk (retreat_pk r) (retreats (db w')) = Some r'
    /\ S (List.length (retreat_wait_queue (db w') r'))
       = List.length (retreat_wait_queue (db w) r)
    /\ 0 <= next_user_notified r'
         <= Z.of_nat (List.length (retreat_wait_queue (db w') r')).
Proof.
  intros Hnd Hobj Hr Hcur.
  destruct (unsubscribe_queue _ _ _ _ _ Hnd Hobj Hr)
    as (w' & r' & a & x & b & Hrun & Hrow & Hnext & Hq & Hq' & _).
  exists w', r'. split; [exact Hrun|]. split; [exact Hrow|].
  rewrite Hq, Hq' in *. rewrite Hnext. unfold cursor_after_unsubscribe.
  rewrite !length_app in *. cbn [Datatypes.length] in *.
  split; [lia|].
  destruct (Z.ltb_spec (Z.of_nat (List.length a)) (next_user_notified r));
    lia.
Qed.

(** X23: an unsubscription changes nobody's turn.  With distinct primary
    keys and a cursor that is not negative, after the deletion of an entry
    the queue of the event is the queue it was without that entry; the
    entries before the cursor are those that were before it, and the
    entries from the cursor on are those that were, in the same order and
    without the entry deleted. *)
Theorem unsubscribe_changes_nobodys_turn (ctx : Context) (pk : Z)
    (w : World) (obj : WaitQueue) (r : Retreat) :
  NoDup (map wait_queue_pk (wait_queue (db w))) ->
  get_row wait_queue_pk pk (WaitQueueViewSet.get_queryset ctx (db w))
    = Some obj ->
  get_row retreat_pk (wq_retreat obj) (retreats (db w)) = Some r ->
  0 <= next_user_notified r ->
  exists w' r',
    WaitQueueViewSet.destroy ctx pk w = (inr HTTP_204_NO_CONTENT, w')
    /\ get_row retreat_pk (retreat_pk r) (retreats (db w')) = Some r'
    /\ let others := filter (fun q => negb (wait_queue_pk q =? pk)) in
       let queue := retreat_wait_queue (db w) r in
       let queue' := retreat_wait_queue (db w') r' in
       queue' = others queue
       /\ firstn (Z.to_nat (next_user_notified r')) queue'
          = others (firstn (Z.to_nat (next_user_notified r)) queue)
       /\ skipn (Z.to_nat (next_user_notified r')) queue'
          = others (skipn (Z.to_nat (next_user_notified r)) queue).
Proof.
  intros Hnd Hobj Hr Hcur.
  destruct (unsubscribe_queue _ _ _ _ _ Hnd Hobj Hr)
    as (w' & r' & a & x & b & Hrun & Hrow & Hnext & Hq & Hq' & Hx & Ha & Hb).
  exists w', r'. split; [exact Hrun|]. split; [exact Hrow|].
  cbv zeta. rewrite Hq, Hq', Hnext.
  assert (Hfx : negb (wait_queue_pk x =? pk) = false)
    by (rewrite Hx; now rewrite Z.eqb_refl).
  destruct (remove_entry (fun q => negb (wait_queue_pk q =? pk)) a b x
              (Z.to_nat (next_user_notified r)) Ha Hb Hfx)
    as (Hall & Hfirst & Hskip).
  assert (Hn : Z.to_nat (cursor_after_unsubscribe (List.length a) r)
               = if (List.length a <? Z.to_nat (next_user_notified r))%nat
                 then (Z.to_nat (next_user_notified r) - 1)%nat
                 else Z.to_nat (next_user_notified r)).
  { unfold cursor_after_unsubscribe.
    destruct (Z.ltb_spec (Z.of_nat (List.length a)) (next_user_notified r)),
      (Nat.ltb_spec (List.length a) (Z.to_nat (next_user_notified r)));
      lia. }
  rewrite Hn. split; [now rewrite Hall|]. split; assumption.
Qed.

(** ** Who asks *)

(** X26: a cancellation does not depend on who asks for it.  With
    distinct primary keys, a staff requester who cancels the reservation
    of a user gets exactly what that user would get: the same answer or
    the same error, the same tables and the same calls to the outside; in
    particular the same refund decision, and the refund mail goes to the
    user of the reservation. *)
Theorem cancellation_by_staff_is_the_cancellation_by_the_user
    (cfg : Settings) (gw : Gateway) (staff owner : Context) (now : datetime)
    (w : World) (instance : Reservation) :
  NoDup (map reservation_pk (reservations (db w))) ->
  In instance (reservations (db w)) ->
  request_user_is_staff staff = true ->
  request_user_is_staff owner = false ->
  request_user owner = user instance ->
  ReservationViewSet.destroy cfg gw staff now (reservation_pk instance) w
  = ReservationViewSet.destroy cfg gw owner now (reservation_pk instance) w.
Proof.
  intros Hnd Hin Hstaff Howner Huser.
  assert (Hsame :
            get_row reservation_pk (reservation_pk instance)
              (ReservationViewSet.get_queryset staff (db w))
            = get_row reservation_pk (reservation_pk instance)
                (ReservationViewSet.get_queryset owner (db w))).
  { unfold ReservationViewSet.get_queryset. rewrite Hstaff, Howner.
    rewrite (get_row_of_member reservation_pk _ _ Hnd Hin).
    symmetry. apply get_row_of_member.
    - now apply NoDup_map_filter.
    - apply filter_In. split; [exact Hin|]. apply Z.eqb_eq. congruence. }
  unfold ReservationViewSet.destroy, ReservationViewSet.get_object.
  unfold bind at 1. unfold bind at 1. unfold get_db at 1.
  unfold bind at 3. unfold bind at 3. unfold get_db at 2.
  step. now rewrite Hsame.
Qed.

(** ** The order of an exchange that costs more *)




(** ** Exchanges that fail *)








(** ** Booking again after a cancellation *)

(** The reservations and the events after a cancellation that answered,
    as the validation of a booking reads them. *)
Lemma destroy_ok_rows (cfg : Settings) (gw : Gateway) (ctx : Context)
    (now : datetime) (pk : Z) (w w' : World) (resp : Response) :
  NoDup (map reservation_pk (reservations (db w))) ->
  ReservationViewSet.destroy cfg gw ctx now pk w = (inr resp, w') ->
  (forall x, In x (reservations (db w')) -> is_active x = true ->
             In x (reservations (db w)) /\ reservation_pk x <> pk)
  /\ (forall id r', get_row retreat_pk id (retreats (db w')) = Some r' ->
        exists r, get_row retreat_pk id (retreats (db w)) = Some r
                  /\ start_time r = start_time r'
                  /\ end_time r = end_time r').
Proof.
  intros Hnd H.
  destruct (destroy_ok_tables _ _ _ _ _ _ _ _ H)
    as (instance & retreat_ & Hi & Hr & Hno & Hyes).
  assert (Hin : In instance (reservations (db w))
                /\ reservation_pk instance = pk).
  { apply get_row_Some in Hi. destruct Hi as [Hin Hpk]. split; [|exact Hpk].
    unfold ReservationViewSet.get_queryset in Hin.
    destruct (request_user_is_staff ctx); [exact Hin|].
    now apply filter_In in Hin. }
  destruct Hin as [Hin Hpk].
  destruct (is_active instance) eqn:Hact.
  - destruct (Hyes eq_refl) as (action & new & -> & _).
    unfold after_cancel.
    cbn [reservations retreats set_reservations set_retreats set_refunds].
    split.
    + intros x Hx Hax. unfold save_row in Hx.
      assert (Hex : existsb
                      (fun y => reservation_pk y
                                =? reservation_pk
                                     (ReservationViewSet.canceled_by_user
                                        now action instance))
                      (reservations (db w)) = true).
      { apply existsb_exists. exists instance. split; [exact Hin|].
        apply Z.eqb_refl. }
      rewrite Hex in Hx.
      apply in_map_iff in Hx. destruct Hx as (y & Hy & Hyin).
      cbn [ReservationViewSet.canceled_by_user reservation_pk] in Hy.
      destruct (Z.eqb_spec (reservation_pk y) (reservation_pk instance))
        as [E|E]; subst x; [discriminate Hax|].
      split; [exact Hyin | congruence].
    + intros id r' Hr'.
      pose proof (get_row_Some _ _ _ _ Hr) as [_ Hrpk].
      set (saved := if negb (reserved_seats retreat_ =? 0) || _
                    then with_reserved_seats retreat_
                           (reserved_seats retreat_ + 1)
                    else retreat_) in *.
      assert (Hsaved : retreat_pk saved = retreat_pk retreat_
                       /\ start_time retreat_ = start_time saved
                       /\ end_time retreat_ = end_time saved).
      { unfold saved. destruct (negb _ || _); repeat split. }
      destruct Hsaved as (Hspk & Hss & Hse).
      destruct (Z.eq_dec id (retreat instance)) as [-> | Hne].
      * exists retreat_. split; [exact Hr|].
        rewrite <- Hrpk, <- Hspk in Hr'.
        rewrite (get_row_save_row retreat_pk _ retreat_ saved) in Hr'
          by (rewrite Hspk, Hrpk; exact Hr).
        inversion Hr'; subst r'. split; assumption.
      * rewrite get_row_save_row_other in Hr' by congruence.
        exists r'. repeat split. exact Hr'.
  - rewrite (Hno eq_refl). split.
    + intros x Hx Hax. split; [exact Hx|]. intros E. rewrite <- Hpk in E.
      assert (x = instance) as ->
        by now apply (rows_with_one_key reservation_pk
                        (reservations (db w))).
      congruence.
    + intros id r' Hr'. exists r'. repeat split. exact Hr'.
Qed.

(** X29: a canceled reservation does not stand in the way of a booking.
    With distinct primary keys, once a cancellation has answered, the
    creation of a reservation for the same user passes validation as soon
    as no other active reservation of the user met the requested event
    before the cancellation, whatever the event of the canceled
    reservation. *)
Theorem canceled_reservation_does_not_block_a_booking (cfg : Settings)
    (gw : Gateway) (ctx ctx' : Context) (now : datetime) (pk : Z)
    (w w' : World) (resp : Response) (attrs : Attrs) (new_ : Retreat)
    (u : Z) :
  NoDup (map reservation_pk (reservations (db w))) ->
  ReservationViewSet.destroy cfg gw ctx now pk w = (inr resp, w') ->
  view_action ctx' <> partial_update ->
  a_retirement attrs = Some new_ ->
  a_user attrs = Some u ->
  ReservationSerializer.has_unknown_lookup attrs = false ->
  (forall x r,
      In x (reservations (db w)) -> reservation_pk x <> pk ->
      user x = u -> is_active x = true ->
      get_row retreat_pk (retreat x) (retreats (db w)) = Some r ->
      Z.min (end_time r) (end_time new_)
      <= Z.max (start_time r) (start_time new_)) ->
  ReservationSerializer.validate (db w') ctx' attrs = inr attrs.
Proof.
  intros Hnd H Hact Hnew Hu Hk Hfree.
  destruct (destroy_ok_rows _ _ _ _ _ _ _ _ Hnd H) as [Hrows Hevents].
  unfold ReservationSerializer.validate. rewrite Hnew, Hu, Hk.
  assert (Hover : overlaps (start_time new_) (end_time new_)
                    (values_list_start_end (db w')
                       (filter (fun x =>
                                  negb (ReservationSerializer.matches_validated_data
                                          attrs x))
                          (filter (fun x => (user x =? u) && is_active x)
                             (reservations (db w'))))) = false).
  { apply overlaps_false_iff. intros s e Hin.
    apply values_list_In in Hin.
    destruct Hin as (x & r' & Hx & Hr' & -> & ->).
    apply filter_In in Hx. destruct Hx as [Hx _].
    apply filter_In in Hx. destruct Hx as [Hx Hua].
    apply andb_true_iff in Hua. destruct Hua as [Hux Hax].
    apply Z.eqb_eq in Hux.
    destruct (Hrows x Hx Hax) as [Hold Hpk].
    destruct (Hevents _ _ Hr') as (r & Hr & <- & <-).
    now apply (Hfree x r). }
  rewrite Hover. destruct (view_action ctx'); congruence.
Qed.

(** * The further properties on the sample data *)

Lemma sample_retreats_distinct :
  NoDup (map retreat_pk (retreats sample_db)).
Proof.
  cbn. repeat constructor; cbn; intuition discriminate.
Qed.

Lemma sample_wait_queue_distinct :
  NoDup (map wait_queue_pk (wait_queue sample_db)).
Proof.
  cbn. repeat constructor; cbn; intuition discriminate.
Qed.

Lemma reservation_of_another_user_is_not_found_witness :
  ReservationViewSet.destroy sample_settings accepting_gateway
    (request_of 2 destroy_action) sample_now 1 sample_world
  = (inl Http404, sample_world).
Proof.
  apply reservation_of_another_user_is_not_found; [reflexivity|].
  intros x Hin Hpk. cbn in Hin.
  destruct Hin as [<- | [<- | [<- | []]]]; cbn in *;
    first [discriminate Hpk | intros E; discriminate E].
Defined.

Lemma wait_queue_entry_of_another_user_is_not_found_witness :
  WaitQueueViewSet.destroy (request_of 1 destroy_action) 1 sample_world
  = (inl Http404, sample_world).
Proof.
  apply wait_queue_entry_of_another_user_is_not_found; [reflexivity|].
  intros q Hin Hpk. cbn in Hin.
  destruct Hin as [<- | [<- | [<- | []]]]; cbn in *;
    first [discriminate Hpk | intros E; discriminate E].
Defined.

Lemma invisible_retreat_is_not_found_witness :
  RetreatViewSet.notify sample_settings (request_of 1 create) sample_now 7
    hidden_world = (inl Http404, hidden_world)
  /\ RetreatViewSet.remind_users (request_of 1 create) sample_now 7
       hidden_world = (inl Http404, hidden_world)
  /\ RetreatViewSet.recap (request_of 1 create) sample_now 7 hidden_world
     = (inl Http404, hidden_world)
  /\ RetreatViewSet.destroy (request_of 1 create) 7 hidden_world
     = (inl Http404, hidden_world).
Proof.
  apply invisible_retreat_is_not_found; [reflexivity|].
  intros r Hin Hpk. cbn in Hin.
  destruct Hin as [<- | [<- | [<- | [<- | [<- | [<- | [<- | []]]]]]]];
    cbn in *; first [discriminate Hpk | now right].
Defined.


Lemma retreat_destroy_hides_the_event_witness :
  exists w',
    RetreatViewSet.destroy (staff_request destroy_action) 1 sample_world
    = (inr HTTP_204_NO_CONTENT, w')
    /\ RetreatViewSet.notify sample_settings (request_of 1 create) sample_now
         1 w' = (inl Http404, w')
    /\ RetreatViewSet.remind_users (request_of 1 create) sample_now 1 w'
       = (inl Http404, w').
Proof.
  destruct (RetreatViewSet.destroy (staff_request destroy_action) 1
              sample_world) as [[e | resp] w'] eqn:H;
    [vm_compute in H; discriminate H|].
  destruct (retreat_destroy_hides_the_event sample_settings
              (staff_request destroy_action) (request_of 1 create) sample_now
              1 sample_world w' resp sample_retreats_distinct H eq_refl)
    as (Hnotify & Hremind & _).
  exists w'. split; [|split; [exact Hnotify | exact Hremind]].
  vm_compute in H. inversion H. reflexivity.
Defined.

Lemma retreat_destroy_is_idempotent_witness :
  exists w',
    RetreatViewSet.destroy (staff_request destroy_action) 1 sample_world
    = (inr HTTP_204_NO_CONTENT, w')
    /\ RetreatViewSet.destroy (staff_request destroy_action) 1 w'
       = (inr HTTP_204_NO_CONTENT, w').
Proof.
  destruct (RetreatViewSet.destroy (staff_request destroy_action) 1
              sample_world) as [[e | resp] w'] eqn:H;
    [vm_compute in H; discriminate H|].
  pose proof (retreat_destroy_is_idempotent (staff_request destroy_action)
                (staff_request destroy_action) 1 sample_world w' resp H
                eq_refl) as Hagain.
  exists w'. split; [|exact Hagain].
  vm_compute in H. inversion H. reflexivity.
Defined.

Lemma remind_users_mails_the_active_reservations_witness :
  exists es,
    RetreatViewSet.remind_users (request_of 1 create) (timedelta_days 25) 1
      sample_world
    = (inr (RetreatViewSet.HTTP_200 None true),
       {| db := sample_db; log := es |})
    /\ Z.of_nat (List.length es) = 2.
Proof.
  destruct (remind_users_mails_the_active_reservations (request_of 1 create)
              (timedelta_days 25) 1 sample_world mega_retreat eq_refl)
    as [_ Hlate].
  destruct (Hlate ltac:(discriminate)) as (es & Hrun & Hlen & _).
  exists es. split; [exact Hrun | exact Hlen].
Defined.

Lemma recap_mails_the_active_reservations_witness :
  RetreatViewSet.recap (request_of 1 create) (timedelta_days 25) 1
    sample_world
  = (inr (RetreatViewSet.HTTP_200
            (Some RetreatViewSet.ends_in_more_than_1_day) false),
     sample_world).
Proof.
  destruct (recap_mails_the_active_reservations (request_of 1 create)
              (timedelta_days 25) 1 sample_world mega_retreat eq_refl)
    as [Hearly _].
  apply Hearly. reflexivity.
Defined.

Lemma reservation_is_linked_by_its_state_witness :
  In "/retreat/reservations/1"
    (RetirementSerializer.get_reservations sample_reverse sample_db
       mega_retreat)
  /\ ~ In "/retreat/reservations/1"
         (RetirementSerializer.get_reservations_canceled sample_reverse
            sample_db mega_retreat).
Proof.
  destruct (reservation_is_linked_by_its_state sample_reverse sample_db
              mega_retreat (sample_reservation 1 1 1 1 true)) as [Ha Hc].
  - intros a b Ha Hb. cbn in Ha, Hb.
    destruct Ha as [<- | [<- | [<- | []]]];
      destruct Hb as [<- | [<- | [<- | []]]];
      intros E; first [reflexivity | discriminate E].
  - exact sample_reservations_distinct.
  - now left.
  - reflexivity.
  - split.
    + now apply Ha.
    + intros Hin. apply Hc in Hin. discriminate Hin.
Defined.

Lemma validate_accepts_iff_no_overlap_witness :
  ReservationSerializer.validate sample_db (request_of 1 create)
    (booking_attrs 1 pricier_retreat)
  = inr (booking_attrs 1 pricier_retreat)
  /\ ReservationSerializer.validate sample_db (request_of 1 create)
       (booking_attrs 1 overlapping_retreat)
     = inl (ValidationError non_field_errors overlaps_with_another).
Proof.
  destruct (validate_accepts_iff_no_overlap sample_db (request_of 1 create)
              (booking_attrs 1 pricier_retreat) pricier_retreat 1
              ltac:(discriminate) eq_refl eq_refl eq_refl) as [Hiff _].
  destruct (validate_accepts_iff_no_overlap sample_db (request_of 1 create)
              (booking_attrs 1 overlapping_retreat) overlapping_retreat 1
              ltac:(discriminate) eq_refl eq_refl eq_refl) as [Hiff' Hor].
  split.
  - apply Hiff. intros x r Hin Hu Ha Hm Hr. cbn in Hin.
    destruct Hin as [<- | [<- | [<- | []]]]; cbn in Hu, Ha, Hr;
      try discriminate.
    inversion Hr; subst r. cbn. discriminate.
  - destruct Hor as [Hok | Hko]; [|exact Hko].
    exfalso.
    apply (proj1 Hiff' Hok (sample_reservation 1 1 1 1 true) mega_retreat
             ltac:(now left) eq_refl eq_refl eq_refl eq_refl).
    reflexivity.
Defined.

Lemma partial_update_by_non_staff_changes_nothing_witness :
  ReservationSerializer.update sample_settings accepting_gateway
    (request_of 1 partial_update) sample_now
    (sample_reservation 1 1 1 1 true) (presence_attrs true) sample_world
  = (inr (sample_reservation 1 1 1 1 true), sample_world).
Proof.
  apply (partial_update_by_non_staff_changes_nothing sample_settings
           accepting_gateway (request_of 1 partial_update) sample_now
           (sample_reservation 1 1 1 1 true) (presence_attrs true)
           sample_world mega_retreat);
    first [reflexivity | exact sample_reservations_distinct | now left].
Defined.

Lemma partial_update_by_staff_sets_is_present_witness :
  exists w',
    ReservationSerializer.update sample_settings accepting_gateway
      (staff_request partial_update) sample_now
      (sample_reservation 1 1 1 1 true) (presence_attrs true) sample_world
    = (inr (with_is_present (sample_reservation 1 1 1 1 true) true), w')
    /\ get_row reservation_pk 2 (reservations (db w'))
       = Some (sample_reservation 2 2 1 2 true)
    /\ log w' = [].
Proof.
  destruct (partial_update_by_staff_sets_is_present sample_settings
              accepting_gateway (staff_request partial_update) sample_now
              (sample_reservation 1 1 1 1 true) (presence_attrs true)
              sample_world mega_retreat true eq_refl eq_refl eq_refl eq_refl
              eq_refl ltac:(now left) eq_refl)
    as (w' & Hrun & _ & Hothers & _ & Hlog).
  exists w'. split; [exact Hrun|]. split; [|exact Hlog].
  rewrite Hothers; [reflexivity | discriminate].
Defined.

Lemma exchange_to_the_same_retreat_is_refused_witness :
  ReservationSerializer.update sample_settings accepting_gateway
    (request_of 1 partial_update) sample_now
    (sample_reservation 1 1 1 1 true)
    (exchange_attrs mega_retreat (Some "CZgD1NlBzPuSefg")) sample_world
  = (inl (ValidationError "retirement" already_assigned), sample_world).
Proof.
  apply (exchange_to_the_same_retreat_is_refused sample_settings
           accepting_gateway (request_of 1 partial_update) sample_now
           (sample_reservation 1 1 1 1 true)
           (exchange_attrs mega_retreat (Some "CZgD1NlBzPuSefg"))
           mega_retreat sample_world 1
           (sample_order_line 1 1 1 (199 # 1)));
    first [reflexivity | discriminate].
Defined.

Lemma exchange_after_the_deadline_is_refused_witness :
  ReservationSerializer.update sample_settings accepting_gateway
    (request_of 1 partial_update) (timedelta_days 25)
    (sample_reservation 1 1 1 1 true)
    (exchange_attrs cheaper_retreat None) sample_world
  = (inl (ValidationError non_field_errors maximum_exchange_date_exceeded),
     sample_world).
Proof.
  apply (exchange_after_the_deadline_is_refused sample_settings
           accepting_gateway (request_of 1 partial_update)
           (timedelta_days 25) (sample_reservation 1 1 1 1 true)
           (exchange_attrs cheaper_retreat None) mega_retreat
           cheaper_retreat sample_world 1
           (sample_order_line 1 1 1 (199 # 1)));
    first [reflexivity | discriminate].
Defined.

Lemma exchange_keeps_a_canceled_copy_witness :
  exists result w',
    ReservationSerializer.update sample_settings accepting_gateway
      (request_of 1 partial_update) sample_now
      (sample_reservation 1 1 1 1 true)
      (exchange_attrs cheaper_retreat None) sample_world
    = (inr result, w')
    /\ retreat result = 3
    /\ is_active result = true
    /\ get_row reservation_pk 4 (reservations (db w'))
       = Some {| reservation_pk := 4; user := 1; retreat := 1;
                 order_line := Some 1; is_active := false;
                 is_present := false; cancelation_reason := Some "U";
                 cancelation_action := Some "E";
                 cancelation_date := Some sample_now |}.
Proof.
  destruct (ReservationSerializer.update sample_settings accepting_gateway
              (request_of 1 partial_update) sample_now
              (sample_reservation 1 1 1 1 true)
              (exchange_attrs cheaper_retreat None) sample_world)
    as [[e | result] w'] eqn:H; [vm_compute in H; discriminate H|].
  destruct (exchange_keeps_a_canceled_copy sample_settings accepting_gateway
              (request_of 1 partial_update) sample_now
              (sample_reservation 1 1 1 1 true) result
              (exchange_attrs cheaper_retreat None) cheaper_retreat
              sample_world w' eq_refl eq_refl eq_refl eq_refl H)
    as (_ & _ & _ & Hret & Hact & Hcopy & _).
  exists result, w'. split; [reflexivity|].
  split; [exact Hret|]. split; [exact Hact | exact Hcopy].
Defined.

Lemma exchange_moves_one_place_witness :
  exists result w',
    ReservationSerializer.update sample_settings accepting_gateway
      (request_of 1 partial_update) sample_now
      (sample_reservation 1 1 1 1 true)
      (exchange_attrs cheaper_retreat None) sample_world
    = (inr result, w')
    /\ RetirementSerializer.get_places_remaining (db w') cheaper_retreat = 4
    /\ RetirementSerializer.get_places_remaining (db w') mega_retreat = 1.
Proof.
  destruct (ReservationSerializer.update sample_settings accepting_gateway
              (request_of 1 partial_update) sample_now
              (sample_reservation 1 1 1 1 true)
              (exchange_attrs cheaper_retreat None) sample_world)
    as [[e | result] w'] eqn:H; [vm_compute in H; discriminate H|].
  destruct (exchange_moves_one_place sample_settings accepting_gateway
              (request_of 1 partial_update) sample_now
              (sample_reservation 1 1 1 1 true) result
              (exchange_attrs cheaper_retreat None) mega_retreat
              cheaper_retreat sample_world w' eq_refl eq_refl eq_refl
              sample_reservations_distinct ltac:(now left) eq_refl eq_refl H)
    as (Hnew & Hold).
  exists result, w'. split; [reflexivity|].
  split; [exact Hnew | exact Hold].
Defined.


Lemma cancellation_touches_its_rows_only_witness :
  exists resp w',
    ReservationViewSet.destroy sample_settings accepting_gateway
      (request_of 1 destroy_action) sample_now 1 sample_world = (inr resp, w')
    /\ wait_queue (db w') = wait_queue sample_db
    /\ get_row reservation_pk 2 (reservations (db w'))
       = Some (sample_reservation 2 2 1 2 true).
Proof.
  destruct (ReservationViewSet.destroy sample_settings accepting_gateway
              (request_of 1 destroy_action) sample_now 1 sample_world)
    as [[e | resp] w'] eqn:H; [vm_compute in H; discriminate H|].
  destruct (cancellation_touches_its_rows_only _ _ _ _ _ _ _ _ H)
    as (instance & _ & _ & _ & _ & Hq & _ & Hothers & _).
  exists resp, w'. split; [reflexivity|]. split; [exact Hq|].
  rewrite Hothers; [reflexivity | discriminate].
Defined.

Lemma cancellation_frees_a_seat_or_reserves_it_witness :
  exists resp w' retreat',
    ReservationViewSet.destroy sample_settings accepting_gateway
      (request_of 1 destroy_action) sample_now 1 sample_world = (inr resp, w')
    /\ get_row retreat_pk 1 (retreats (db w')) = Some retreat'
    /\ RetirementSerializer.get_places_remaining sample_db mega_retreat = 0
    /\ RetirementSerializer.get_places_remaining (db w') retreat' = 0
    /\ reserved_seats retreat' = 1.
Proof.
  destruct (ReservationViewSet.destroy sample_settings accepting_gateway
              (request_of 1 destroy_action) sample_now 1 sample_world)
    as [[e | resp] w'] eqn:H; [vm_compute in H; discriminate H|].
  destruct (cancellation_frees_a_seat_or_reserves_it sample_settings
              accepting_gateway (request_of 1 destroy_action) sample_now 1
              sample_world w' resp (sample_reservation 1 1 1 1 true)
              mega_retreat sample_reservations_distinct eq_refl eq_refl
              eq_refl H)
    as (retreat' & Hrow & _ & Hfull).
  destruct (Hfull eq_refl) as [Hplaces Hreserved].
  exists resp, w', retreat'. split; [reflexivity|]. split; [exact Hrow|].
  split; [reflexivity|]. split; [exact Hplaces | exact Hreserved].
Defined.

Lemma unsubscribe_keeps_the_cursor_in_the_queue_witness :
  exists w' r',
    WaitQueueViewSet.destroy (request_of 1 destroy_action) 2 sample_world
    = (inr HTTP_204_NO_CONTENT, w')
    /\ get_row retreat_pk 5 (retreats (db w')) = Some r'
    /\ 0 <= next_user_notified r'
         <= Z.of_nat (List.length (retreat_wait_queue (db w') r')).
Proof.
  destruct (unsubscribe_keeps_the_cursor_in_the_queue
              (request_of 1 destroy_action) 2 sample_world
              {| wait_queue_pk := 2; wq_user := 1; wq_retreat := 5;
                 wq_created_at := timedelta_days 2 |}
              full_retreat sample_wait_queue_distinct eq_refl eq_refl
              ltac:(vm_compute; split; discriminate))
    as (w' & r' & Hrun & Hrow & _ & Hcur).
  exists w', r'. split; [exact Hrun|]. split; [exact Hrow | exact Hcur].
Defined.

Lemma unsubscribe_changes_nobodys_turn_witness :
  exists w' r',
    WaitQueueViewSet.destroy (request_of 1 destroy_action) 2 sample_world
    = (inr HTTP_204_NO_CONTENT, w')
    /\ get_row retreat_pk 5 (retreats (db w')) = Some r'
    /\ skipn (Z.to_nat (next_user_notified r')) (retreat_wait_queue (db w') r')
       = [{| wait_queue_pk := 3; wq_user := 5; wq_retreat := 5;
             wq_created_at := timedelta_days 3 |}].
Proof.
  destruct (unsubscribe_changes_nobodys_turn
              (request_of 1 destroy_action) 2 sample_world
              {| wait_queue_pk := 2; wq_user := 1; wq_retreat := 5;
                 wq_created_at := timedelta_days 2 |}
              full_retreat sample_wait_queue_distinct eq_refl eq_refl
              ltac:(discriminate))
    as (w' & r' & Hrun & Hrow & _ & _ & Hskip).
  exists w', r'. split; [exact Hrun|]. split; [exact Hrow|].
  rewrite Hskip. reflexivity.
Defined.

Lemma update_overlap_is_refused_witness :
  let w := {| db := set_reservations sample_db
                      (reservations sample_db
                       ++ [sample_reservation 4 1 6 1 true]);
              log := [] |} in
  exists e w',
    ReservationSerializer.update sample_settings accepting_gateway
      (request_of 1 partial_update) sample_now
      (sample_reservation 4 1 6 1 true)
      (exchange_attrs overlapping_retreat None) w = (inl e, w')
    /\ is_validation_error e = true
    /\ db w' = db w.
Proof.
  cbv zeta.
  apply (update_overlap_is_refused sample_settings accepting_gateway
           (request_of 1 partial_update) sample_now
           (sample_reservation 4 1 6 1 true)
           (exchange_attrs overlapping_retreat None) sold_out_retreat
           overlapping_retreat _ 1 (sample_order_line 1 1 1 (199 # 1))
           (sample_reservation 1 1 1 1 true) mega_retreat);
    first [reflexivity | discriminate | now left].
Defined.

Lemma cancellation_by_staff_is_the_cancellation_by_the_user_witness :
  ReservationViewSet.destroy sample_settings accepting_gateway
    (staff_request destroy_action) sample_now 1 sample_world
  = ReservationViewSet.destroy sample_settings accepting_gateway
      (request_of 1 destroy_action) sample_now 1 sample_world.
Proof.
  apply (cancellation_by_staff_is_the_cancellation_by_the_user
           sample_settings accepting_gateway (staff_request destroy_action)
           (request_of 1 destroy_action) sample_now sample_world
           (sample_reservation 1 1 1 1 true));
    first [exact sample_reservations_distinct | now left | reflexivity].
Defined.



Lemma canceled_reservation_does_not_block_a_booking_witness :
  ReservationSerializer.validate sample_db (request_of 1 create)
    (booking_attrs 1 overlapping_retreat)
  = inl (ValidationError non_field_errors overlaps_with_another)
  /\ exists resp w',
       ReservationViewSet.destroy sample_settings accepting_gateway
         (request_of 1 destroy_action) sample_now 1 sample_world
       = (inr resp, w')
       /\ ReservationSerializer.validate (db w') (request_of 1 create)
            (booking_attrs 1 overlapping_retreat)
          = inr (booking_attrs 1 overlapping_retreat).
Proof.
  split; [reflexivity|].
  destruct (ReservationViewSet.destroy sample_settings accepting_gateway
              (request_of 1 destroy_action) sample_now 1 sample_world)
    as [[e | resp] w'] eqn:H; [vm_compute in H; discriminate H|].
  exists resp, w'. split; [reflexivity|].
  apply (canceled_reservation_does_not_block_a_booking sample_settings
           accepting_gateway (request_of 1 destroy_action)
           (request_of 1 create) sample_now 1 sample_world w' resp
           (booking_attrs 1 overlapping_retreat) overlapping_retreat 1
           sample_reservations_distinct H);
    try reflexivity; try discriminate.
  intros x r Hin Hpk Hu Ha Hr. cbn in Hin.
  destruct Hin as [<- | [<- | [<- | []]]]; cbn in Hpk, Hu;
    first [now elim Hpk | discriminate Hu].
Defined.
